(** * Excel_naar_long_objectenkolom: wide worksheets to a long table

    A shallow embedding of [src/Excel_naar_long_objectenkolom.py].

    The script reads every worksheet of every workbook of a directory,
    takes the reporting period from cell C2, reshapes the wide table
    (organism, resistance label, one column per department) into one
    record per (organism, label, department), derives five 0/1 indicator
    columns from the label and finally splits the records with three
    deny rules on the organism name.

    Conventions of the embedding.
    - A Python [str] is a [string]; a character stands for the code point
      with the same number, so the texts of the model are the Latin-1
      texts (code points below 256).
    - A pandas cell is a [cell]; a DataFrame read from a worksheet is a
      [Frame], a list of named columns over a common number of rows.
    - The long table is a list of [LongRecord].
    - A Python exception is an [exn] (class and message); a call that can
      raise returns a [result].  [try ... except Exception as e] is
      [try_except].
    - pandas and the spreadsheet reader are libraries; their calls are
      modelled by the behaviour of pandas 2 from 2.1 on, the versions
      that have [DataFrame.map] (line 85).  Columns hold Python objects,
      with one exception that the control flow depends on: the columns
      made by lines 88 and 90 become [float64] when no text is left in
      them, and [.str] raises on such a column ([dtype_na_replace],
      [str_accessor]).
    - The headers of a worksheet are texts; a sheet with a number as a
      header is outside the frames of the model. *)

From Stdlib Require Import List ZArith Lia Ascii String Bool Permutation.
From Stdlib Require Import DecimalString.
From stdpp Require Import gmap strings.
Import ListNotations.

Local Open Scope string_scope.
Local Open Scope list_scope.
Local Open Scope Z_scope.

(* ===================================================================== *)
(** ** Python exceptions and results *)
(* ===================================================================== *)

Inductive exn_klasse :=
| Exception | IndexError | KeyError | ValueError | NameError
| TypeError | AttributeError.

Record exn := mk_exn { klasse : exn_klasse; bericht : string }.

(** What a call returns: a value, or the exception it raised. *)
Inductive result (A : Type) :=
| Ok (a : A)
| Raise (e : exn).

Arguments Ok {A} a.
Arguments Raise {A} e.

#[export] Instance result_ret : MRet result := fun _ a => Ok a.

#[export] Instance result_bind : MBind result := fun _ _ k r =>
  match r with
  | Ok a => k a
  | Raise e => Raise e
  end.

(** [try: body / except Exception as e: handler e].  Every class of
    [exn_klasse] derives from [Exception], so the handler sees them all. *)
Definition try_except {A} (body : result A) (handler : exn -> result A)
  : result A :=
  match body with
  | Ok a => Ok a
  | Raise e => handler e
  end.

Definition is_ok {A} (r : result A) : bool :=
  match r with Ok _ => true | Raise _ => false end.

(* ===================================================================== *)
(** ** Characters and strings *)
(* ===================================================================== *)

Definition code (c : ascii) : N := N_of_ascii c.

(** [str.isspace] on the code points below 256. *)
Definition isspace (c : ascii) : bool :=
  let n := code c in
  ((9 <=? n) && (n <=? 13) || (28 <=? n) && (n <=? 32)
   || (n =? 133) || (n =? 160))%N.

(** Simple lower-casing of a code point below 256: A-Z, and the Latin-1
    capitals 192-222 without the multiplication sign 215. *)
Definition char_lower (c : ascii) : ascii :=
  let n := code c in
  if ((65 <=? n) && (n <=? 90)
      || (192 <=? n) && (n <=? 222) && negb (n =? 215))%N
  then ascii_of_N (n + 32) else c.

Fixpoint str_map (f : ascii -> ascii) (s : string) : string :=
  match s with
  | EmptyString => EmptyString
  | String c s' => String (f c) (str_map f s')
  end.

(** [s.lower()] *)
Definition lower (s : string) : string := str_map char_lower s.

Fixpoint lstrip (s : string) : string :=
  match s with
  | EmptyString => EmptyString
  | String c s' => if isspace c then lstrip s' else s
  end.

Fixpoint rstrip (s : string) : string :=
  match s with
  | EmptyString => EmptyString
  | String c s' =>
      match rstrip s' with
      | EmptyString => if isspace c then EmptyString else String c EmptyString
      | r => String c r
      end
  end.

(** [s.strip()] *)
Definition strip (s : string) : string := rstrip (lstrip s).

Definition nbsp : ascii := ascii_of_N 160.

(** [x.replace('\xa0', ' ')] *)
Definition replace_nbsp (s : string) : string :=
  str_map (fun c => if Ascii.eqb c nbsp then " "%char else c) s.

(** [s.endswith(suffix)] *)
Definition endswith (s suffix : string) : bool :=
  let n := String.length s in
  let k := String.length suffix in
  (k <=? n)%nat && String.eqb (substring (n - k) k s) suffix.

(** [sep.join(l)] *)
Fixpoint join (sep : string) (l : list string) : string :=
  match l with
  | [] => ""
  | [x] => x
  | x :: rest => x +:+ sep +:+ join sep rest
  end.

(* ===================================================================== *)
(** ** The regular expressions of [str.contains] *)
(* ===================================================================== *)

(** [Series.str.contains(pat, case=..., na=False)] searches every text
    with [re.search].  The patterns of this program are made of literal
    characters, the wildcard [.] and the alternation [|]; that is the
    fragment modelled. *)
Inductive atom :=
| Lit (c : ascii)
| AnyChar.

Definition regex := list (list atom).

Definition atom_of_char (c : ascii) : atom :=
  if Ascii.eqb c "."%char then AnyChar else Lit c.

(** Split the pattern at every [|]; each piece is a sequence of atoms. *)
Fixpoint parse_alts (s : string) (cur : list atom) : regex :=
  match s with
  | EmptyString => [rev cur]
  | String c s' =>
      if Ascii.eqb c "|"%char then rev cur :: parse_alts s' []
      else parse_alts s' (atom_of_char c :: cur)
  end.

Definition re_compile (pat : string) : regex := parse_alts pat [].

(** The characters that mean something else to [re] than themselves and
    are outside the fragment. *)
Definition buiten_fragment (c : ascii) : bool :=
  existsb (Ascii.eqb c)
    (list_ascii_of_string "\^$*+?{}[]()").

Fixpoint in_fragment (s : string) : bool :=
  match s with
  | EmptyString => true
  | String c s' => negb (buiten_fragment c) && in_fragment s'
  end.

Definition newline : ascii := ascii_of_N 10.

(** One atom against one character; [ci] is [re.IGNORECASE]. *)
Definition atom_match (ci : bool) (a : atom) (c : ascii) : bool :=
  match a with
  | AnyChar => negb (Ascii.eqb c newline)
  | Lit p =>
      if ci then Ascii.eqb (char_lower p) (char_lower c) else Ascii.eqb p c
  end.

(** The sequence matches a prefix of the text. *)
Fixpoint match_here (ci : bool) (alt : list atom) (s : string) : bool :=
  match alt with
  | [] => true
  | a :: alt' =>
      match s with
      | EmptyString => false
      | String c s' => atom_match ci a c && match_here ci alt' s'
      end
  end.

(** [re.search(pat, s) is not None]: some alternative matches at some
    position. *)
Fixpoint re_search (ci : bool) (re : regex) (s : string) : bool :=
  existsb (fun alt => match_here ci alt s) re
  || match s with
     | EmptyString => false
     | String _ s' => re_search ci re s'
     end.

(* ===================================================================== *)
(** ** Cells *)
(* ===================================================================== *)

(** The value of one cell as pandas delivers it: missing, a text, a
    number (the observations are counts) or a date. *)
Inductive cell :=
| NaN
| Tekst (s : string)
| Getal (z : Z)
| Datum (jaar maand dag : Z).

(** [pd.isna(x)] *)
Definition isna (c : cell) : bool :=
  match c with NaN => true | _ => false end.

(** [Series.str.contains(pat, case=case, na=False)] on one element of a
    column that has the [.str] accessor ([str_accessor] below): the
    search on a text, [False] on everything else. *)
Definition str_contains (pat : string) (case : bool) (c : cell) : bool :=
  match c with
  | Tekst s => re_search (negb case) (re_compile pat) s
  | _ => false
  end.

(* ===================================================================== *)
(** ** The dtype of a column and the [.str] accessor *)
(* ===================================================================== *)

(** pandas keeps a dtype per column.  Two matter here: a column of
    Python objects, in which texts live, and [float64], which holds
    numbers and missing values only. *)
Inductive dtype := dtype_object | dtype_float64.

(** The dtype of a column made by lines 88 and 90, from its cleaned
    cells.  [astype(str)] gives an object column of texts; the last
    step, [.replace('', np.nan)], replaces the empty texts and then, in
    pandas 2, converts the column to the narrowest dtype that holds its
    values: [float64] when no text is left.  A column without an empty
    text is returned as it is. *)
Definition dtype_na_replace (kolom : list cell) : dtype :=
  match kolom with
  | [] => dtype_object
  | _ => if forallb isna kolom then dtype_float64 else dtype_object
  end.

Definition is_tekst (c : cell) : bool :=
  match c with Tekst _ => true | _ => false end.

Definition is_getal (c : cell) : bool :=
  match c with Getal _ => true | _ => false end.

Definition is_datum (c : cell) : bool :=
  match c with Datum _ _ _ => true | _ => false end.

(** The validation of [.str] on an object column: the kind pandas infers
    from the values that are not missing must be a text kind, a mixed
    kind or none at all; a column of numbers only, or of dates only, is
    refused. *)
Definition str_toegestaan (kolom : list cell) : bool :=
  match List.filter (fun c => negb (isna c)) kolom with
  | [] => true
  | v => negb (forallb is_getal v) && negb (forallb is_datum v)
  end.

(** [Series.str]: the accessor validates the column before any method
    runs.  A [float64] column is refused, whatever it holds. *)
Definition str_accessor (d : dtype) (kolom : list cell) : result unit :=
  match d with
  | dtype_float64 =>
      Raise (mk_exn AttributeError
               "Can only use .str accessor with string values!")
  | dtype_object =>
      if str_toegestaan kolom then Ok tt
      else Raise (mk_exn AttributeError
                    "Can only use .str accessor with string values!")
  end.

(* ===================================================================== *)
(** ** DataFrames *)
(* ===================================================================== *)

(** A DataFrame with string column labels: the number of rows (the length
    of its index) and the columns in order, each a label and its cells.
    Labels may repeat. *)
Record Frame := mk_frame {
  nrows : nat;
  kolommen : list (string * list cell)
}.

(** [df.columns] *)
Definition columns (df : Frame) : list string := map fst (kolommen df).

(** Every column has one cell per row. *)
Definition rechthoekig (df : Frame) : Prop :=
  Forall (fun k => length (snd k) = nrows df) (kolommen df).

(** Cell [i] of a column. *)
Definition cel (i : nat) (cells : list cell) : cell := nth i cells NaN.

(** Boolean indexing: keep the elements whose mask entry is [True]. *)
Fixpoint select {A} (mask : list bool) (l : list A) : list A :=
  match mask, l with
  | b :: mask', x :: l' =>
      if b then x :: select mask' l' else select mask' l'
  | _, _ => []
  end.

Definition count_true (mask : list bool) : nat :=
  length (List.filter (fun b => b) mask).

(** [df.iloc[:, 2:]] *)
Definition iloc_vanaf_2 (df : Frame) : Frame :=
  {| nrows := nrows df; kolommen := skipn 2 (kolommen df) |}.

(** Row [i] has a value in some column. *)
Definition rij_notna (df : Frame) (i : nat) : bool :=
  existsb (fun k => negb (isna (cel i (snd k)))) (kolommen df).

(** [df.dropna(how='all')]: drop the rows without any value. *)
Definition dropna_rijen (df : Frame) : Frame :=
  let mask := map (rij_notna df) (seq 0 (nrows df)) in
  {| nrows := count_true mask;
     kolommen := map (fun k => (fst k, select mask (snd k))) (kolommen df) |}.

(** [df.dropna(axis=1, how='all')]: drop the columns without any value. *)
Definition dropna_kolommen (df : Frame) : Frame :=
  {| nrows := nrows df;
     kolommen :=
       List.filter (fun k => existsb (fun c => negb (isna c)) (snd k))
         (kolommen df) |}.

(** [df.columns = df.columns.str.strip()] *)
Definition strip_columns (df : Frame) : Frame :=
  {| nrows := nrows df;
     kolommen := map (fun k => (strip (fst k), snd k)) (kolommen df) |}.

(** [df.map(f)]: [f] on every cell. *)
Definition df_map (f : cell -> cell) (df : Frame) : Frame :=
  {| nrows := nrows df;
     kolommen := map (fun k => (fst k, map f (snd k))) (kolommen df) |}.

(** [lambda x: x.replace('\xa0', ' ') if isinstance(x, str) else x] *)
Definition normaliseer_nbsp (c : cell) : cell :=
  match c with
  | Tekst s => Tekst (replace_nbsp s)
  | _ => c
  end.

(** [df.iloc[:, i]] *)
Definition iloc_kolom (df : Frame) (i : nat) : result (list cell) :=
  match nth_error (kolommen df) i with
  | Some k => Ok (snd k)
  | None =>
      Raise (mk_exn IndexError "single positional indexer is out-of-bounds")
  end.

(** [df[naam] = waarden]: every column labelled [naam] takes the new
    cells; without such a column a new last column is added. *)
Definition setitem (df : Frame) (naam : string) (waarden : list cell)
  : Frame :=
  if existsb (String.eqb naam) (columns df)
  then {| nrows := nrows df;
          kolommen := map (fun k => if String.eqb (fst k) naam
                                    then (naam, waarden) else k)
                          (kolommen df) |}
  else {| nrows := nrows df;
          kolommen := kolommen df ++ [(naam, waarden)] |}.

(** [df[labels]]: for every label, in order, all the columns that carry
    it; a label that no column carries is a [KeyError]. *)
Fixpoint getitem_kolommen (cols : list (string * list cell))
  (labels : list string) : result (list (string * list cell)) :=
  match labels with
  | [] => Ok []
  | l :: rest =>
      match List.filter (fun k => String.eqb (fst k) l) cols with
      | [] => Raise (mk_exn KeyError (l +:+ " not in index"))
      | hits => tl ← getitem_kolommen cols rest; Ok (hits ++ tl)
      end
  end.

Definition getitem (df : Frame) (labels : list string) : result Frame :=
  cols ← getitem_kolommen (kolommen df) labels;
  Ok {| nrows := nrows df; kolommen := cols |}.

(** [df.loc[:, ~df.columns.duplicated()]]: of the columns sharing a label
    only the first stays.  [gezien] holds the labels met so far. *)
Fixpoint eerste_per_label (gezien : list string)
  (cols : list (string * list cell)) : list (string * list cell) :=
  match cols with
  | [] => []
  | k :: rest =>
      if existsb (String.eqb (fst k)) gezien
      then eerste_per_label gezien rest
      else k :: eerste_per_label (fst k :: gezien) rest
  end.

Definition drop_duplicated (df : Frame) : Frame :=
  {| nrows := nrows df; kolommen := eerste_per_label [] (kolommen df) |}.

(** [df[naam]] for a label that one column carries. *)
Definition kolom (df : Frame) (naam : string) : result (list cell) :=
  match List.find (fun k => String.eqb (fst k) naam) (kolommen df) with
  | Some k => Ok (snd k)
  | None => Raise (mk_exn KeyError naam)
  end.

(** One row of the melted frame, before the derived columns. *)
Record MeltRij := mk_melt {
  m_Organisme : cell;
  m_Resistentie : cell;
  m_Afdeling : string;
  m_Waarde : cell
}.

Definition id_vars : list string := ["Organisme"; "Resistentie"].

Definition is_id_var (naam : string) : bool :=
  existsb (String.eqb naam) id_vars.

(** The value columns of [melt]: all the columns that are no [id_vars]. *)
Definition value_vars (df : Frame) : list (string * list cell) :=
  List.filter (fun k => negb (is_id_var (fst k))) (kolommen df).

Definition value_name : string := "Waarde".

(** [df.melt(id_vars=['Organisme', 'Resistentie'], var_name='Afdeling',
    value_name='Waarde')]: the value columns one after the other, each
    with all the rows in order.  The documentation of [DataFrame.melt]
    says of [value_name]: "Name to use for the 'value' column, can't be
    an existing column label"; the call raises a [ValueError] on a frame
    that has a column with that label. *)
Definition melt (df : Frame) : result (list MeltRij) :=
  if existsb (String.eqb value_name) (columns df)
  then Raise (mk_exn ValueError
                "value_name (Waarde) cannot match an element in the DataFrame columns.")
  else
    org ← kolom df "Organisme";
    res ← kolom df "Resistentie";
    Ok (flat_map
          (fun k => map (fun i => mk_melt (cel i org) (cel i res)
                                          (fst k) (cel i (snd k)))
                        (seq 0 (nrows df)))
          (value_vars df)).

(** [lst[lo:hi]] for [0 <= lo], [0 <= hi]. *)
Definition slice {A} (lo hi : nat) (l : list A) : list A :=
  firstn (hi - lo) (skipn lo l).

(* ===================================================================== *)
(** ** Dates: [pd.to_datetime(x, format='%d-%m-%Y')] *)
(* ===================================================================== *)

Definition cijfer (c : ascii) : option Z :=
  let n := code c in
  if ((48 <=? n) && (n <=? 57))%N then Some (Z.of_N n - 48) else None.

(** A digit between [lo] and [hi] at the head of the text. *)
Definition neem_cijfer (lo hi : Z) (s : string) : list (Z * string) :=
  match s with
  | String c rest =>
      match cijfer c with
      | Some v => if (lo <=? v) && (v <=? hi) then [(v, rest)] else []
      | None => []
      end
  | EmptyString => []
  end.

Definition neem_char (ch : ascii) (s : string) : list string :=
  match s with
  | String c rest => if Ascii.eqb c ch then [rest] else []
  | EmptyString => []
  end.

(** The reading of a format piece: every way it matches a prefix of the
    text, with what it read and the rest of the text, in the order in
    which the library tries the alternatives. *)
Definition lezer (A : Type) : Type := string -> list (A * string).

(** First [p], then [q] on the rest. *)
Definition dan {A B} (p : lezer A) (q : A -> lezer B) : lezer B :=
  fun s => flat_map (fun ar => q (fst ar) (snd ar)) (p s).

(** The literal character [ch], then [q]. *)
Definition dan_char {B} (ch : ascii) (q : lezer B) : lezer B :=
  fun s => flat_map q (neem_char ch s).

Definition klaar {A} (a : A) : lezer A := fun s => [(a, s)].

(** Two digits, the first in [lo1..hi1], the second in [lo2..hi2]. *)
Definition neem_twee (lo1 hi1 lo2 hi2 : Z) : lezer Z :=
  dan (neem_cijfer lo1 hi1)
    (fun a => dan (neem_cijfer lo2 hi2) (fun b => klaar (10 * a + b))).

(** [%d]: the alternatives [3[0-1]|[1-2]\d|0[1-9]|[1-9]| [1-9]] in the
    order the library tries them. *)
Definition neem_dag : lezer Z :=
  fun s =>
    neem_twee 3 3 0 1 s ++ neem_twee 1 2 0 9 s ++ neem_twee 0 0 1 9 s
    ++ neem_cijfer 1 9 s
    ++ dan_char " " (neem_cijfer 1 9) s.

(** [%m]: [1[0-2]|0[1-9]|[1-9]] *)
Definition neem_maand : lezer Z :=
  fun s => neem_twee 1 1 0 2 s ++ neem_twee 0 0 1 9 s ++ neem_cijfer 1 9 s.

(** [%Y]: four digits *)
Definition neem_jaar : lezer Z :=
  dan (neem_twee 0 9 0 9)
    (fun ab => dan (neem_twee 0 9 0 9) (fun cd => klaar (100 * ab + cd))).

(** [%d-%m-%Y]: day, month and year read, and the text that is left. *)
Definition match_dmY : lezer (Z * Z * Z) :=
  dan neem_dag (fun d =>
    dan_char "-" (dan neem_maand (fun m =>
      dan_char "-" (dan neem_jaar (fun y => klaar (d, m, y)))))).

Definition schrikkeljaar (y : Z) : bool :=
  ((y mod 4 =? 0) && negb (y mod 100 =? 0)) || (y mod 400 =? 0).

Definition dagen_in_maand (y m : Z) : Z :=
  if m =? 2 then (if schrikkeljaar y then 29 else 28)
  else if (m =? 4) || (m =? 6) || (m =? 9) || (m =? 11) then 30
  else 31.

(** Lexicographic order on (year, month, day). *)
Definition datum_leb (a b : Z * Z * Z) : bool :=
  let '(y1, m1, d1) := a in
  let '(y2, m2, d2) := b in
  (y1 <? y2) || ((y1 =? y2) && ((m1 <? m2) || ((m1 =? m2) && (d1 <=? d2)))).

(** The days a nanosecond [Timestamp] can hold at midnight, the range of
    pandas 2. *)
Definition in_timestamp_bereik (y m d : Z) : bool :=
  datum_leb (1677, 9, 22) (y, m, d) && datum_leb (y, m, d) (2262, 4, 11).

(** The texts the library reads as a missing date. *)
Definition nat_strings : list string :=
  ["NaT"; "nat"; "NAT"; "nan"; "NaN"; "NAN"].

(** A [Timestamp] (its date) or [NaT]. *)
Definition tijdstip := option (Z * Z * Z).

(** The [Timestamp] of a calendar day. *)
Definition maak_tijdstip (y m d : Z) : result tijdstip :=
  if negb ((1 <=? y) && (1 <=? m) && (m <=? 12)
           && (1 <=? d) && (d <=? dagen_in_maand y m))
  then Raise (mk_exn ValueError "day is out of range for month")
  else if in_timestamp_bereik y m d then Ok (Some (y, m, d))
  else Raise (mk_exn ValueError "Out of bounds nanosecond timestamp").

(** [pd.to_datetime(x, format='%d-%m-%Y')]: a date is returned as it is,
    a text has to match the format from its first to its last character,
    a number never does; a missing value and the texts of [nat_strings]
    give [NaT]. *)
Definition to_datetime (x : cell) : result tijdstip :=
  match x with
  | NaN => Ok None
  | Datum y m d => maak_tijdstip y m d
  | Getal _ => Raise (mk_exn ValueError "time data doesn't match format")
  | Tekst s =>
      if (String.length s =? 0)%nat || existsb (String.eqb s) nat_strings
      then Ok None
      else match match_dmY s with
           | (d, m, y, rest) :: _ =>
               if (String.length rest =? 0)%nat then maak_tijdstip y m d
               else Raise (mk_exn ValueError "unconverted data remains")
           | [] => Raise (mk_exn ValueError "time data doesn't match format")
           end
  end.

(** [datum.year] and [datum.month]; both are [nan] on [NaT]. *)
Definition year (t : tijdstip) : cell :=
  match t with Some (y, _, _) => Getal y | None => NaN end.

Definition month (t : tijdstip) : cell :=
  match t with Some (_, m, _) => Getal m | None => NaN end.

(* ===================================================================== *)
(** ** Workbooks *)
(* ===================================================================== *)

(** A worksheet, as the two reads of the program see it:
    - [ws_kolom_C] is [pd.read_excel(xls, sheet_name=sheet, header=None,
      nrows=2, usecols="C")]: column C of the first two rows (fewer cells
      when the sheet has fewer rows);
    - [ws_tabel] is [pd.read_excel(xls, sheet_name=sheet, skiprows=2)]:
      the table whose header is the third row.
    Either read may raise inside the library. *)
Record Worksheet := mk_ws {
  ws_naam : string;
  ws_kolom_C : result (list cell);
  ws_tabel : result Frame
}.

(** [pd.ExcelFile]: the worksheets in file order. *)
Definition ExcelFile := list Worksheet.

(** [xls.sheet_names] *)
Definition sheet_names (xls : ExcelFile) : list string := map ws_naam xls.

Definition werkblad (xls : ExcelFile) (sheet : string) : result Worksheet :=
  match List.find (fun w => String.eqb (ws_naam w) sheet) xls with
  | Some w => Ok w
  | None => Raise (mk_exn ValueError ("Worksheet named '" +:+ sheet
                                      +:+ "' not found"))
  end.

Definition read_excel_kolom_C (xls : ExcelFile) (sheet : string)
  : result (list cell) :=
  w ← werkblad xls sheet; ws_kolom_C w.

Definition read_excel_skiprows_2 (xls : ExcelFile) (sheet : string)
  : result Frame :=
  w ← werkblad xls sheet; ws_tabel w.

(** [datumcel.iloc[1, 0]] on the one-column frame of
    [read_excel_kolom_C]: the second cell of its column.  A frame of one
    row has no second cell; the frame of an empty sheet has no column
    either. *)
Definition iloc_1_0 (datumcel : list cell) : result cell :=
  match datumcel with
  | _ :: c :: _ => Ok c
  | [_] =>
      Raise (mk_exn IndexError
               "index 1 is out of bounds for axis 0 with size 1")
  | [] =>
      Raise (mk_exn IndexError
               "index 0 is out of bounds for axis 0 with size 0")
  end.

(* ===================================================================== *)
(** ** The exceptions the program raises *)
(* ===================================================================== *)

(** line 38 *)
Definition MissingDateError (bestand sheet : string) : exn :=
  mk_exn Exception
    ("Geen datum gevonden in C2: " +:+ bestand +:+ ", tabblad: " +:+ sheet).

(** line 43 *)
Definition InvalidDateError (bestand sheet : string) (e : exn) : exn :=
  mk_exn Exception
    ("Fout bij het lezen van datum uit C2: " +:+ bestand +:+ ", tabblad: "
     +:+ sheet +:+ ", foutmelding: " +:+ bericht e).

(** line 106 *)
Definition EmptySheetError (bestand sheet : string) : exn :=
  mk_exn Exception
    ("Geen data gevonden in tabel: " +:+ bestand +:+ ", tabblad: " +:+ sheet).

(** line 121 *)
Definition SheetProcessingError (bestand sheet : string) (e : exn) : exn :=
  mk_exn Exception
    ("Fout bij het inlezen van tabel: " +:+ bestand +:+ ", tabblad: "
     +:+ sheet +:+ ", foutmelding: " +:+ bericht e).

(** line 139 *)
Definition WorkbookOpenError (bestand : string) (e : exn) : exn :=
  mk_exn Exception
    ("Fout bij het openen van bestand: " +:+ bestand +:+ ", foutmelding: "
     +:+ bericht e).

(** line 205 *)
Definition NoDataFoundError : exn :=
  mk_exn Exception "Geen data gevonden in de opgegeven map.".

(** line 217 *)
Definition CombineError (e : exn) : exn :=
  mk_exn Exception
    ("Fout bij het combineren van dataframes, foutmelding: " +:+ bericht e).

(* ===================================================================== *)
(** ** lees_datum_uit_cel *)
(* ===================================================================== *)

Definition lees_datum_uit_cel (xls : ExcelFile) (sheet bestand : string)
  : result (cell * cell) :=
  try_except
    (datumcel ← read_excel_kolom_C xls sheet;
     datumwaarde ← iloc_1_0 datumcel;
     if isna datumwaarde
     then Raise (MissingDateError bestand sheet)
     else datum ← to_datetime datumwaarde;
          Ok (year datum, month datum))
    (fun e => Raise (InvalidDateError bestand sheet e)).

(* ===================================================================== *)
(** ** The long table *)
(* ===================================================================== *)

Record LongRecord := mk_long {
  Organisme : cell;
  Resistentie : cell;
  Afdeling : string;
  Waarde : cell;
  BRMO : Z;
  ESBL : Z;
  VRE : Z;
  MRSA : Z;
  CARBA : Z;
  Jaar : cell;
  Maand : cell
}.

(** [.astype(int)] of a boolean *)
Definition astype_int (b : bool) : Z := if b then 1 else 0.

(** lines 109-117: the five derived columns and the period. *)
Definition voeg_kolommen_toe (jaar maand : cell) (r : MeltRij)
  : LongRecord :=
  let res := m_Resistentie r in
  {| Organisme := m_Organisme r;
     Resistentie := res;
     Afdeling := m_Afdeling r;
     Waarde := m_Waarde r;
     BRMO := astype_int (str_contains "BRMO|ESBL|VRE|MRSA|CARBA" false res);
     ESBL := astype_int (str_contains "ESBL" false res);
     VRE := astype_int (str_contains "VRE" false res);
     MRSA := astype_int (str_contains "MRSA" false res);
     CARBA := astype_int (str_contains "CARBA" false res);
     Jaar := jaar;
     Maand := maand |}.

(** [idx[-1]] *)
Definition index_min_1 (l : list string) : result string :=
  match last l with
  | Some x => Ok x
  | None => Raise (mk_exn IndexError "index -1 is out of bounds for axis 0")
  end.

Section Verwerking.

(** [str(x)] of a number or a date.  No step of the program looks into
    these texts, so the rendering, which in pandas also follows the
    dtype of the column (3 or 3.0), is left open. *)
Variable str_scalar : cell -> string.

(** [.astype(str)] on one cell *)
Definition astype_str (c : cell) : string :=
  match c with
  | NaN => "nan"
  | Tekst s => s
  | _ => str_scalar c
  end.

(** [.replace(a, b)] of a Series on one text: the whole value is compared. *)
Definition replace_waarde (a b s : string) : string :=
  if String.eqb s a then b else s.

(** lines 88 and 90, on one cell:
    [.astype(str).replace('nan', '').str.strip().replace('', np.nan)] *)
Definition schoon (c : cell) : cell :=
  let s := strip (replace_waarde "nan" "" (astype_str c)) in
  if String.eqb s "" then NaN else Tekst s.

(** lines 80-95: the frame that is melted. *)
Definition bereid_voor (xls : ExcelFile) (sheet : string) : result Frame :=
  df ← read_excel_skiprows_2 xls sheet;
  let df := iloc_vanaf_2 df in
  let df := dropna_kolommen (dropna_rijen df) in
  let df := strip_columns df in
  let df := df_map normaliseer_nbsp df in
  k0 ← iloc_kolom df 0;
  let df := setitem df "Organisme" (map schoon k0) in
  k1 ← iloc_kolom df 1;
  let df := setitem df "Resistentie" (map schoon k1) in
  let cols := columns df in
  laatste ← index_min_1 cols;
  let afdelingskolommen :=
    if String.eqb laatste "Organisme"
    then slice 2 (length cols - 1) cols
    else skipn 2 cols in
  df ← getitem df (["Organisme"; "Resistentie"] ++ afdelingskolommen);
  Ok (drop_duplicated df).

(** lines 79-119: the body of the [try].  Line 109 takes
    [long_df['Resistentie'].str]: the column is the one line 90 made,
    repeated once per department, so its dtype is [float64] exactly when
    no label of the rows is a text.  Lines 110-113 take the same
    accessor again. *)
Definition verwerk_sheet_stappen (xls : ExcelFile) (sheet bestand : string)
  (jaar maand : cell) : result (list LongRecord) :=
  df ← bereid_voor xls sheet;
  long_df ← melt df;
  match long_df with
  | [] => Raise (EmptySheetError bestand sheet)
  | _ =>
      let labels := map m_Resistentie long_df in
      _ ← str_accessor (dtype_na_replace labels) labels;
      Ok (map (voeg_kolommen_toe jaar maand) long_df)
  end.

Definition verwerk_sheet (xls : ExcelFile) (sheet bestand : string)
  (jaar maand : cell) : result (list LongRecord) :=
  try_except
    (verwerk_sheet_stappen xls sheet bestand jaar maand)
    (fun e => Raise (SheetProcessingError bestand sheet e)).

(** lines 141-147: the loop over the worksheets. *)
Fixpoint verwerk_sheets (xls : ExcelFile) (bestand : string)
  (sheets : list string) : result (list (list LongRecord)) :=
  match sheets with
  | [] => Ok []
  | sheet :: rest =>
      '(jaar, maand) ← lees_datum_uit_cel xls sheet bestand;
      long_df ← verwerk_sheet xls sheet bestand jaar maand;
      tl ← verwerk_sheets xls bestand rest;
      Ok (long_df :: tl)
  end.

(** The file system: what [os.listdir] and [pd.ExcelFile] give. *)
Record Schijf := mk_schijf {
  os_listdir : string -> result (list string);
  pd_ExcelFile : string -> result ExcelFile
}.

Variable schijf : Schijf.

Definition verwerk_excelbestand (bestandpad bestand : string)
  : result (list (list LongRecord)) :=
  xls ← try_except (pd_ExcelFile schijf bestandpad)
        (fun e => Raise (WorkbookOpenError bestand e));
  verwerk_sheets xls bestand (sheet_names xls).

End Verwerking.

(* ===================================================================== *)
(** ** filter_exclusie *)
(* ===================================================================== *)

Definition verboden_woorden : list string :=
  ["coccen"; "staven"; "Coagulase-negatieve"; "Fluoresc. preparaat";
   "vergroenend"; "gekweekt"; "BRMO PCR"; "ESBL/CPE PCR"; "IgG"; "IgM"].

Definition verboden_taxonomie : list string :=
  ["Plasmodium"; "C.psittaci"; "Q-koorts"; "Rotavirus antigeen sneltest";
   "Adenovirus antigeen sneltest"; "MRSA PCR sneltest"; "MRSA PCR";
   "MRSA DNA"; "VRE PCR sneltest"].

Definition mask_verboden_woorden (r : LongRecord) : bool :=
  str_contains (join "|" verboden_woorden) false (Organisme r).

Definition mask_verboden_taxonomie (r : LongRecord) : bool :=
  str_contains (join "|" verboden_taxonomie) false (Organisme r).

Definition mask_komma (r : LongRecord) : bool :=
  str_contains "," true (Organisme r).

Definition mask_exclusie (r : LongRecord) : bool :=
  mask_verboden_woorden r || mask_verboden_taxonomie r || mask_komma r.

(** Lines 180-195 on the rows of a table whose column [Organisme] has
    the [.str] accessor: the three masks and the two selections.
    Returns [(df_behouden, df_exclusie)]. *)
Definition filter_exclusie (df : list LongRecord)
  : list LongRecord * list LongRecord :=
  let mask := map mask_exclusie df in
  (select (map negb mask) df, select mask df).

(** A long table as a DataFrame: its rows and the dtype of its column
    [Organisme].  (A [float64] column holds no text.) *)
Record LongFrame := mk_lf {
  dtype_Organisme : dtype;
  rijen : list LongRecord
}.


(* ===================================================================== *)
(** ** main *)
(* ===================================================================== *)

(** The values the names of the module are bound to. *)
Inductive pyval :=
| PyModule (naam : string)
| PyStr (s : string)
| PyFunctie (naam : string)
| PyFrame (df : list LongRecord)
| PyLijst (l : list (list LongRecord)).

Definition pad_naar_excelmap : string :=
  "C:\Users\bjmrijve\OneDrive - Avans Hogeschool\Documents\Ziekenhuis Microbioom\full workflow\demo\infectie_data".

(** The names the module has bound when line 220 calls [main] (the names
    every module has, such as [__name__], left aside). *)
Definition module_globals : gmap string pyval :=
  list_to_map
    [("pd", PyModule "pandas"); ("np", PyModule "numpy");
     ("os", PyModule "os");
     ("pad_naar_excelmap", PyStr pad_naar_excelmap);
     ("lees_datum_uit_cel", PyFunctie "lees_datum_uit_cel");
     ("verwerk_sheet", PyFunctie "verwerk_sheet");
     ("verwerk_excelbestand", PyFunctie "verwerk_excelbestand");
     ("filter_exclusie", PyFunctie "filter_exclusie");
     ("main", PyFunctie "main")].

(** A name that the function body never assigns is looked up in the
    globals when the line runs; no builtin is called [res_binair_no_o]. *)
Definition load_global (G : gmap string pyval) (naam : string)
  : result pyval :=
  match G !! naam with
  | Some v => Ok v
  | None => Raise (mk_exn NameError ("name '" +:+ naam
                                     +:+ "' is not defined"))
  end.

(** [df['Organisme']] inside [filter_exclusie] needs a frame. *)
Definition als_frame (v : pyval) : result (list LongRecord) :=
  match v with
  | PyFrame df => Ok df
  | _ => Raise (mk_exn TypeError "object is not subscriptable")
  end.

(** [os.path.join] of a directory and a plain file name. *)
Definition os_path_join (pad bestand : string) : string :=
  pad +:+ "\" +:+ bestand.

(** [bestand.lower().endswith(('.xlsx', '.xlsm'))] *)
Definition is_excelbestand (bestand : string) : bool :=
  endswith (lower bestand) ".xlsx" || endswith (lower bestand) ".xlsm".

(** [x != 0] on one cell of the column [Waarde] *)
Definition ne_0 (c : cell) : bool :=
  match c with
  | Getal z => negb (z =? 0)
  | _ => true
  end.

(** [res_binair[res_binair['Waarde'] != 0]] *)
Definition zonder_nul (t : list LongRecord) : list LongRecord :=
  select (map (fun r => ne_0 (Waarde r)) t) t.

(** The table a worksheet gave, as a DataFrame: its column [Organisme]
    is the one line 88 made, repeated once per department. *)
Definition tabel_df (t : list LongRecord) : LongFrame :=
  mk_lf (dtype_na_replace (map Organisme t)) t.

(** [pd.concat(alle_data, ignore_index=True)] (line 208) on a list that
    is not empty, as line 204 has seen to: the rows one table after the
    other; the column [Organisme] is [float64] when it is in every
    table, a column of objects otherwise. *)
Definition concat_df (alle_data : list LongFrame) : LongFrame :=
  mk_lf (if forallb (fun t => match dtype_Organisme t with
                              | dtype_float64 => true
                              | dtype_object => false
                              end) alle_data
         then dtype_float64 else dtype_object)
        (flat_map rijen alle_data).

(** Line 209 on a DataFrame. *)
Definition zonder_nul_df (df : LongFrame) : LongFrame :=
  mk_lf (dtype_Organisme df) (zonder_nul (rijen df)).

(** The table the design hands to [filter_exclusie] (line 209), made
    from the tables of the worksheets. *)
Definition res_binair_no_0 (alle_data : list (list LongRecord))
  : LongFrame :=
  zonder_nul_df (concat_df (map tabel_df alle_data)).

Section Main.

Variable str_scalar : cell -> string.
Variable schijf : Schijf.

(** lines 199-202: the loop over the directory. *)
Fixpoint verzamel (namen : list string) : result (list (list LongRecord)) :=
  match namen with
  | [] => Ok []
  | bestand :: rest =>
      if is_excelbestand bestand
      then
        let bestandpad := os_path_join pad_naar_excelmap bestand in
        nieuw ← verwerk_excelbestand str_scalar schijf bestandpad bestand;
        tl ← verzamel rest;
        Ok (nieuw ++ tl)
      else verzamel rest
  end.

(** [locals()] of [main] at line 215. *)
Definition main_locals (namen : list string)
  (alle_data : list (list LongRecord))
  (res_binair res_binair_no_0 resultaat exclusie : list LongRecord)
  : gmap string pyval :=
  let L : gmap string pyval :=
    list_to_map
      [("alle_data", PyLijst alle_data); ("res_binair", PyFrame res_binair);
       ("res_binair_no_0", PyFrame res_binair_no_0);
       ("resultaat", PyFrame resultaat); ("exclusie", PyFrame exclusie)] in
  let L :=
    match last namen with
    | Some b => <["bestand" := PyStr b]> L
    | None => L
    end in
  match last (List.filter is_excelbestand namen) with
  | Some b => <["bestandpad" := PyStr (os_path_join pad_naar_excelmap b)]> L
  | None => L
  end.

(** [main], run with the globals [G]; it returns the globals it leaves
    behind.  A table that the globals bind is taken with a column
    [Organisme] that has the [.str] accessor; [filter_exclusie_df] has
    the other tables. *)
Definition main (G : gmap string pyval) : result (gmap string pyval) :=
  namen ← os_listdir schijf pad_naar_excelmap;
  alle_data ← verzamel namen;
  match alle_data with
  | [] => Raise NoDataFoundError
  | _ =>
      try_except
        (let res_binair := concat alle_data in
         let res_binair_no_0 := zonder_nul res_binair in
         arg ← load_global G "res_binair_no_o";
         df ← als_frame arg;
         let '(resultaat, exclusie) := filter_exclusie df in
         Ok (main_locals namen alle_data res_binair res_binair_no_0
               resultaat exclusie ∪ G))
        (fun e => Raise (CombineError e))
  end.

(** The pipeline as section 4.6 of the design describes it: the
    zero-filtered table is what [filter_exclusie] receives. *)
Definition beoogde_uitvoer (alle_data : list (list LongRecord))
  : list LongRecord * list LongRecord :=
  filter_exclusie (zonder_nul (concat alle_data)).

End Main.

(* ===================================================================== *)
(** ** Vocabulary of the statements *)
(* ===================================================================== *)

(** [trigger] occurs in [label]. *)
Definition bevat (trigger label : string) : Prop :=
  exists pre post, label = pre +:+ trigger +:+ post.

(** [trigger] occurs in [label] when the case of the letters is ignored:
    some piece of the label has the same lower-case text as the trigger. *)
Definition bevat_ci (trigger label : string) : Prop :=
  exists pre mid post,
    label = pre +:+ mid +:+ post /\ lower mid = lower trigger.

(** The literal atoms of a text. *)
Fixpoint lits (t : string) : list atom :=
  match t with
  | EmptyString => []
  | String c t' => Lit c :: lits t'
  end.


(** The data region after lines 80-85: without the columns A and B, the
    empty rows and the empty columns, with trimmed labels and ordinary
    spaces. *)
Definition gesnoeid (df : Frame) : Frame :=
  df_map normaliseer_nbsp
    (strip_columns (dropna_kolommen (dropna_rijen (iloc_vanaf_2 df)))).

(** The department columns of a prepared frame: all but the first two. *)
Definition afdelingen (df : Frame) : list string := skipn 2 (columns df).

Definition cijfer_char (v : Z) : ascii := ascii_of_N (48 + Z.to_N v).

Definition twee_cijfers (v : Z) : string :=
  String (cijfer_char (v / 10)) (String (cijfer_char (v mod 10)) "").

Definition vier_cijfers (v : Z) : string :=
  twee_cijfers (v / 100) +:+ twee_cijfers (v mod 100).




(** The records of a worksheet, written out: for every department column
    [k] of [rest], in order, one record per row [i] below [n], with the
    cleaned cells [i] of the organism cells [k0] and the label cells [k1]. *)
Definition records_van (str_scalar : cell -> string) (jaar maand : cell)
  (n : nat) (k0 k1 : list cell) (rest : list (string * list cell))
  : list LongRecord :=
  flat_map
    (fun k =>
       map (fun i =>
              voeg_kolommen_toe jaar maand
                (mk_melt (schoon str_scalar (cel i k0))
                         (schoon str_scalar (cel i k1))
                         (fst k) (cel i (snd k))))
           (seq 0 n))
    rest.

(* ===================================================================== *)
(** ** Example inputs *)
(* ===================================================================== *)

Module Voorbeeld.

(** A rendering of numbers and dates for the examples. *)
Definition str_scalar (c : cell) : string :=
  match c with
  | Getal z => NilZero.string_of_int (Z.to_int z)
  | Datum y m d =>
      vier_cijfers y +:+ "-" +:+ twee_cijfers m +:+ "-" +:+ twee_cijfers d
      +:+ " 00:00:00"
  | Tekst s => s
  | NaN => "nan"
  end.

(** The worksheet of the end-to-end example of the design: the columns A
    and B, the organism and the label, two departments, an empty row and
    an empty column. *)
Definition tabel : Frame :=
  mk_frame 2
    [("Nr", [Getal 1; NaN]); ("Code", [NaN; NaN]);
     ("Micro-organisme ", [Tekst "E. coli"; NaN]);
     ("Resistentie", [Tekst "ESBL positief"; NaN]);
     ("Afd A", [Getal 3; NaN]); (" Afd B", [Getal 0; NaN]);
     ("Leeg", [NaN; NaN])].

Definition blad : Worksheet :=
  mk_ws "maart" (Ok [NaN; Tekst "15-03-2024"]) (Ok tabel).

Definition xls : ExcelFile := [blad].

Definition schijf : Schijf :=
  mk_schijf (fun _ => Ok ["maart.XLSX"; "notities.txt"]) (fun _ => Ok xls).

(** A worksheet whose C2 is blank. *)
Definition blad_zonder_datum : Worksheet :=
  mk_ws "april" (Ok [Tekst "Periode"; NaN]) (Ok tabel).

(** A worksheet with the two leading columns only: nothing to melt. *)
Definition tabel_zonder_afdeling : Frame :=
  mk_frame 1
    [("Nr", [Getal 1]); ("Code", [NaN]);
     ("Organisme", [Tekst "E. coli"]); ("Resistentie", [Tekst "MRSA"])].

Definition blad_zonder_afdeling : Worksheet :=
  mk_ws "mei" (Ok [NaN; Tekst "01-05-2024"]) (Ok tabel_zonder_afdeling).

(** A worksheet whose last data column is labelled like the organism
    column, and whose labels are missing in the second row. *)
Definition tabel_organisme_achteraan : Frame :=
  mk_frame 2
    [("Nr", [Getal 1; Getal 2]); ("Code", [NaN; NaN]);
     ("Naam", [Tekst "E. coli"; Tekst "nan"]);
     ("Type", [Tekst "VRE"; Tekst "  "]);
     ("Afd A", [Getal 3; Getal 4]);
     ("Organisme", [Tekst "x"; Tekst "y"])].

Definition blad_organisme_achteraan : Worksheet :=
  mk_ws "juni" (Ok [NaN; Datum 2024 6 1]) (Ok tabel_organisme_achteraan).

(** A worksheet with a department that is called like the value column
    of the long table. *)
Definition tabel_afdeling_waarde : Frame :=
  mk_frame 1
    [("Nr", [Getal 1]); ("Code", [NaN]);
     ("Naam", [Tekst "E. coli"]); ("Type", [Tekst "MRSA"]);
     ("Afd A", [Getal 3]); ("Waarde", [Getal 5])].

Definition blad_afdeling_waarde : Worksheet :=
  mk_ws "juli" (Ok [NaN; Tekst "01-07-2024"]) (Ok tabel_afdeling_waarde).


(** What [verwerk_sheet] returns for [blad_organisme_achteraan]. *)
Definition records_juni : list LongRecord :=
  [mk_long (Tekst "E. coli") (Tekst "VRE") "Afd A" (Getal 3) 1 0 1 0 0
     (Getal 2024) (Getal 6);
   mk_long NaN NaN "Afd A" (Getal 4) 0 0 0 0 0 (Getal 2024) (Getal 6)].

End Voorbeeld.


(* ===================================================================== *)
(** ** Further vocabulary of the statements *)
(* ===================================================================== *)

(** The table of one worksheet in the result of the loop of lines
    142-145: what [verwerk_sheet] makes of the worksheet with the year
    and month read from its own C2; it is not empty and carries that
    year and month on every record. *)
Definition tabel_van_blad (str_scalar : cell -> string) (xls : ExcelFile)
  (bestand sheet : string) (t : list LongRecord) : Prop :=
  exists jaar maand,
    lees_datum_uit_cel xls sheet bestand = Ok (jaar, maand)
    /\ verwerk_sheet str_scalar xls sheet bestand jaar maand = Ok t
    /\ t <> []
    /\ forall r, In r t -> Jaar r = jaar /\ Maand r = maand.

(** The atoms of one term of a pattern, as [re_compile] reads its
    characters. *)
Definition atomen (term : string) : list atom :=
  map atom_of_char (list_ascii_of_string term).

(** [term] fits the text [mid] character by character when the case of
    the letters is ignored and a [.] of the term stands for any
    character but a line feed. *)
Inductive past_ci : string -> string -> Prop :=
| past_leeg : past_ci "" ""
| past_punt (t m : string) (c : ascii) :
    c <> newline -> past_ci t m ->
    past_ci (String "." t) (String c m)
| past_letter (p : ascii) (t m : string) (c : ascii) :
    p <> "."%char -> char_lower p = char_lower c -> past_ci t m ->
    past_ci (String p t) (String c m).

(** [term] fits some piece of [s]. *)
Definition komt_voor (term s : string) : Prop :=
  exists pre mid post, s = pre +:+ mid +:+ post /\ past_ci term mid.

(** The terms of the two lists of [filter_exclusie]. *)
Definition verboden_termen : list string :=
  verboden_woorden ++ verboden_taxonomie.

(** A record whose only interesting field is the organism. *)
Definition met_organisme (org : cell) : LongRecord :=
  mk_long org NaN "Afd A" (Getal 1) 0 0 0 0 0 (Getal 2024) (Getal 3).




(** The column holds a value in some row. *)
Definition heeft_waarde (k : string * list cell) : bool :=
  existsb (fun c => negb (isna c)) (snd k).

(** The rows of the read table that hold a value from column C on. *)
Definition rijmasker (df : Frame) : list bool :=
  map (rij_notna (iloc_vanaf_2 df)) (seq 0 (nrows df)).

(** One column of the pruned data region, made from a column of the
    read table. *)
Definition snoei_kolom (df : Frame) (k : string * list cell)
  : string * list cell :=
  (strip (fst k), map normaliseer_nbsp (select (rijmasker df) (snd k))).

(** The text holds no non-breaking space. *)
Definition geen_nbsp (s : string) : Prop :=
  ~ In nbsp (list_ascii_of_string s).

(* ===================================================================== *)
(** ** Further example inputs *)
(* ===================================================================== *)

Module Meer.

(** The records of the worksheet [maart] of [Voorbeeld.xls]. *)
Definition records_maart : list LongRecord :=
  [mk_long (Tekst "E. coli") (Tekst "ESBL positief") "Afd A" (Getal 3)
     1 1 0 0 0 (Getal 2024) (Getal 3);
   mk_long (Tekst "E. coli") (Tekst "ESBL positief") "Afd B" (Getal 0)
     1 1 0 0 0 (Getal 2024) (Getal 3)].

(** A workbook of three worksheets: a good one, one without a date and
    one without departments. *)
Definition werkboek_drie : ExcelFile :=
  [Voorbeeld.blad; Voorbeeld.blad_zonder_datum;
   Voorbeeld.blad_zonder_afdeling].

(** A directory with two workbooks and a text file; no other path can
    be opened as a workbook. *)
Definition schijf_twee : Schijf :=
  mk_schijf
    (fun _ => Ok ["maart.XLSX"; "notities.txt"; "juni.xlsm"])
    (fun pad =>
       if String.eqb pad (os_path_join pad_naar_excelmap "maart.XLSX")
       then Ok Voorbeeld.xls
       else if String.eqb pad (os_path_join pad_naar_excelmap "juni.xlsm")
       then Ok [Voorbeeld.blad_organisme_achteraan]
       else Raise (mk_exn ValueError "Excel file format cannot be determined")).

(** The same directory with a broken workbook listed between the two. *)
Definition schijf_kapot : Schijf :=
  mk_schijf
    (fun _ => Ok ["maart.XLSX"; "notities.txt"; "kapot.xlsx"; "juni.xlsm"])
    (pd_ExcelFile schijf_twee).

(** A table in which two department headers are the same once they are
    trimmed. *)
Definition tabel_dubbel : Frame :=
  mk_frame 1
    [("Nr", [Getal 1]); ("Code", [NaN]);
     ("Micro-organisme", [Tekst "E. coli"]); ("Type", [Tekst "ESBL"]);
     ("Afd A", [Getal 3]); ("Afd A ", [Getal 7])].

(** Its workbook and the records of its worksheet. *)
Definition werkboek_dubbel : ExcelFile :=
  [mk_ws "mei" (Ok [NaN; Tekst "01-05-2024"]) (Ok tabel_dubbel)].

Definition records_mei : list LongRecord :=
  [mk_long (Tekst "E. coli") (Tekst "ESBL") "Afd A" (Getal 3)
     1 1 0 0 0 (Getal 2024) (Getal 5)].










(** A directory without a workbook. *)
Definition schijf_zonder_excel : Schijf :=
  mk_schijf (fun _ => Ok ["notities.txt"; "maart.xlsx.bak"])
            (fun _ => Ok Voorbeeld.xls).

End Meer.


(* ===================================================================== *)
(** ** Results *)
(* ===================================================================== *)

Lemma bind_Ok {A B} (r : result A) (k : A -> result B) (b : B) :
  r ≫= k = Ok b <-> exists a, r = Ok a /\ k a = Ok b.
Proof.
  destruct r as [a|e]; cbn; split.
  - intros H. exists a. split; [reflexivity | exact H].
  - intros (a' & Ha & Hk). injection Ha as ->. exact Hk.
  - discriminate.
  - intros (a' & Ha & _). discriminate.
Qed.

Lemma bind_Raise {A B} (r : result A) (k : A -> result B) (e : exn) :
  r ≫= k = Raise e <->
  r = Raise e \/ exists a, r = Ok a /\ k a = Raise e.
Proof.
  destruct r as [a|e']; cbn; split.
  - intros H. right. exists a. split; [reflexivity | exact H].
  - intros [H | (a' & Ha & Hk)]; [discriminate |].
    injection Ha as ->. exact Hk.
  - intros H. left. congruence.
  - intros [H | (a' & Ha & _)]; [congruence | discriminate].
Qed.

Lemma bind_Ok_l {A B} (a : A) (k : A -> result B) : Ok a ≫= k = k a.
Proof. reflexivity. Qed.

Lemma bind_Raise_l {A B} (e : exn) (k : A -> result B) :
  Raise e ≫= k = Raise e.
Proof. reflexivity. Qed.

(** A [try] whose handler always raises returns only what its body
    returns, and raises only what the handler makes of the failure. *)
Lemma try_except_Ok {A} (body : result A) (h : exn -> exn) (a : A) :
  try_except body (fun e => Raise (h e)) = Ok a <-> body = Ok a.
Proof. destruct body; cbn; split; congruence. Qed.

Lemma try_except_Raise {A} (body : result A) (h : exn -> exn) (e : exn) :
  try_except body (fun e => Raise (h e)) = Raise e <->
  exists oorzaak, body = Raise oorzaak /\ e = h oorzaak.
Proof.
  destruct body as [a|e0]; cbn; split.
  - discriminate.
  - intros (o & H & _). discriminate.
  - intros H. injection H as <-. exists e0. split; reflexivity.
  - intros (o & H & ->). injection H as ->. reflexivity.
Qed.

(* ===================================================================== *)
(** ** Boolean indexing *)
(* ===================================================================== *)

Lemma select_map {A} (f : A -> bool) (l : list A) :
  select (map f l) l = List.filter f l.
Proof.
  induction l as [|x l IH]; cbn; [reflexivity |].
  rewrite IH. reflexivity.
Qed.

Lemma select_map_negb {A} (f : A -> bool) (l : list A) :
  select (map negb (map f l)) l = List.filter (fun x => negb (f x)) l.
Proof. rewrite map_map. apply select_map. Qed.

Lemma filter_length_split {A} (f : A -> bool) (l : list A) :
  (length (List.filter (fun x => negb (f x)) l)
   + length (List.filter f l) = length l)%nat.
Proof.
  induction l as [|x l IH]; cbn; [reflexivity |].
  destruct (f x); cbn; lia.
Qed.

Lemma filter_Permutation_split {A} (f : A -> bool) (l : list A) :
  Permutation (List.filter (fun x => negb (f x)) l ++ List.filter f l) l.
Proof.
  induction l as [|x l IH]; cbn; [constructor |].
  destruct (f x); cbn.
  - symmetry. apply Permutation_cons_app. symmetry. exact IH.
  - constructor. exact IH.
Qed.

(* ===================================================================== *)
(** ** filter_exclusie *)
(* ===================================================================== *)

Lemma filter_exclusie_filter (df : list LongRecord) :
  filter_exclusie df =
  (List.filter (fun r => negb (mask_exclusie r)) df,
   List.filter mask_exclusie df).
Proof.
  unfold filter_exclusie. rewrite select_map_negb, select_map. reflexivity.
Qed.

Lemma in_behouden (df : list LongRecord) (r : LongRecord) :
  In r (fst (filter_exclusie df)) <-> In r df /\ mask_exclusie r = false.
Proof.
  rewrite filter_exclusie_filter. cbn. rewrite filter_In.
  rewrite negb_true_iff. reflexivity.
Qed.

Lemma in_exclusie (df : list LongRecord) (r : LongRecord) :
  In r (snd (filter_exclusie df)) <-> In r df /\ mask_exclusie r = true.
Proof. rewrite filter_exclusie_filter. cbn. apply filter_In. Qed.

(** C3.  [filter_exclusie] splits its table: the two parts together have
    the rows of the input, each as often as the input has it, the sizes
    add up, and every row of the input is in exactly one part. *)
Theorem filter_exclusie_partitie (df : list LongRecord) :
  let '(df_behouden, df_exclusie) := filter_exclusie df in
  (length df_behouden + length df_exclusie = length df)%nat
  /\ Permutation (df_behouden ++ df_exclusie) df
  /\ forall r, In r df ->
       (In r df_behouden /\ ~ In r df_exclusie)
       \/ (In r df_exclusie /\ ~ In r df_behouden).
Proof.
  destruct (filter_exclusie df) as [b e] eqn:E.
  assert (Hb : b = fst (filter_exclusie df)) by (rewrite E; reflexivity).
  assert (He : e = snd (filter_exclusie df)) by (rewrite E; reflexivity).
  split; [| split].
  - rewrite filter_exclusie_filter in E. injection E as <- <-.
    apply filter_length_split.
  - rewrite filter_exclusie_filter in E. injection E as <- <-.
    apply filter_Permutation_split.
  - intros r Hr. subst b e.
    destruct (mask_exclusie r) eqn:M.
    + right. split.
      * apply in_exclusie. auto.
      * rewrite in_behouden. intros [_ H]. congruence.
    + left. split.
      * apply in_behouden. auto.
      * rewrite in_exclusie. intros [_ H]. congruence.
Qed.


(* ===================================================================== *)
(** ** Searching a text *)
(* ===================================================================== *)

Lemma append_nil_l (s : string) : "" +:+ s = s.
Proof. reflexivity. Qed.

Lemma append_cons (c : ascii) (s t : string) :
  String c s +:+ t = String c (s +:+ t).
Proof. reflexivity. Qed.

(** A sequence of literals matches at the head of a text exactly when the
    text starts with a piece that is the trigger up to case. *)
Lemma match_here_lits (t s : string) :
  match_here true (lits t) s = true <->
  exists mid post, s = mid +:+ post /\ lower mid = lower t.
Proof.
  revert s. induction t as [|p t IH]; intros s; cbn.
  - split; [intros _ | reflexivity].
    exists "", s. split; reflexivity.
  - destruct s as [|c s].
    + split; [discriminate |].
      intros (mid & post & Hs & Hl).
      destruct mid; cbn in *; discriminate.
    + rewrite andb_true_iff, IH. split.
      * intros [Hc (mid & post & -> & Hl)].
        apply Ascii.eqb_eq in Hc.
        exists (String c mid), post. cbn. split; [reflexivity |].
        unfold lower in *. cbn. congruence.
      * intros (mid & post & Hs & Hl).
        destruct mid as [|c0 mid]; [discriminate |].
        rewrite append_cons in Hs. injection Hs as <- ->.
        unfold lower in Hl. cbn in Hl. injection Hl as Hc Hl.
        split.
        -- apply Ascii.eqb_eq. congruence.
        -- exists mid, post. split; [reflexivity | exact Hl].
Qed.

(** [re_search] finds a match exactly when some alternative matches at
    the head of some suffix of the text. *)
Lemma re_search_iff (ci : bool) (re : regex) (s : string) :
  re_search ci re s = true <->
  exists pre rest alt,
    s = pre +:+ rest /\ In alt re /\ match_here ci alt rest = true.
Proof.
  induction s as [|c s IH]; cbn.
  - rewrite orb_false_r, existsb_exists. split.
    + intros (alt & Hin & Hm). exists "", "", alt. auto.
    + intros (pre & rest & alt & Hs & Hin & Hm).
      destruct pre; [| discriminate]. rewrite append_nil_l in Hs. subst rest.
      exists alt. auto.
  - rewrite orb_true_iff, existsb_exists, IH. split.
    + intros [(alt & Hin & Hm) | (pre & rest & alt & -> & Hin & Hm)].
      * exists "", (String c s), alt. auto.
      * exists (String c pre), rest, alt. auto.
    + intros (pre & rest & alt & Hs & Hin & Hm).
      destruct pre as [|c0 pre].
      * rewrite append_nil_l in Hs. subst rest. left. exists alt. auto.
      * rewrite append_cons in Hs. injection Hs as <- ->.
        right. exists pre, rest, alt. auto.
Qed.

(** Searching for one of several literal triggers, case ignored. *)
Lemma re_search_lits (triggers : list string) (s : string) :
  re_search true (map lits triggers) s = true <->
  exists t, In t triggers /\ bevat_ci t s.
Proof.
  rewrite re_search_iff. split.
  - intros (pre & rest & alt & -> & Hin & Hm).
    apply in_map_iff in Hin as (t & <- & Hin).
    apply match_here_lits in Hm as (mid & post & -> & Hl).
    exists t. split; [exact Hin |].
    exists pre, mid, post. auto.
  - intros (t & Hin & pre & mid & post & -> & Hl).
    exists pre, (mid +:+ post), (lits t). split; [reflexivity |].
    split; [apply in_map; exact Hin |].
    apply match_here_lits. exists mid, post. auto.
Qed.

Lemma bevat_bevat_ci (t s : string) : bevat t s -> bevat_ci t s.
Proof. intros (pre & post & ->). exists pre, t, post. auto. Qed.

Lemma astype_int_1 (b : bool) : astype_int b = 1 <-> b = true.
Proof. destruct b; cbn; split; congruence. Qed.

Lemma astype_int_0 (b : bool) : astype_int b = 0 <-> b = false.
Proof. destruct b; cbn; split; congruence. Qed.

(** The patterns of the program stay inside the modelled fragment. *)
Lemma patronen_in_fragment :
  forallb in_fragment
    ["BRMO|ESBL|VRE|MRSA|CARBA"; "ESBL"; "VRE"; "MRSA"; "CARBA";
     join "|" verboden_woorden; join "|" verboden_taxonomie; ","] = true.
Proof. reflexivity. Qed.

(** One trigger. *)
Lemma str_contains_trigger (t s : string) :
  re_compile t = [lits t] ->
  str_contains t false (Tekst s) = true <-> bevat_ci t s.
Proof.
  intros Hc. cbn. rewrite Hc.
  change [lits t] with (map lits [t]). rewrite re_search_lits. split.
  - intros (t' & [<- | []] & H). exact H.
  - intros H. exists t. split; [left; reflexivity | exact H].
Qed.

(** C5.  On a label that is a text, each of [ESBL], [VRE], [MRSA] and
    [CARBA] is 1 exactly when the label contains its trigger, case
    ignored, anywhere; [BRMO] is 1 exactly when the label contains one of
    the five triggers.  A label that contains ESBL has both [ESBL] and
    [BRMO] at 1. *)
Theorem indicatoren_substring (jaar maand org : cell) (s afd : string)
  (w : cell) :
  let L := voeg_kolommen_toe jaar maand (mk_melt org (Tekst s) afd w) in
  (BRMO L = 1 <->
     bevat_ci "BRMO" s \/ bevat_ci "ESBL" s \/ bevat_ci "VRE" s
     \/ bevat_ci "MRSA" s \/ bevat_ci "CARBA" s)
  /\ (ESBL L = 1 <-> bevat_ci "ESBL" s)
  /\ (VRE L = 1 <-> bevat_ci "VRE" s)
  /\ (MRSA L = 1 <-> bevat_ci "MRSA" s)
  /\ (CARBA L = 1 <-> bevat_ci "CARBA" s)
  /\ (bevat "ESBL" s -> ESBL L = 1 /\ BRMO L = 1).
Proof.
  intros L.
  assert (HB : BRMO L = 1 <->
     bevat_ci "BRMO" s \/ bevat_ci "ESBL" s \/ bevat_ci "VRE" s
     \/ bevat_ci "MRSA" s \/ bevat_ci "CARBA" s).
  { subst L. unfold voeg_kolommen_toe. cbn [BRMO m_Resistentie].
    rewrite astype_int_1. unfold str_contains.
    change (re_compile "BRMO|ESBL|VRE|MRSA|CARBA")
      with (map lits ["BRMO"; "ESBL"; "VRE"; "MRSA"; "CARBA"]).
    cbn [negb]. rewrite re_search_lits. split.
    - intros (t & Hin & H). cbn in Hin.
      destruct Hin as [<- | [<- | [<- | [<- | [<- | []]]]]]; auto.
    - intros [H | [H | [H | [H | H]]]];
        eexists; (split; [| exact H]); cbn; auto 6. }
  assert (HE : ESBL L = 1 <-> bevat_ci "ESBL" s).
  { subst L. unfold voeg_kolommen_toe. cbn [ESBL m_Resistentie].
    rewrite astype_int_1. apply str_contains_trigger. reflexivity. }
  split; [exact HB |].
  split; [exact HE |].
  split; [| split; [| split]].
  - subst L. unfold voeg_kolommen_toe. cbn [VRE m_Resistentie].
    rewrite astype_int_1. apply str_contains_trigger. reflexivity.
  - subst L. unfold voeg_kolommen_toe. cbn [MRSA m_Resistentie].
    rewrite astype_int_1. apply str_contains_trigger. reflexivity.
  - subst L. unfold voeg_kolommen_toe. cbn [CARBA m_Resistentie].
    rewrite astype_int_1. apply str_contains_trigger. reflexivity.
  - intros H. apply bevat_bevat_ci in H. split.
    + apply HE. exact H.
    + apply HB. auto.
Qed.

Lemma indicatoren_substring_witness :
  let L := voeg_kolommen_toe (Getal 2024) (Getal 3)
             (mk_melt (Tekst "E. coli") (Tekst "esbl positief") "Afd A"
                      (Getal 3)) in
  ESBL L = 1 /\ bevat_ci "ESBL" "esbl positief".
Proof.
  intros L.
  pose proof (indicatoren_substring (Getal 2024) (Getal 3) (Tekst "E. coli")
                "esbl positief" "Afd A" (Getal 3)) as (_ & HE & _).
  split; [reflexivity |].
  apply HE. reflexivity.
Defined.

(* ===================================================================== *)
(** ** Columns: assignment, selection, first per label *)
(* ===================================================================== *)

Lemma existsb_eqb_In (l : string) (g : list string) :
  existsb (String.eqb l) g = true <-> In l g.
Proof.
  rewrite existsb_exists. split.
  - intros (x & Hin & He). apply String.eqb_eq in He. congruence.
  - intros H. exists l. split; [exact H | apply String.eqb_refl].
Qed.

Lemma existsb_eqb_not_In (l : string) (g : list string) :
  existsb (String.eqb l) g = false <-> ~ In l g.
Proof.
  rewrite <- existsb_eqb_In. destruct (existsb _ g); split; congruence.
Qed.

Lemma nrows_setitem (df : Frame) (naam : string) (v : list cell) :
  nrows (setitem df naam v) = nrows df.
Proof. unfold setitem. destruct (existsb _ _); reflexivity. Qed.

(** After [df[naam] = v] a column is the new one, or an old one with
    another label. *)
Lemma setitem_In (df : Frame) (naam : string) (v : list cell)
  (k : string * list cell) :
  In k (kolommen (setitem df naam v)) ->
  k = (naam, v) \/ (fst k <> naam /\ In k (kolommen df)).
Proof.
  unfold setitem. destruct (existsb _ _) eqn:E; cbn.
  - rewrite in_map_iff. intros (k' & Hk & Hin).
    destruct (String.eqb (fst k') naam) eqn:El.
    + left. congruence.
    + right. subst k'. apply String.eqb_neq in El. auto.
  - rewrite in_app_iff. intros [Hin | [<- | []]]; [| left; reflexivity].
    right. split; [| exact Hin].
    apply existsb_eqb_not_In in E. intros <-. apply E.
    unfold columns. apply in_map. exact Hin.
Qed.

Lemma setitem_heeft (df : Frame) (naam : string) (v : list cell) :
  In (naam, v) (kolommen (setitem df naam v)).
Proof.
  unfold setitem. destruct (existsb _ _) eqn:E; cbn.
  - apply existsb_eqb_In in E. unfold columns in E.
    apply in_map_iff in E as (k' & Hl & Hin).
    apply in_map_iff. exists k'. split; [| exact Hin].
    rewrite Hl, String.eqb_refl. reflexivity.
  - apply in_app_iff. right. left. reflexivity.
Qed.

Lemma setitem_behoudt (df : Frame) (naam : string) (v : list cell)
  (k : string * list cell) :
  In k (kolommen df) -> fst k <> naam ->
  In k (kolommen (setitem df naam v)).
Proof.
  intros Hin Hne. unfold setitem. destruct (existsb _ _); cbn.
  - apply in_map_iff. exists k. split; [| exact Hin].
    apply String.eqb_neq in Hne. rewrite Hne. reflexivity.
  - apply in_app_iff. left. exact Hin.
Qed.

Lemma getitem_kolommen_cons (cols : list (string * list cell))
  (l : string) (rest : list string) (out : list (string * list cell)) :
  getitem_kolommen cols (l :: rest) = Ok out ->
  exists tl,
    getitem_kolommen cols rest = Ok tl
    /\ out = List.filter (fun k => String.eqb (fst k) l) cols ++ tl.
Proof.
  cbn. destruct (List.filter _ cols) as [|k hits]; [discriminate |].
  destruct (getitem_kolommen cols rest) as [tl|e]; cbn; [| discriminate].
  intros H. injection H as <-. exists tl. split; reflexivity.
Qed.

Lemma getitem_kolommen_In (cols : list (string * list cell))
  (labels : list string) (out : list (string * list cell))
  (k : string * list cell) :
  getitem_kolommen cols labels = Ok out -> In k out -> In k cols.
Proof.
  revert out. induction labels as [|l rest IH]; intros out H Hin.
  - cbn in H. injection H as <-. destruct Hin.
  - apply getitem_kolommen_cons in H as (tl & Htl & ->).
    apply in_app_iff in Hin as [Hin | Hin].
    + apply filter_In in Hin. tauto.
    + eapply IH; eassumption.
Qed.

(** The columns a label selects, when all the columns with that label
    are the same column [(l, v)] and there is one. *)
Lemma filter_label (cols : list (string * list cell)) (l : string)
  (v : list cell) :
  In (l, v) cols ->
  (forall k, In k cols -> fst k = l -> k = (l, v)) ->
  exists hs,
    List.filter (fun k => String.eqb (fst k) l) cols = (l, v) :: hs
    /\ Forall (fun k => k = (l, v)) hs.
Proof.
  intros Hin Hall.
  assert (F : Forall (fun k => k = (l, v))
                (List.filter (fun k => String.eqb (fst k) l) cols)).
  { apply List.Forall_forall. intros k Hk. apply filter_In in Hk as [Hk He].
    apply String.eqb_eq in He. auto. }
  destruct (List.filter _ cols) as [|k hs] eqn:E.
  - exfalso.
    assert (H : In (l, v) (List.filter (fun k => String.eqb (fst k) l) cols)).
    { apply filter_In. split; [exact Hin | apply String.eqb_refl]. }
    rewrite E in H. destruct H.
  - inversion F as [|? ? Hk Hhs]; subst. exists hs. auto.
Qed.

Lemma eerste_per_label_hits (g : list string) (l : string) (v : list cell)
  (hs Y : list (string * list cell)) :
  ~ In l g ->
  Forall (fun k => k = (l, v)) hs ->
  eerste_per_label g ((l, v) :: hs ++ Y) =
  (l, v) :: eerste_per_label (l :: g) Y.
Proof.
  intros Hg Hhs. cbn [eerste_per_label fst].
  apply existsb_eqb_not_In in Hg. rewrite Hg. f_equal.
  induction Hhs as [|k hs Hk _ IH]; [reflexivity |].
  subst k. cbn [app eerste_per_label fst existsb].
  rewrite String.eqb_refl. cbn [orb]. exact IH.
Qed.

Lemma eerste_per_label_In (g : list string)
  (cols : list (string * list cell)) (k : string * list cell) :
  In k (eerste_per_label g cols) -> In k cols /\ ~ In (fst k) g.
Proof.
  revert g. induction cols as [|k0 cols IH]; intros g; cbn; [tauto |].
  destruct (existsb _ g) eqn:E.
  - intros H. apply IH in H. tauto.
  - intros [<- | H].
    + split; [auto | apply existsb_eqb_not_In; exact E].
    + apply IH in H. cbn in H. tauto.
Qed.

Lemma eerste_per_label_NoDup (g : list string)
  (cols : list (string * list cell)) :
  List.NoDup (map fst (eerste_per_label g cols)).
Proof.
  revert g. induction cols as [|k0 cols IH]; intros g; cbn; [constructor |].
  destruct (existsb _ g); [apply IH |].
  cbn. constructor; [| apply IH].
  rewrite in_map_iff. intros (k & Hl & Hin).
  apply eerste_per_label_In in Hin as [_ Hin]. apply Hin.
  left. congruence.
Qed.

(** Every label that is kept was in the frame, and every label of the
    frame that was not met before is kept. *)
Lemma eerste_per_label_labels (g : list string)
  (cols : list (string * list cell)) (l : string) :
  In l (map fst (eerste_per_label g cols)) <->
  In l (map fst cols) /\ ~ In l g.
Proof.
  revert g. induction cols as [|k0 cols IH]; intros g; cbn; [tauto |].
  destruct (existsb _ g) eqn:E.
  - rewrite IH. apply existsb_eqb_In in E. split; [tauto |].
    intros [[<- | H] Hg]; tauto.
  - apply existsb_eqb_not_In in E. cbn. rewrite IH. cbn.
    destruct (string_dec (fst k0) l) as [<- | Hne]; [tauto |].
    split; [tauto |]. intros [[H | H] Hg]; [tauto |]. right. tauto.
Qed.

(* ===================================================================== *)
(** ** The frame that is melted *)
(* ===================================================================== *)

Section Bereid.

Variable str_scalar : cell -> string.

Lemma schoon_NaN : schoon str_scalar NaN = NaN.
Proof. reflexivity. Qed.

(** Cleaning a column and then taking cell [i] is cleaning cell [i], also
    past the end of the column. *)
Lemma cel_map_schoon (i : nat) (k : list cell) :
  cel i (map (schoon str_scalar) k) = schoon str_scalar (cel i k).
Proof.
  unfold cel. rewrite <- schoon_NaN at 1. apply map_nth.
Qed.

Lemma nrows_gesnoeid (df0 : Frame) :
  nrows (gesnoeid df0) =
  count_true (map (rij_notna (iloc_vanaf_2 df0)) (seq 0 (nrows df0))).
Proof. reflexivity. Qed.

(** What lines 80-95 leave: the cleaned organism column, the cleaned
    label column, and then department columns of the data region, each
    label once and none of them [Organisme] or [Resistentie]. *)
Lemma bereid_voor_vorm (xls : ExcelFile) (sheet : string) (df : Frame) :
  bereid_voor str_scalar xls sheet = Ok df ->
  exists df0 k0 k1 rest,
    read_excel_skiprows_2 xls sheet = Ok df0
    /\ iloc_kolom (gesnoeid df0) 0 = Ok k0
    /\ iloc_kolom (setitem (gesnoeid df0) "Organisme"
                     (map (schoon str_scalar) k0)) 1 = Ok k1
    /\ df = mk_frame (nrows (gesnoeid df0))
              (("Organisme", map (schoon str_scalar) k0)
               :: ("Resistentie", map (schoon str_scalar) k1) :: rest)
    /\ List.NoDup (map fst rest)
    /\ ~ In "Organisme" (map fst rest)
    /\ ~ In "Resistentie" (map fst rest)
    /\ (forall k, In k rest -> In k (kolommen (gesnoeid df0))).
Proof.
  intros H. unfold bereid_voor in H.
  apply bind_Ok in H as (df0 & Hread & H). cbv zeta in H.
  fold (gesnoeid df0) in H.
  apply bind_Ok in H as (k0 & Hk0 & H).
  apply bind_Ok in H as (k1 & Hk1 & H).
  set (v0 := map (schoon str_scalar) k0) in *.
  set (v1 := map (schoon str_scalar) k1) in *.
  set (df1 := setitem (gesnoeid df0) "Organisme" v0) in *.
  set (df2 := setitem df1 "Resistentie" v1) in *.
  apply bind_Ok in H as (laatste & _ & H).
  set (afd := if String.eqb laatste "Organisme"
              then slice 2 (length (columns df2) - 1) (columns df2)
              else skipn 2 (columns df2)) in *.
  apply bind_Ok in H as (df3 & H3 & H). injection H as <-.
  unfold getitem in H3.
  apply bind_Ok in H3 as (cols & Hcols & H3). injection H3 as <-.
  change (["Organisme"; "Resistentie"] ++ afd)
    with ("Organisme" :: "Resistentie" :: afd) in Hcols.
  apply getitem_kolommen_cons in Hcols as (tlO & Hcols & ->).
  apply getitem_kolommen_cons in Hcols as (tl & Htl & ->).
  (* the columns of df2 labelled Organisme or Resistentie *)
  assert (HO : forall k, In k (kolommen df2) -> fst k = "Organisme" ->
                         k = ("Organisme", v0)).
  { intros k Hin Hl. apply setitem_In in Hin as [-> | [_ Hin]].
    - cbn in Hl. discriminate.
    - apply setitem_In in Hin as [-> | [Hne _]]; [reflexivity | tauto]. }
  assert (HR : forall k, In k (kolommen df2) -> fst k = "Resistentie" ->
                         k = ("Resistentie", v1)).
  { intros k Hin Hl. apply setitem_In in Hin as [-> | [Hne _]];
      [reflexivity | tauto]. }
  assert (InO : In ("Organisme", v0) (kolommen df2)).
  { apply setitem_behoudt; [apply setitem_heeft | cbn; discriminate]. }
  assert (InR : In ("Resistentie", v1) (kolommen df2))
    by apply setitem_heeft.
  destruct (filter_label _ _ _ InO HO) as (hsO & -> & FO).
  destruct (filter_label _ _ _ InR HR) as (hsR & -> & FR).
  exists df0, k0, k1, (eerste_per_label ["Resistentie"; "Organisme"] tl).
  split; [exact Hread |]. split; [exact Hk0 |]. split; [exact Hk1 |].
  split; [| split; [| split; [| split]]].
  - unfold drop_duplicated. cbn [nrows kolommen]. f_equal.
    + unfold df2, df1. rewrite !nrows_setitem. reflexivity.
    + cbn [app].
      rewrite (eerste_per_label_hits [] _ _ _ _ (fun H => H) FO).
      f_equal.
      rewrite (eerste_per_label_hits ["Organisme"] _ _ _ tl).
      * reflexivity.
      * intros [H | []]. discriminate.
      * exact FR.
  - apply eerste_per_label_NoDup.
  - intros H. apply eerste_per_label_labels in H as [_ H]. cbn in H. tauto.
  - intros H. apply eerste_per_label_labels in H as [_ H]. cbn in H. tauto.
  - intros k Hin. apply eerste_per_label_In in Hin as [Hin Hl].
    cbn in Hl.
    apply (getitem_kolommen_In _ _ _ _ Htl) in Hin.
    apply setitem_In in Hin as [-> | [_ Hin]]; [cbn in Hl; tauto |].
    apply setitem_In in Hin as [-> | [_ Hin]]; [cbn in Hl; tauto |].
    exact Hin.
Qed.

Lemma filter_alles {A} (f : A -> bool) (l : list A) :
  (forall x, In x l -> f x = true) -> List.filter f l = l.
Proof.
  induction l as [|x l IH]; intros H; cbn; [reflexivity |].
  rewrite (H x) by (left; reflexivity).
  rewrite IH; [reflexivity |]. intros y Hy. apply H. right. exact Hy.
Qed.

(** [melt] on a frame of that shape. *)
Lemma melt_vorm (n : nat) (v0 v1 : list cell)
  (rest : list (string * list cell)) :
  ~ In "Organisme" (map fst rest) ->
  ~ In "Resistentie" (map fst rest) ->
  ~ In "Waarde" (map fst rest) ->
  melt (mk_frame n (("Organisme", v0) :: ("Resistentie", v1) :: rest)) =
  Ok (flat_map
        (fun k => map (fun i => mk_melt (cel i v0) (cel i v1) (fst k)
                                        (cel i (snd k)))
                      (seq 0 n))
        rest).
Proof.
  intros HO HR HW. unfold melt.
  replace (existsb (String.eqb value_name)
             (columns (mk_frame n (("Organisme", v0)
                                   :: ("Resistentie", v1) :: rest))))
    with false
    by (symmetry; apply existsb_eqb_not_In; cbn; intros [H | [H | H]];
        [discriminate | discriminate | exact (HW H)]).
  unfold kolom, value_vars. cbn -[is_id_var].
  change (is_id_var "Organisme") with true.
  change (is_id_var "Resistentie") with true. cbn [negb].
  rewrite filter_alles; [reflexivity |].
  intros k Hk. apply negb_true_iff. unfold is_id_var, id_vars.
  apply existsb_eqb_not_In. intros [H | [H | []]].
  - apply HO. rewrite H. apply in_map. exact Hk.
  - apply HR. rewrite H. apply in_map. exact Hk.
Qed.

(** [melt] on a frame of that shape with a department called [Waarde]. *)
Lemma melt_waarde_fout (n : nat) (v0 v1 : list cell)
  (rest : list (string * list cell)) (rows : list MeltRij) :
  In "Waarde" (map fst rest) ->
  melt (mk_frame n (("Organisme", v0) :: ("Resistentie", v1) :: rest)) =
  Ok rows -> False.
Proof.
  intros HW. unfold melt.
  replace (existsb (String.eqb value_name)
             (columns (mk_frame n (("Organisme", v0)
                                   :: ("Resistentie", v1) :: rest))))
    with true; [discriminate |].
  symmetry. apply existsb_eqb_In. cbn. right. right. exact HW.
Qed.

Lemma length_flat_map_const {A B} (f : A -> list B) (n : nat)
  (l : list A) :
  (forall x, length (f x) = n) ->
  length (flat_map f l) = (n * length l)%nat.
Proof.
  intros H. induction l as [|x l IH]; cbn; [lia |].
  rewrite length_app, H, IH. lia.
Qed.

(** [verwerk_sheet] returns exactly when the frame can be prepared,
    melts to at least one row and the column of the labels has the
    [.str] accessor. *)
Lemma verwerk_sheet_Ok_iff (xls : ExcelFile) (sheet bestand : string)
  (jaar maand : cell) (l : list LongRecord) :
  verwerk_sheet str_scalar xls sheet bestand jaar maand = Ok l <->
  exists df rows,
    bereid_voor str_scalar xls sheet = Ok df
    /\ melt df = Ok rows
    /\ rows <> []
    /\ str_accessor (dtype_na_replace (map m_Resistentie rows))
         (map m_Resistentie rows) = Ok tt
    /\ l = map (voeg_kolommen_toe jaar maand) rows.
Proof.
  unfold verwerk_sheet, verwerk_sheet_stappen. rewrite try_except_Ok. split.
  - intros H. apply bind_Ok in H as (df & Hdf & H).
    apply bind_Ok in H as (rows & Hrows & H).
    destruct rows as [|r rows]; [discriminate |]. cbv zeta in H.
    apply bind_Ok in H as ([] & Hacc & H).
    injection H as <-. exists df, (r :: rows).
    split; [exact Hdf |]. split; [exact Hrows |].
    split; [discriminate |]. split; [exact Hacc | reflexivity].
  - intros (df & rows & Hdf & Hrows & Hne & Hacc & ->).
    rewrite Hdf, bind_Ok_l, Hrows, bind_Ok_l.
    destruct rows as [|r rows]; [congruence |]. cbv zeta.
    rewrite Hacc. reflexivity.
Qed.

(** What a table that [verwerk_sheet] returns is made of. *)
Lemma verwerk_sheet_Ok (xls : ExcelFile) (sheet bestand : string)
  (jaar maand : cell) (l : list LongRecord) :
  verwerk_sheet str_scalar xls sheet bestand jaar maand = Ok l ->
  exists df rows,
    bereid_voor str_scalar xls sheet = Ok df
    /\ melt df = Ok rows
    /\ rows <> []
    /\ l = map (voeg_kolommen_toe jaar maand) rows.
Proof.
  intros H.
  apply verwerk_sheet_Ok_iff in H as (df & rows & Hdf & Hm & Hne & _ & ->).
  exists df, rows. auto.
Qed.

(** The records of a worksheet, written out. *)
Lemma verwerk_sheet_vorm (xls : ExcelFile) (sheet bestand : string)
  (jaar maand : cell) (l : list LongRecord) :
  verwerk_sheet str_scalar xls sheet bestand jaar maand = Ok l ->
  exists df0 k0 k1 rest,
    read_excel_skiprows_2 xls sheet = Ok df0
    /\ iloc_kolom (gesnoeid df0) 0 = Ok k0
    /\ iloc_kolom (setitem (gesnoeid df0) "Organisme"
                     (map (schoon str_scalar) k0)) 1 = Ok k1
    /\ (forall k, In k rest -> In k (kolommen (gesnoeid df0)))
    /\ List.NoDup (map fst rest)
    /\ ~ In "Organisme" (map fst rest)
    /\ ~ In "Resistentie" (map fst rest)
    /\ ~ In "Waarde" (map fst rest)
    /\ l = records_van str_scalar jaar maand (nrows (gesnoeid df0))
             k0 k1 rest.
Proof.
  intros H. apply verwerk_sheet_Ok in H as (df & rows & Hdf & Hm & _ & ->).
  apply bereid_voor_vorm in Hdf
    as (df0 & k0 & k1 & rest & Hr & Hk0 & Hk1 & -> & ND & HO & HR & Hin).
  assert (HW : ~ In "Waarde" (map fst rest)).
  { intros HW. exact (melt_waarde_fout _ _ _ _ _ HW Hm). }
  rewrite (melt_vorm _ _ _ _ HO HR HW) in Hm. injection Hm as <-.
  exists df0, k0, k1, rest. repeat (split; [assumption |]).
  unfold records_van. rewrite flat_map_concat_map, concat_map, map_map.
  rewrite <- flat_map_concat_map. apply flat_map_ext. intros k.
  rewrite map_map. apply map_ext. intros i.
  rewrite !cel_map_schoon. reflexivity.
Qed.

End Bereid.

(* ===================================================================== *)
(** ** Frames stay rectangular *)
(* ===================================================================== *)

Lemma length_select {A} (mask : list bool) (l : list A) :
  length mask = length l -> length (select mask l) = count_true mask.
Proof.
  revert l. unfold count_true.
  induction mask as [|b mask IH]; intros [|x l] H; try discriminate;
    [reflexivity |].
  injection H as H. destruct b; cbn; rewrite IH by exact H; reflexivity.
Qed.

Lemma rechthoekig_dropna_rijen (df : Frame) :
  rechthoekig df -> rechthoekig (dropna_rijen df).
Proof.
  unfold rechthoekig, dropna_rijen. cbn [nrows kolommen]. intros H.
  rewrite List.Forall_forall in *. intros k Hk.
  apply in_map_iff in Hk as (k1 & <- & Hk). cbn [snd].
  apply length_select.
  rewrite List.length_map, length_seq. symmetry. apply H. exact Hk.
Qed.

Lemma rechthoekig_gesnoeid (df0 : Frame) :
  rechthoekig df0 -> rechthoekig (gesnoeid df0).
Proof.
  intros H. unfold gesnoeid.
  assert (H1 : rechthoekig (iloc_vanaf_2 df0)).
  { unfold rechthoekig in *. cbn. rewrite List.Forall_forall in *.
    intros k Hk. apply H. rewrite <- (firstn_skipn 2 (kolommen df0)).
    apply in_app_iff. right. exact Hk. }
  apply rechthoekig_dropna_rijen in H1.
  unfold rechthoekig in *. cbn -[dropna_rijen].
  rewrite List.Forall_forall in *. intros k Hk.
  apply in_map_iff in Hk as (k1 & <- & Hk). cbn.
  apply in_map_iff in Hk as (k2 & <- & Hk). cbn.
  apply filter_In in Hk as [Hk _].
  rewrite List.length_map. apply H1. exact Hk.
Qed.

Lemma iloc_kolom_In (df : Frame) (i : nat) (k : list cell) :
  iloc_kolom df i = Ok k -> exists l, In (l, k) (kolommen df).
Proof.
  unfold iloc_kolom. destruct (nth_error (kolommen df) i) as [[l c]|] eqn:E;
    [| discriminate].
  intros H. injection H as <-. exists l. eapply nth_error_In. exact E.
Qed.

(** The frame that is melted is rectangular when the frame that was read
    is: every record of [melt] then holds cells of the worksheet. *)
Lemma rechthoekig_bereid_voor (str_scalar : cell -> string)
  (xls : ExcelFile) (sheet : string) (df0 df : Frame) :
  read_excel_skiprows_2 xls sheet = Ok df0 ->
  rechthoekig df0 ->
  bereid_voor str_scalar xls sheet = Ok df ->
  rechthoekig df.
Proof.
  intros Hr H0 H.
  apply bereid_voor_vorm in H
    as (d0 & k0 & k1 & rest & Hr' & Hk0 & Hk1 & -> & _ & _ & _ & Hin).
  rewrite Hr in Hr'. injection Hr' as <-.
  apply rechthoekig_gesnoeid in H0.
  unfold rechthoekig in *. rewrite List.Forall_forall in H0.
  apply iloc_kolom_In in Hk0 as (l0 & Hk0).
  assert (L0 : length k0 = nrows (gesnoeid df0)) by apply (H0 _ Hk0).
  apply iloc_kolom_In in Hk1 as (l1 & Hk1).
  assert (L1 : length k1 = nrows (gesnoeid df0)).
  { apply setitem_In in Hk1 as [E | [_ Hk1]].
    - injection E as _ ->. rewrite List.length_map. exact L0.
    - apply (H0 _ Hk1). }
  cbn. repeat constructor; cbn.
  - rewrite List.length_map. exact L0.
  - rewrite List.length_map. exact L1.
  - apply List.Forall_forall. intros k Hk. apply H0, Hin, Hk.
Qed.

(** A data region without a value: no column is left and line 88 fails,
    inside the wrapper of line 121. *)
Lemma lege_regio_IndexError (str_scalar : cell -> string)
  (xls : ExcelFile) (sheet bestand : string) (jaar maand : cell)
  (df0 : Frame) :
  read_excel_skiprows_2 xls sheet = Ok df0 ->
  kolommen (gesnoeid df0) = [] ->
  exists e,
    klasse e = IndexError
    /\ verwerk_sheet str_scalar xls sheet bestand jaar maand
       = Raise (SheetProcessingError bestand sheet e).
Proof.
  intros Hr He.
  assert (Hk : iloc_kolom (gesnoeid df0) 0 =
               Raise (mk_exn IndexError
                        "single positional indexer is out-of-bounds")).
  { unfold iloc_kolom. rewrite He. reflexivity. }
  exists (mk_exn IndexError "single positional indexer is out-of-bounds").
  split; [reflexivity |].
  unfold verwerk_sheet, verwerk_sheet_stappen, bereid_voor.
  rewrite Hr, bind_Ok_l. cbv zeta. fold (gesnoeid df0).
  rewrite Hk. reflexivity.
Qed.

(** A prepared frame has at least one row: its organism column kept a
    value when the empty columns were dropped. *)
Lemma nrows_bereid_voor_pos (str_scalar : cell -> string)
  (xls : ExcelFile) (sheet : string) (df0 df : Frame) :
  read_excel_skiprows_2 xls sheet = Ok df0 ->
  rechthoekig df0 ->
  bereid_voor str_scalar xls sheet = Ok df ->
  (0 < nrows df)%nat.
Proof.
  intros Hr H0 H.
  apply bereid_voor_vorm in H
    as (d0 & k0 & k1 & rest & Hr' & Hk0 & _ & -> & _).
  rewrite Hr in Hr'. injection Hr' as <-. cbn [nrows].
  pose proof (rechthoekig_gesnoeid _ H0) as HG.
  unfold rechthoekig in HG. rewrite List.Forall_forall in HG.
  apply iloc_kolom_In in Hk0 as (l0 & Hk0).
  rewrite <- (HG _ Hk0). cbn [snd].
  unfold gesnoeid in Hk0. cbn -[dropna_rijen] in Hk0.
  apply in_map_iff in Hk0 as ([l1 c1] & E & Hk0). cbn in E.
  injection E as _ <-.
  apply in_map_iff in Hk0 as ([l2 c2] & E & Hk0). cbn in E.
  injection E as _ <-.
  apply filter_In in Hk0 as [_ Hv]. cbn in Hv.
  rewrite List.length_map. destruct c2; [discriminate | cbn; lia].
Qed.

(** [melt] returns no row exactly when no department column is left. *)
Lemma melt_leeg_iff (str_scalar : cell -> string)
  (xls : ExcelFile) (sheet : string) (df0 df : Frame) :
  read_excel_skiprows_2 xls sheet = Ok df0 ->
  rechthoekig df0 ->
  bereid_voor str_scalar xls sheet = Ok df ->
  melt df = Ok [] <-> afdelingen df = [].
Proof.
  intros Hr H0 H.
  pose proof (nrows_bereid_voor_pos _ _ _ _ _ Hr H0 H) as Hn.
  apply bereid_voor_vorm in H
    as (d0 & k0 & k1 & rest & _ & _ & _ & -> & _ & HO & HR & _).
  change (afdelingen _) with (map fst rest). cbn [nrows] in Hn. split.
  - intros Hm.
    assert (HW : ~ In "Waarde" (map fst rest))
      by (intros HW; exact (melt_waarde_fout _ _ _ _ _ HW Hm)).
    rewrite (melt_vorm _ _ _ _ HO HR HW) in Hm. injection Hm as Hm.
    destruct rest as [|k rest]; [reflexivity |]. exfalso.
    apply (f_equal (@length MeltRij)) in Hm.
    rewrite (length_flat_map_const _ (nrows (gesnoeid d0))) in Hm
      by (intros; rewrite List.length_map, length_seq; reflexivity).
    cbn [length] in Hm. nia.
  - intros E. destruct rest; [| discriminate].
    rewrite (melt_vorm _ _ _ _ HO HR) by (intros []). reflexivity.
Qed.

(* ===================================================================== *)
(** ** verwerk_sheet: departments, counts, empty sheets *)
(* ===================================================================== *)

Lemma in_records_van (str_scalar : cell -> string) (jaar maand : cell)
  (n : nat) (k0 k1 : list cell) (rest : list (string * list cell))
  (L : LongRecord) :
  In L (records_van str_scalar jaar maand n k0 k1 rest) <->
  exists k i,
    In k rest /\ (i < n)%nat
    /\ L = voeg_kolommen_toe jaar maand
             (mk_melt (schoon str_scalar (cel i k0))
                      (schoon str_scalar (cel i k1))
                      (fst k) (cel i (snd k))).
Proof.
  unfold records_van. rewrite in_flat_map. split.
  - intros (k & Hk & HL). apply in_map_iff in HL as (i & <- & Hi).
    apply in_seq in Hi. exists k, i. repeat split; [exact Hk | lia].
  - intros (k & i & Hk & Hi & ->). exists k. split; [exact Hk |].
    apply in_map_iff. exists i. split; [reflexivity |].
    apply in_seq. lia.
Qed.

(** C2.  When the last label of the pruned data region is [Organisme],
    the frame that is melted has that label on its first column only:
    it is not among the department columns, and no record of the
    worksheet has it as [Afdeling]. *)
Theorem organisme_geen_afdeling (str_scalar : cell -> string)
  (xls : ExcelFile) (sheet bestand : string) (jaar maand : cell)
  (df0 : Frame) (l : list LongRecord) :
  read_excel_skiprows_2 xls sheet = Ok df0 ->
  last (columns (gesnoeid df0)) = Some "Organisme" ->
  verwerk_sheet str_scalar xls sheet bestand jaar maand = Ok l ->
  (exists df,
      bereid_voor str_scalar xls sheet = Ok df
      /\ columns df = "Organisme" :: "Resistentie" :: afdelingen df
      /\ ~ In "Organisme" (afdelingen df))
  /\ forall L, In L l -> Afdeling L <> "Organisme".
Proof.
  intros _ _ H.
  pose proof H as Hv.
  apply verwerk_sheet_Ok in H as (df & rows & Hdf & _).
  split.
  - exists df. split; [exact Hdf |].
    apply bereid_voor_vorm in Hdf
      as (d0 & k0 & k1 & rest & _ & _ & _ & -> & _ & HO & _).
    split; [reflexivity | exact HO].
  - apply verwerk_sheet_vorm in Hv
      as (d0 & k0 & k1 & rest & _ & _ & _ & _ & _ & HO & _ & _ & ->).
    intros L HL. apply in_records_van in HL as (k & i & Hk & _ & ->).
    cbn. intros E. apply HO. rewrite <- E. apply in_map. exact Hk.
Qed.

Lemma organisme_geen_afdeling_witness :
  (exists df,
      bereid_voor Voorbeeld.str_scalar [Voorbeeld.blad_organisme_achteraan]
        "juni" = Ok df
      /\ columns df = "Organisme" :: "Resistentie" :: afdelingen df
      /\ ~ In "Organisme" (afdelingen df))
  /\ forall L, In L Voorbeeld.records_juni -> Afdeling L <> "Organisme".
Proof.
  apply (organisme_geen_afdeling Voorbeeld.str_scalar
           [Voorbeeld.blad_organisme_achteraan] "juni" "ziekenhuis.xlsx"
           (Getal 2024) (Getal 6) Voorbeeld.tabel_organisme_achteraan).
  - reflexivity.
  - reflexivity.
  - reflexivity.
Defined.

(** C4, as the code has it.  The frame that is melted has [R] rows, the
    rows of the data region that are not empty, and [D] department
    columns after its two leading columns, each label once.  When no
    department is labelled [Waarde], [melt] returns exactly [R * D] rows;
    with a department of that label [melt] raises a [ValueError] and
    returns no rows.  A table that [verwerk_sheet] returns has [R * D]
    records. *)
Theorem melt_aantal (str_scalar : cell -> string) (xls : ExcelFile)
  (sheet : string) (df0 df : Frame) :
  read_excel_skiprows_2 xls sheet = Ok df0 ->
  bereid_voor str_scalar xls sheet = Ok df ->
  columns df = "Organisme" :: "Resistentie" :: afdelingen df
  /\ List.NoDup (afdelingen df)
  /\ nrows df =
     count_true (map (rij_notna (iloc_vanaf_2 df0)) (seq 0 (nrows df0)))
  /\ (~ In "Waarde" (afdelingen df) ->
        exists rows,
          melt df = Ok rows
          /\ length rows = (nrows df * length (afdelingen df))%nat)
  /\ (In "Waarde" (afdelingen df) ->
        exists e, klasse e = ValueError /\ melt df = Raise e)
  /\ (forall bestand jaar maand l,
        verwerk_sheet str_scalar xls sheet bestand jaar maand = Ok l ->
        length l = (nrows df * length (afdelingen df))%nat).
Proof.
  intros Hr H. pose proof H as Hdf.
  apply bereid_voor_vorm in H
    as (d0 & k0 & k1 & rest & Hr' & _ & _ & -> & ND & HO & HR & _).
  rewrite Hr in Hr'. injection Hr' as <-.
  split; [reflexivity |]. split; [exact ND |].
  split; [apply nrows_gesnoeid |].
  change (afdelingen _) with (map fst rest).
  assert (Hlen : forall rows,
             melt (mk_frame (nrows (gesnoeid df0))
                     (("Organisme", map (schoon str_scalar) k0)
                      :: ("Resistentie", map (schoon str_scalar) k1)
                      :: rest)) = Ok rows ->
             length rows
             = (nrows (gesnoeid df0) * length (map fst rest))%nat).
  { intros rows Hm.
    assert (HW : ~ In "Waarde" (map fst rest))
      by (intros HW; exact (melt_waarde_fout _ _ _ _ _ HW Hm)).
    rewrite (melt_vorm _ _ _ _ HO HR HW) in Hm. injection Hm as <-.
    rewrite (length_flat_map_const _ (nrows (gesnoeid df0))).
    - rewrite List.length_map. reflexivity.
    - intros k. rewrite List.length_map, length_seq. reflexivity. }
  split; [| split].
  - intros HW. rewrite (melt_vorm _ _ _ _ HO HR HW).
    eexists. split; [reflexivity |].
    apply Hlen. apply melt_vorm; assumption.
  - intros HW. unfold melt.
    replace (existsb (String.eqb value_name) _) with true.
    + eexists. split; [| reflexivity]. reflexivity.
    + symmetry. apply existsb_eqb_In. cbn. right. right. exact HW.
  - intros bestand jaar maand l Hl.
    apply verwerk_sheet_Ok in Hl as (df' & rows & Hdf' & Hm & _ & ->).
    rewrite Hdf in Hdf'. injection Hdf' as <-.
    rewrite List.length_map. apply Hlen. exact Hm.
Qed.

Lemma melt_aantal_witness :
  exists df rows,
    bereid_voor Voorbeeld.str_scalar Voorbeeld.xls "maart" = Ok df
    /\ melt df = Ok rows
    /\ nrows df = 1%nat
    /\ afdelingen df = ["Afd A"; "Afd B"]
    /\ length rows = 2%nat.
Proof.
  destruct (melt_aantal Voorbeeld.str_scalar Voorbeeld.xls "maart"
              Voorbeeld.tabel
              (mk_frame 1 [("Organisme", [Tekst "E. coli"]);
                           ("Resistentie", [Tekst "ESBL positief"]);
                           ("Afd A", [Getal 3]); ("Afd B", [Getal 0])])
              eq_refl eq_refl)
    as (_ & _ & _ & Hgoed & _ & _).
  destruct Hgoed as (rows & Hm & Hlen).
  - cbn. intros [H | [H | []]]; discriminate.
  - eexists. exists rows.
    split; [reflexivity |]. split; [exact Hm |].
    split; [reflexivity |]. split; [reflexivity | exact Hlen].
Defined.

(** C4, as the claim has it, fails: a worksheet with one row and the
    departments [Afd A] and [Waarde] is prepared, and [melt] does not
    return 1 * 2 rows. *)
Lemma melt_aantal_tegenvoorbeeld :
  exists df,
    bereid_voor Voorbeeld.str_scalar [Voorbeeld.blad_afdeling_waarde] "juli"
    = Ok df
    /\ nrows df = 1%nat
    /\ afdelingen df = ["Afd A"; "Waarde"]
    /\ ~ exists rows,
          melt df = Ok rows
          /\ length rows = (nrows df * length (afdelingen df))%nat.
Proof.
  eexists. split; [reflexivity |]. split; [reflexivity |].
  split; [reflexivity |].
  intros (rows & Hm & _). discriminate Hm.
Qed.

(** What [verwerk_sheet] raises is the wrapper of line 121 around what
    its body raised. *)
Lemma verwerk_sheet_Raise (str_scalar : cell -> string) (xls : ExcelFile)
  (sheet bestand : string) (jaar maand : cell) (e : exn) :
  verwerk_sheet str_scalar xls sheet bestand jaar maand = Raise e <->
  exists oorzaak,
    verwerk_sheet_stappen str_scalar xls sheet bestand jaar maand
    = Raise oorzaak
    /\ e = SheetProcessingError bestand sheet oorzaak.
Proof.
  unfold verwerk_sheet. rewrite try_except_Raise. reflexivity.
Qed.

(** The failures of the body of [verwerk_sheet], step by step. *)
Lemma verwerk_sheet_stappen_Raise (str_scalar : cell -> string)
  (xls : ExcelFile) (sheet bestand : string) (jaar maand : cell)
  (oorzaak : exn) :
  verwerk_sheet_stappen str_scalar xls sheet bestand jaar maand
  = Raise oorzaak <->
  bereid_voor str_scalar xls sheet = Raise oorzaak
  \/ (exists df,
         bereid_voor str_scalar xls sheet = Ok df
         /\ melt df = Raise oorzaak)
  \/ (exists df,
         bereid_voor str_scalar xls sheet = Ok df
         /\ melt df = Ok []
         /\ oorzaak = EmptySheetError bestand sheet)
  \/ (exists df rows,
         bereid_voor str_scalar xls sheet = Ok df
         /\ melt df = Ok rows
         /\ rows <> []
         /\ str_accessor (dtype_na_replace (map m_Resistentie rows))
              (map m_Resistentie rows) = Raise oorzaak).
Proof.
  unfold verwerk_sheet_stappen. split.
  - intros H. apply bind_Raise in H as [H | (df & Hdf & H)];
      [left; exact H | right].
    apply bind_Raise in H as [H | (rows & Hm & H)];
      [left; exists df; auto | right].
    destruct rows as [|r rows].
    + left. exists df. injection H as <-. auto.
    + right. cbv zeta in H.
      apply bind_Raise in H as [H | ([] & _ & H)]; [| discriminate].
      exists df, (r :: rows). repeat split; try assumption. discriminate.
  - intros [H | [(df & Hdf & H) | [(df & Hdf & H & ->)
                                  | (df & rows & Hdf & Hm & Hne & H)]]].
    + rewrite H. reflexivity.
    + rewrite Hdf, bind_Ok_l, H. reflexivity.
    + rewrite Hdf, bind_Ok_l, H. reflexivity.
    + rewrite Hdf, bind_Ok_l, Hm, bind_Ok_l.
      destruct rows as [|r rows]; [congruence |]. cbv zeta.
      rewrite H. reflexivity.
Qed.

(** C8.  A worksheet whose melted frame has no rows makes [verwerk_sheet]
    raise: the message is that of line 121, with the file, the worksheet
    and, as the cause, the message of line 106, which names the file and
    the worksheet again.  [verwerk_sheet] never returns an empty table.
    Every failure of a step of the body (preparing the frame, [melt],
    the empty table, the [.str] accessor) is raised as the message of
    line 121 with the file, the worksheet and the message of that
    failure, and [verwerk_sheet] raises nothing else. *)
Theorem lege_sheet_fout (str_scalar : cell -> string) (xls : ExcelFile)
  (sheet bestand : string) (jaar maand : cell) :
  (forall df,
      bereid_voor str_scalar xls sheet = Ok df ->
      melt df = Ok [] ->
      exists e,
        verwerk_sheet str_scalar xls sheet bestand jaar maand = Raise e
        /\ klasse e = Exception
        /\ bericht e
           = "Fout bij het inlezen van tabel: " +:+ bestand
             +:+ ", tabblad: " +:+ sheet
             +:+ ", foutmelding: Geen data gevonden in tabel: " +:+ bestand
             +:+ ", tabblad: " +:+ sheet)
  /\ (forall l,
         verwerk_sheet str_scalar xls sheet bestand jaar maand = Ok l ->
         l <> [])
  /\ (forall oorzaak,
         bereid_voor str_scalar xls sheet = Raise oorzaak
         \/ (exists df,
                bereid_voor str_scalar xls sheet = Ok df
                /\ melt df = Raise oorzaak)
         \/ (exists df rows,
                bereid_voor str_scalar xls sheet = Ok df
                /\ melt df = Ok rows
                /\ rows <> []
                /\ str_accessor (dtype_na_replace (map m_Resistentie rows))
                     (map m_Resistentie rows) = Raise oorzaak) ->
         exists e,
           verwerk_sheet str_scalar xls sheet bestand jaar maand = Raise e
           /\ klasse e = Exception
           /\ bericht e
              = "Fout bij het inlezen van tabel: " +:+ bestand
                +:+ ", tabblad: " +:+ sheet
                +:+ ", foutmelding: " +:+ bericht oorzaak)
  /\ (forall e,
         verwerk_sheet str_scalar xls sheet bestand jaar maand = Raise e ->
         exists oorzaak,
           verwerk_sheet_stappen str_scalar xls sheet bestand jaar maand
           = Raise oorzaak
           /\ klasse e = Exception
           /\ bericht e
              = "Fout bij het inlezen van tabel: " +:+ bestand
                +:+ ", tabblad: " +:+ sheet
                +:+ ", foutmelding: " +:+ bericht oorzaak).
Proof.
  split; [| split; [| split]].
  - intros df Hdf Hm.
    exists (SheetProcessingError bestand sheet
              (EmptySheetError bestand sheet)).
    split; [| split; reflexivity].
    apply verwerk_sheet_Raise. eexists. split; [| reflexivity].
    apply verwerk_sheet_stappen_Raise. right. right. left.
    exists df. auto.
  - intros l H. apply verwerk_sheet_Ok in H as (df & rows & _ & _ & Hne & ->).
    destruct rows; [congruence | discriminate].
  - intros oorzaak H. exists (SheetProcessingError bestand sheet oorzaak).
    split; [| split; reflexivity].
    apply verwerk_sheet_Raise. exists oorzaak. split; [| reflexivity].
    apply verwerk_sheet_stappen_Raise.
    destruct H as [H | [H | H]]; [left | right; left | right; right; right];
      exact H.
  - intros e H. apply verwerk_sheet_Raise in H as (oorzaak & H & ->).
    exists oorzaak. split; [exact H |]. split; reflexivity.
Qed.

Lemma lege_sheet_fout_witness :
  exists e,
    verwerk_sheet Voorbeeld.str_scalar [Voorbeeld.blad_zonder_afdeling]
      "mei" "ziekenhuis.xlsx" (Getal 2024) (Getal 5) = Raise e
    /\ klasse e = Exception
    /\ bericht e
       = "Fout bij het inlezen van tabel: ziekenhuis.xlsx, tabblad: mei, foutmelding: Geen data gevonden in tabel: ziekenhuis.xlsx, tabblad: mei".
Proof.
  apply (proj1 (lege_sheet_fout Voorbeeld.str_scalar
                  [Voorbeeld.blad_zonder_afdeling] "mei" "ziekenhuis.xlsx"
                  (Getal 2024) (Getal 5))
           (mk_frame 1 [("Organisme", [Tekst "E. coli"]);
                        ("Resistentie", [Tekst "MRSA"])])).
  - reflexivity.
  - reflexivity.
Defined.

(* ===================================================================== *)
(** ** Missing labels and names *)
(* ===================================================================== *)





(** A column with a text in it has the [.str] accessor, whatever dtype
    line 90 left: it is a column of objects. *)
Lemma str_accessor_met_tekst (kolom : list cell) :
  existsb is_tekst kolom = true ->
  str_accessor (dtype_na_replace kolom) kolom = Ok tt.
Proof.
  intros H. apply existsb_exists in H as (c & Hin & Hc).
  destruct c as [|s| |]; try discriminate. clear Hc.
  assert (Hna : forallb isna kolom = false).
  { destruct (forallb isna kolom) eqn:E; [| reflexivity].
    rewrite forallb_forall in E. specialize (E _ Hin). discriminate. }
  unfold dtype_na_replace. destruct kolom as [|c0 kolom]; [destruct Hin |].
  rewrite Hna. unfold str_accessor, str_toegestaan.
  assert (Hf : In (Tekst s)
                 (List.filter (fun c => negb (isna c)) (c0 :: kolom)))
    by (apply filter_In; split; [exact Hin | reflexivity]).
  destruct (List.filter _ (c0 :: kolom)) as [|v0 v]; [destruct Hf |].
  replace (forallb is_getal (v0 :: v)) with false.
  - replace (forallb is_datum (v0 :: v)) with false; [reflexivity |].
    symmetry. destruct (forallb is_datum (v0 :: v)) eqn:E; [| reflexivity].
    rewrite forallb_forall in E. specialize (E _ Hf). discriminate.
  - symmetry. destruct (forallb is_getal (v0 :: v)) eqn:E; [| reflexivity].
    rewrite forallb_forall in E. specialize (E _ Hf). discriminate.
Qed.

(** A column without any value left is a [float64] column after line
    90, and [.str] refuses it. *)
Lemma str_accessor_zonder_waarde (kolom : list cell) :
  kolom <> [] ->
  forallb isna kolom = true ->
  str_accessor (dtype_na_replace kolom) kolom
  = Raise (mk_exn AttributeError
             "Can only use .str accessor with string values!").
Proof.
  intros Hne H. unfold dtype_na_replace.
  destruct kolom; [congruence |]. rewrite H. reflexivity.
Qed.

Lemma existsb_is_tekst (rows : list MeltRij) :
  existsb is_tekst (map m_Resistentie rows) = true <->
  exists r s, In r rows /\ m_Resistentie r = Tekst s.
Proof.
  rewrite existsb_exists. split.
  - intros (c & Hin & Hc). apply in_map_iff in Hin as (r & <- & Hin).
    destruct (m_Resistentie r) as [|s| |] eqn:E; try discriminate.
    exists r, s. auto.
  - intros (r & s & Hin & E). exists (Tekst s).
    split; [rewrite <- E; apply in_map; exact Hin | reflexivity].
Qed.





(** ** filter_exclusie on a DataFrame *)















(* ===================================================================== *)
(** ** lees_datum_uit_cel *)
(* ===================================================================== *)






























Lemma append_assoc (a b c : string) : (a +:+ b) +:+ c = a +:+ (b +:+ c).
Proof.
  induction a as [|x a IH]; [reflexivity |].
  rewrite !append_cons, IH. reflexivity.
Qed.






(* ===================================================================== *)
(** ** main *)
(* ===================================================================== *)


(** In the data flow of the design no record with value 0 reaches either
    output table. *)
Lemma beoogde_uitvoer_zonder_nul (alle_data : list (list LongRecord))
  (r : LongRecord) :
  In r (fst (beoogde_uitvoer alle_data))
  \/ In r (snd (beoogde_uitvoer alle_data)) ->
  Waarde r <> Getal 0 /\ In r (concat alle_data).
Proof.
  unfold beoogde_uitvoer. rewrite in_behouden, in_exclusie.
  intros H.
  assert (Hin : In r (zonder_nul (concat alle_data))) by tauto.
  unfold zonder_nul in Hin. rewrite select_map in Hin.
  apply filter_In in Hin as [Hin Hne]. split; [| exact Hin].
  intros E. rewrite E in Hne. discriminate.
Qed.

(** C1, as the code has it.  When the directory yields at least one
    table and no global is called [res_binair_no_o], line 212 raises a
    [NameError] and [main] raises the wrapper of line 217 around it:
    [filter_exclusie] is never called and no output pair is made. *)
Theorem main_naamfout (str_scalar : cell -> string) (schijf : Schijf)
  (G : gmap string pyval) (namen : list string)
  (alle_data : list (list LongRecord)) :
  os_listdir schijf pad_naar_excelmap = Ok namen ->
  verzamel str_scalar schijf namen = Ok alle_data ->
  alle_data <> [] ->
  G !! "res_binair_no_o" = None ->
  main str_scalar schijf G =
  Raise (CombineError
           (mk_exn NameError "name 'res_binair_no_o' is not defined")).
Proof.
  intros Hl Hv Hne HG. unfold main. rewrite Hl. cbn. rewrite Hv. cbn.
  destruct alle_data as [|t rest]; [congruence |].
  unfold load_global. rewrite HG. reflexivity.
Qed.

Lemma main_naamfout_witness :
  main Voorbeeld.str_scalar Voorbeeld.schijf module_globals =
  Raise (CombineError
           (mk_exn NameError "name 'res_binair_no_o' is not defined")).
Proof.
  apply (main_naamfout Voorbeeld.str_scalar Voorbeeld.schijf module_globals
           ["maart.XLSX"; "notities.txt"]
           [[mk_long (Tekst "E. coli") (Tekst "ESBL positief") "Afd A"
               (Getal 3) 1 1 0 0 0 (Getal 2024) (Getal 3);
             mk_long (Tekst "E. coli") (Tekst "ESBL positief") "Afd B"
               (Getal 0) 1 1 0 0 0 (Getal 2024) (Getal 3)]]).
  - reflexivity.
  - reflexivity.
  - discriminate.
  - reflexivity.
Defined.

(** Run as the module runs it, [main] never returns. *)
Lemma main_module_globals_keert_niet_terug (str_scalar : cell -> string)
  (schijf : Schijf) :
  is_ok (main str_scalar schijf module_globals) = false.
Proof.
  unfold main.
  destruct (os_listdir schijf pad_naar_excelmap) as [namen|e]; cbn;
    [| reflexivity].
  destruct (verzamel str_scalar schijf namen) as [[|t rest]|e]; cbn;
    reflexivity.
Qed.

(* ===================================================================== *)
(** ** verwerk_excelbestand: the worksheets of one workbook *)
(* ===================================================================== *)

Lemma verwerk_sheets_cons_Ok (str_scalar : cell -> string)
  (xls : ExcelFile) (bestand sheet : string) (rest : list string)
  (ts : list (list LongRecord)) :
  verwerk_sheets str_scalar xls bestand (sheet :: rest) = Ok ts <->
  exists jaar maand t tl,
    lees_datum_uit_cel xls sheet bestand = Ok (jaar, maand)
    /\ verwerk_sheet str_scalar xls sheet bestand jaar maand = Ok t
    /\ verwerk_sheets str_scalar xls bestand rest = Ok tl
    /\ ts = t :: tl.
Proof.
  cbn [verwerk_sheets]. split.
  - intros H. apply bind_Ok in H as ([jaar maand] & Hd & H).
    apply bind_Ok in H as (t & Ht & H).
    apply bind_Ok in H as (tl & Htl & H). injection H as <-.
    exists jaar, maand, t, tl. auto.
  - intros (jaar & maand & t & tl & Hd & Ht & Htl & ->).
    rewrite Hd, bind_Ok_l, Ht, bind_Ok_l, Htl. reflexivity.
Qed.

Lemma verwerk_sheets_cons_Raise (str_scalar : cell -> string)
  (xls : ExcelFile) (bestand sheet : string) (rest : list string)
  (e : exn) :
  verwerk_sheets str_scalar xls bestand (sheet :: rest) = Raise e <->
  lees_datum_uit_cel xls sheet bestand = Raise e
  \/ exists jaar maand,
       lees_datum_uit_cel xls sheet bestand = Ok (jaar, maand)
       /\ (verwerk_sheet str_scalar xls sheet bestand jaar maand = Raise e
           \/ exists t,
                verwerk_sheet str_scalar xls sheet bestand jaar maand = Ok t
                /\ verwerk_sheets str_scalar xls bestand rest = Raise e).
Proof.
  cbn [verwerk_sheets]. split.
  - intros H. apply bind_Raise in H as [H | ([jaar maand] & Hd & H)];
      [left; exact H |].
    right. exists jaar, maand. split; [exact Hd |].
    apply bind_Raise in H as [H | (t & Ht & H)]; [left; exact H |].
    right. exists t. split; [exact Ht |].
    apply bind_Raise in H as [H | (tl & Htl & H)];
      [exact H | discriminate].
  - intros [H | (jaar & maand & Hd & [H | (t & Ht & H)])].
    + rewrite H. reflexivity.
    + rewrite Hd, bind_Ok_l, H. reflexivity.
    + rewrite Hd, bind_Ok_l, Ht, bind_Ok_l, H. reflexivity.
Qed.

Lemma verwerk_sheet_periode (str_scalar : cell -> string) (xls : ExcelFile)
  (sheet bestand : string) (jaar maand : cell) (t : list LongRecord) :
  verwerk_sheet str_scalar xls sheet bestand jaar maand = Ok t ->
  t <> [] /\ forall r, In r t -> Jaar r = jaar /\ Maand r = maand.
Proof.
  intros H. apply verwerk_sheet_Ok in H as (df & rows & _ & _ & Hne & ->).
  split.
  - destruct rows; [congruence | discriminate].
  - intros r Hr. apply in_map_iff in Hr as (m & <- & _). split; reflexivity.
Qed.

Lemma verwerk_sheets_Ok (str_scalar : cell -> string) (xls : ExcelFile)
  (bestand : string) (sheets : list string) (ts : list (list LongRecord)) :
  verwerk_sheets str_scalar xls bestand sheets = Ok ts ->
  Forall2 (tabel_van_blad str_scalar xls bestand) sheets ts.
Proof.
  revert ts. induction sheets as [|sheet rest IH]; intros ts H.
  - cbn in H. injection H as <-. constructor.
  - apply verwerk_sheets_cons_Ok in H
      as (jaar & maand & t & tl & Hd & Ht & Htl & ->).
    constructor; [| apply IH; exact Htl].
    exists jaar, maand. split; [exact Hd |]. split; [exact Ht |].
    apply (verwerk_sheet_periode _ _ _ _ _ _ _ Ht).
Qed.

(** X1.  When [verwerk_excelbestand] returns, the workbook was opened and
    the result holds exactly one table per worksheet, in worksheet
    order; each table is not empty and every record in it carries the
    year and month of the C2 of its own worksheet. *)
Theorem verwerk_excelbestand_tabellen (str_scalar : cell -> string)
  (schijf : Schijf) (bestandpad bestand : string)
  (ts : list (list LongRecord)) :
  verwerk_excelbestand str_scalar schijf bestandpad bestand = Ok ts ->
  exists xls,
    pd_ExcelFile schijf bestandpad = Ok xls
    /\ length ts = length (sheet_names xls)
    /\ Forall2 (tabel_van_blad str_scalar xls bestand) (sheet_names xls) ts.
Proof.
  unfold verwerk_excelbestand. intros H.
  apply bind_Ok in H as (xls & Hx & H).
  apply try_except_Ok in Hx.
  exists xls. split; [exact Hx |].
  apply verwerk_sheets_Ok in H. split; [| exact H].
  symmetry. eapply Forall2_length. exact H.
Qed.

Lemma verwerk_excelbestand_tabellen_witness :
  exists xls,
    pd_ExcelFile Voorbeeld.schijf "maart.XLSX" = Ok xls
    /\ length [Meer.records_maart] = length (sheet_names xls)
    /\ Forall2 (tabel_van_blad Voorbeeld.str_scalar xls "maart.XLSX")
         (sheet_names xls) [Meer.records_maart].
Proof.
  apply (verwerk_excelbestand_tabellen Voorbeeld.str_scalar Voorbeeld.schijf
           "maart.XLSX" "maart.XLSX" [Meer.records_maart]).
  reflexivity.
Defined.

(** A failing loop failed on one of its worksheets, with the wrapper of
    line 43 or of line 121. *)
Lemma verwerk_sheets_Raise (str_scalar : cell -> string) (xls : ExcelFile)
  (bestand : string) (sheets : list string) (e : exn) :
  verwerk_sheets str_scalar xls bestand sheets = Raise e ->
  exists sheet oorzaak,
    In sheet sheets
    /\ (e = InvalidDateError bestand sheet oorzaak
        \/ e = SheetProcessingError bestand sheet oorzaak).
Proof.
  induction sheets as [|sheet rest IH]; intros H; [discriminate |].
  apply verwerk_sheets_cons_Raise in H
    as [H | (jaar & maand & _ & [H | (t & _ & H)])].
  - unfold lees_datum_uit_cel in H.
    apply try_except_Raise in H as (o & _ & ->).
    exists sheet, o. split; [left; reflexivity | left; reflexivity].
  - unfold verwerk_sheet in H.
    apply try_except_Raise in H as (o & _ & ->).
    exists sheet, o. split; [left; reflexivity | right; reflexivity].
  - destruct (IH H) as (s & o & Hin & Ho).
    exists s, o. split; [right; exact Hin | exact Ho].
Qed.

(** X2.  Whatever [verwerk_excelbestand] raises says where it happened:
    it is the error of line 139 with the file name, or, for a worksheet
    of the workbook, the wrapper of line 43 or of line 121 with the file
    name and the name of that worksheet. *)
Theorem verwerk_excelbestand_fout (str_scalar : cell -> string)
  (schijf : Schijf) (bestandpad bestand : string) (e : exn) :
  verwerk_excelbestand str_scalar schijf bestandpad bestand = Raise e ->
  (exists oorzaak,
      pd_ExcelFile schijf bestandpad = Raise oorzaak
      /\ e = WorkbookOpenError bestand oorzaak)
  \/ exists xls sheet oorzaak,
       pd_ExcelFile schijf bestandpad = Ok xls
       /\ In sheet (sheet_names xls)
       /\ (e = InvalidDateError bestand sheet oorzaak
           \/ e = SheetProcessingError bestand sheet oorzaak).
Proof.
  unfold verwerk_excelbestand. intros H.
  apply bind_Raise in H as [H | (xls & Hx & H)].
  - left. apply try_except_Raise in H as (oorzaak & Ho & ->).
    exists oorzaak. auto.
  - right. apply try_except_Ok in Hx. exists xls.
    destruct (verwerk_sheets_Raise _ _ _ _ _ H) as (sheet & o & Hin & Ho).
    exists sheet, o. auto.
Qed.

Lemma verwerk_excelbestand_fout_witness :
  exists oorzaak,
    pd_ExcelFile Meer.schijf_twee "kapot.xlsx" = Raise oorzaak
    /\ verwerk_excelbestand Voorbeeld.str_scalar Meer.schijf_twee "kapot.xlsx"
         "kapot.xlsx"
       = Raise (WorkbookOpenError "kapot.xlsx" oorzaak).
Proof.
  destruct (verwerk_excelbestand_fout Voorbeeld.str_scalar Meer.schijf_twee
              "kapot.xlsx" "kapot.xlsx"
              (WorkbookOpenError "kapot.xlsx"
                 (mk_exn ValueError "Excel file format cannot be determined"))
              eq_refl)
    as [(o & Ho & He) | (xls & s & o & Hx & _)].
  - exists o. split; [exact Ho |]. rewrite <- He. reflexivity.
  - discriminate Hx.
Defined.

(** X3.  The loop stops at the first worksheet that fails: when the
    worksheets before [sheet] are processed and [sheet] fails, on its
    date or, with its date read, on its table, the loop raises that
    error, whatever the worksheets after it hold. *)
Theorem verwerk_sheets_eerste_fout (str_scalar : cell -> string)
  (xls : ExcelFile) (bestand sheet : string) (voor na : list string)
  (ts : list (list LongRecord)) (e : exn) :
  verwerk_sheets str_scalar xls bestand voor = Ok ts ->
  lees_datum_uit_cel xls sheet bestand = Raise e
  \/ (exists jaar maand,
         lees_datum_uit_cel xls sheet bestand = Ok (jaar, maand)
         /\ verwerk_sheet str_scalar xls sheet bestand jaar maand
            = Raise e) ->
  verwerk_sheets str_scalar xls bestand (voor ++ sheet :: na) = Raise e.
Proof.
  revert ts. induction voor as [|s voor IH]; intros ts Hv Hs.
  - cbn [app]. apply verwerk_sheets_cons_Raise.
    destruct Hs as [Hs | (jaar & maand & Hd & Hs)]; [left; exact Hs |].
    right. exists jaar, maand. auto.
  - apply verwerk_sheets_cons_Ok in Hv
      as (jaar & maand & t & tl & Hd & Ht & Htl & ->).
    cbn [app]. apply verwerk_sheets_cons_Raise. right.
    exists jaar, maand. split; [exact Hd |]. right.
    exists t. split; [exact Ht |]. eapply IH; eassumption.
Qed.

Lemma verwerk_sheets_eerste_fout_witness :
  verwerk_sheets Voorbeeld.str_scalar Meer.werkboek_drie "ziekenhuis.xlsx"
    (["maart"] ++ "april" :: ["mei"])
  = Raise (InvalidDateError "ziekenhuis.xlsx" "april"
             (MissingDateError "ziekenhuis.xlsx" "april")).
Proof.
  apply (verwerk_sheets_eerste_fout Voorbeeld.str_scalar Meer.werkboek_drie
           "ziekenhuis.xlsx" "april" ["maart"] ["mei"]
           [Meer.records_maart]).
  - reflexivity.
  - left. reflexivity.
Defined.

(* ===================================================================== *)
(** ** main: the loop over the directory *)
(* ===================================================================== *)

Lemma verzamel_cons (str_scalar : cell -> string) (schijf : Schijf)
  (bestand : string) (rest : list string) :
  verzamel str_scalar schijf (bestand :: rest) =
  if is_excelbestand bestand
  then nieuw ← verwerk_excelbestand str_scalar schijf
                 (os_path_join pad_naar_excelmap bestand) bestand;
       tl ← verzamel str_scalar schijf rest;
       Ok (nieuw ++ tl)
  else verzamel str_scalar schijf rest.
Proof. reflexivity. Qed.

(** X4.  The loop of lines 199-202 does not look at the entries whose
    name does not end in [.xlsx] or [.xlsm]: they can be removed from the
    listing without changing what the loop returns or raises. *)
Theorem verzamel_alleen_excel (str_scalar : cell -> string)
  (schijf : Schijf) (namen : list string) :
  verzamel str_scalar schijf namen =
  verzamel str_scalar schijf (List.filter is_excelbestand namen).
Proof.
  induction namen as [|bestand rest IH]; [reflexivity |].
  rewrite verzamel_cons. cbn [List.filter].
  destruct (is_excelbestand bestand) eqn:E.
  - rewrite verzamel_cons, E, IH. reflexivity.
  - exact IH.
Qed.

(** X7.  When the loop returns, every workbook of the listing was
    processed and the result is the tables of the workbooks one after
    the other, in the order of the listing (and inside a workbook in the
    order of its worksheets). *)
Theorem verzamel_volgorde (str_scalar : cell -> string) (schijf : Schijf)
  (namen : list string) (alle_data : list (list LongRecord)) :
  verzamel str_scalar schijf namen = Ok alle_data ->
  exists per_bestand,
    Forall2 (fun bestand ts =>
               verwerk_excelbestand str_scalar schijf
                 (os_path_join pad_naar_excelmap bestand) bestand = Ok ts)
            (List.filter is_excelbestand namen) per_bestand
    /\ alle_data = concat per_bestand.
Proof.
  revert alle_data. induction namen as [|bestand rest IH]; intros data H.
  - cbn in H. injection H as <-. exists []. split; [constructor | reflexivity].
  - rewrite verzamel_cons in H. cbn [List.filter].
    destruct (is_excelbestand bestand).
    + apply bind_Ok in H as (nieuw & Hn & H).
      apply bind_Ok in H as (tl & Htl & H). injection H as <-.
      destruct (IH _ Htl) as (per & HF & ->).
      exists (nieuw :: per). split; [constructor; assumption | reflexivity].
    + apply IH. exact H.
Qed.

Lemma verzamel_volgorde_witness :
  exists per_bestand,
    Forall2 (fun bestand ts =>
               verwerk_excelbestand Voorbeeld.str_scalar Meer.schijf_twee
                 (os_path_join pad_naar_excelmap bestand) bestand = Ok ts)
            (List.filter is_excelbestand
               ["maart.XLSX"; "notities.txt"; "juni.xlsm"]) per_bestand
    /\ [Meer.records_maart; Voorbeeld.records_juni] = concat per_bestand.
Proof.
  apply (verzamel_volgorde Voorbeeld.str_scalar Meer.schijf_twee).
  reflexivity.
Defined.

Lemma filter_geen {A} (f : A -> bool) (l : list A) :
  (forall x, In x l -> f x = false) -> List.filter f l = [].
Proof.
  induction l as [|x l IH]; intros H; [reflexivity |].
  cbn. rewrite (H x) by (left; reflexivity).
  apply IH. intros y Hy. apply H. right. exact Hy.
Qed.

Lemma verzamel_geen_excel (str_scalar : cell -> string) (schijf : Schijf)
  (namen : list string) :
  (forall bestand, In bestand namen -> is_excelbestand bestand = false) ->
  verzamel str_scalar schijf namen = Ok [].
Proof.
  induction namen as [|b rest IH]; intros H; [reflexivity |].
  rewrite verzamel_cons, (H b) by (left; reflexivity).
  apply IH. intros b' Hb'. apply H. right. exact Hb'.
Qed.

(** X6.  A listing without a name that ends in [.xlsx] or [.xlsm], the
    empty listing included, makes [main] raise the error of line 205,
    as it is: the [try] of line 207 has not begun. *)
Theorem main_geen_excel (str_scalar : cell -> string) (schijf : Schijf)
  (G : gmap string pyval) (namen : list string) :
  os_listdir schijf pad_naar_excelmap = Ok namen ->
  (forall bestand, In bestand namen -> is_excelbestand bestand = false) ->
  main str_scalar schijf G = Raise NoDataFoundError.
Proof.
  intros Hl Hn. unfold main. rewrite Hl, bind_Ok_l.
  rewrite (verzamel_geen_excel _ _ _ Hn). reflexivity.
Qed.

Lemma main_geen_excel_witness :
  main Voorbeeld.str_scalar Meer.schijf_zonder_excel module_globals
  = Raise NoDataFoundError.
Proof.
  apply (main_geen_excel Voorbeeld.str_scalar Meer.schijf_zonder_excel
           module_globals ["notities.txt"; "maart.xlsx.bak"]).
  - reflexivity.
  - intros bestand [<- | [<- | []]]; reflexivity.
Defined.

Lemma verzamel_Raise (str_scalar : cell -> string) (schijf : Schijf)
  (namen : list string) (e : exn) :
  verzamel str_scalar schijf namen = Raise e ->
  exists bestand,
    In bestand namen /\ is_excelbestand bestand = true
    /\ verwerk_excelbestand str_scalar schijf
         (os_path_join pad_naar_excelmap bestand) bestand = Raise e.
Proof.
  induction namen as [|b rest IH]; intros H; [discriminate |].
  rewrite verzamel_cons in H. destruct (is_excelbestand b) eqn:E.
  - apply bind_Raise in H as [H | (nieuw & _ & H)].
    + exists b. split; [left; reflexivity | auto].
    + apply bind_Raise in H as [H | (tl & _ & H)]; [| discriminate].
      destruct (IH H) as (b' & Hin & Hb'). exists b'.
      split; [right; exact Hin | exact Hb'].
  - destruct (IH H) as (b' & Hin & Hb'). exists b'.
    split; [right; exact Hin | exact Hb'].
Qed.

(** X8.  Every way a run can fail.  What [main] raises is: what
    [os.listdir] raised; or, for a workbook of the listing, the error of
    line 139 with its name, or the wrapper of line 43 or of line 121
    with its name and a worksheet name; or the error of line 205; or the
    wrapper of line 217. *)
Theorem main_fout (str_scalar : cell -> string) (schijf : Schijf)
  (G : gmap string pyval) (e : exn) :
  main str_scalar schijf G = Raise e ->
  os_listdir schijf pad_naar_excelmap = Raise e
  \/ e = NoDataFoundError
  \/ (exists oorzaak, e = CombineError oorzaak)
  \/ exists namen bestand,
       os_listdir schijf pad_naar_excelmap = Ok namen
       /\ In bestand namen
       /\ is_excelbestand bestand = true
       /\ ((exists oorzaak, e = WorkbookOpenError bestand oorzaak)
           \/ exists sheet oorzaak,
                e = InvalidDateError bestand sheet oorzaak
                \/ e = SheetProcessingError bestand sheet oorzaak).
Proof.
  unfold main. intros H.
  apply bind_Raise in H as [H | (namen & Hl & H)]; [left; exact H |].
  right.
  apply bind_Raise in H as [H | (alle_data & Hv & H)].
  - right. right. apply verzamel_Raise in H as (bestand & Hin & Hx & H).
    exists namen, bestand. repeat (split; [assumption |]).
    unfold verwerk_excelbestand in H.
    apply bind_Raise in H as [H | (xls & _ & H)].
    + left. apply try_except_Raise in H as (o & _ & ->).
      exists o. reflexivity.
    + right. apply verwerk_sheets_Raise in H as (sheet & o & _ & Ho).
      exists sheet, o. exact Ho.
  - destruct alle_data as [|t rest].
    + left. congruence.
    + right. left. apply try_except_Raise in H as (o & _ & ->).
      exists o. reflexivity.
Qed.

Lemma main_fout_witness :
  let e := CombineError
             (mk_exn NameError "name 'res_binair_no_o' is not defined") in
  os_listdir Meer.schijf_twee pad_naar_excelmap = Raise e
  \/ e = NoDataFoundError
  \/ (exists oorzaak, e = CombineError oorzaak)
  \/ exists namen bestand,
       os_listdir Meer.schijf_twee pad_naar_excelmap = Ok namen
       /\ In bestand namen
       /\ is_excelbestand bestand = true
       /\ ((exists oorzaak, e = WorkbookOpenError bestand oorzaak)
           \/ exists sheet oorzaak,
                e = InvalidDateError bestand sheet oorzaak
                \/ e = SheetProcessingError bestand sheet oorzaak).
Proof.
  apply (main_fout Voorbeeld.str_scalar Meer.schijf_twee module_globals).
  reflexivity.
Defined.

(** X15.  One workbook that fails stops the run: when the workbooks
    listed before it are processed and it fails, [main] raises its
    error as it is, whatever is listed after it and whatever the
    globals hold; the [try] of line 207 has not begun and nothing is
    published. *)
Theorem main_eerste_fout (str_scalar : cell -> string) (schijf : Schijf)
  (G : gmap string pyval) (voor na : list string) (bestand : string)
  (ts : list (list LongRecord)) (e : exn) :
  os_listdir schijf pad_naar_excelmap = Ok (voor ++ bestand :: na) ->
  verzamel str_scalar schijf voor = Ok ts ->
  is_excelbestand bestand = true ->
  verwerk_excelbestand str_scalar schijf
    (os_path_join pad_naar_excelmap bestand) bestand = Raise e ->
  main str_scalar schijf G = Raise e.
Proof.
  intros Hl Hv Hx He. unfold main. rewrite Hl, bind_Ok_l.
  assert (V : verzamel str_scalar schijf (voor ++ bestand :: na) = Raise e).
  { clear Hl. revert ts Hv. induction voor as [|b voor IH]; intros ts Hv.
    - cbn [app]. rewrite verzamel_cons, Hx, He. reflexivity.
    - cbn [app]. rewrite verzamel_cons in *.
      destruct (is_excelbestand b).
      + apply bind_Ok in Hv as (nieuw & Hn & Hv).
        apply bind_Ok in Hv as (tl & Htl & _).
        rewrite Hn, bind_Ok_l, (IH _ Htl). reflexivity.
      + eapply IH. exact Hv. }
  rewrite V. reflexivity.
Qed.

Lemma main_eerste_fout_witness :
  main Voorbeeld.str_scalar Meer.schijf_kapot module_globals
  = Raise (WorkbookOpenError "kapot.xlsx"
             (mk_exn ValueError "Excel file format cannot be determined")).
Proof.
  apply (main_eerste_fout Voorbeeld.str_scalar Meer.schijf_kapot
           module_globals ["maart.XLSX"; "notities.txt"] ["juni.xlsm"]
           "kapot.xlsx" [Meer.records_maart]).
  - reflexivity.
  - reflexivity.
  - reflexivity.
  - reflexivity.
Defined.

(* ===================================================================== *)
(** ** The extension test of line 200 *)
(* ===================================================================== *)

Lemma length_append (a b : string) :
  String.length (a +:+ b) = (String.length a + String.length b)%nat.
Proof.
  induction a as [|c a IH]; [reflexivity |].
  rewrite append_cons. cbn [String.length]. rewrite IH. reflexivity.
Qed.

Lemma substring_0_all (s : string) : substring 0 (String.length s) s = s.
Proof.
  induction s as [|c s IH]; cbn; [reflexivity | rewrite IH; reflexivity].
Qed.

Lemma substring_append_r (a b : string) :
  substring (String.length a) (String.length b) (a +:+ b) = b.
Proof.
  induction a as [|c a IH]; [apply substring_0_all |].
  rewrite append_cons. cbn [String.length substring]. exact IH.
Qed.

(** A text is its first [m] characters followed by the rest. *)
Lemma substring_split (m : nat) (s : string) :
  (m <= String.length s)%nat ->
  s = substring 0 m s +:+ substring m (String.length s - m) s.
Proof.
  revert s. induction m as [|m IH]; intros s H.
  - rewrite Nat.sub_0_r, substring_0_all.
    destruct s; reflexivity.
  - destruct s as [|c s]; cbn [String.length] in H; [lia |].
    cbn [substring String.length Nat.sub]. rewrite append_cons.
    f_equal. apply IH. lia.
Qed.

(** [s.endswith(suffix)] holds exactly when [s] is some text followed by
    [suffix]. *)
Lemma endswith_iff (s suffix : string) :
  endswith s suffix = true <-> exists pre, s = pre +:+ suffix.
Proof.
  unfold endswith. rewrite andb_true_iff, Nat.leb_le, String.eqb_eq. split.
  - intros [Hle He]. exists (substring 0 (String.length s
                                           - String.length suffix) s).
    pose proof (substring_split (String.length s - String.length suffix) s)
      as H.
    replace (String.length s - (String.length s - String.length suffix))%nat
      with (String.length suffix) in H by lia.
    rewrite He in H. apply H. lia.
  - intros (pre & ->). rewrite length_append. split; [lia |].
    replace (String.length pre + String.length suffix
             - String.length suffix)%nat
      with (String.length pre) by lia.
    apply substring_append_r.
Qed.

Lemma str_map_append (f : ascii -> ascii) (a b : string) :
  str_map f (a +:+ b) = str_map f a +:+ str_map f b.
Proof.
  induction a as [|c a IH]; [reflexivity |].
  rewrite append_cons. cbn [str_map]. rewrite IH, append_cons. reflexivity.
Qed.

Lemma str_map_split (f : ascii -> ascii) (s a b : string) :
  str_map f s = a +:+ b ->
  exists s1 s2, s = s1 +:+ s2 /\ str_map f s1 = a /\ str_map f s2 = b.
Proof.
  revert s. induction a as [|c a IH]; intros s H.
  - exists "", s. auto.
  - rewrite append_cons in H. destruct s as [|c0 s]; [discriminate |].
    cbn [str_map] in H. injection H as Hc H.
    destruct (IH _ H) as (s1 & s2 & -> & H1 & H2).
    exists (String c0 s1), s2. cbn [str_map]. rewrite Hc, H1. auto.
Qed.

(** X5.  A name passes the test of line 200 exactly when it ends in a
    piece that is [.xlsx] or [.xlsm] up to the case of its letters:
    [.XLSX] and [.Xlsm] pass, a name with anything after the extension
    does not. *)
Theorem is_excelbestand_iff (bestand : string) :
  is_excelbestand bestand = true <->
  exists stam ext,
    bestand = stam +:+ ext /\ (lower ext = ".xlsx" \/ lower ext = ".xlsm").
Proof.
  unfold is_excelbestand. rewrite orb_true_iff, !endswith_iff. split.
  - intros [(pre & H) | (pre & H)];
      apply str_map_split in H as (s1 & s2 & -> & _ & H2);
      exists s1, s2; auto.
  - intros (stam & ext & -> & [H | H]); [left | right];
      exists (lower stam); unfold lower in *;
      rewrite str_map_append, H; reflexivity.
Qed.

Lemma is_excelbestand_iff_witness :
  is_excelbestand "Rapport Maart.XlsX" = true
  /\ is_excelbestand "maart.xlsx.bak" = false.
Proof.
  split.
  - apply (proj2 (is_excelbestand_iff "Rapport Maart.XlsX")).
    exists "Rapport Maart", ".XlsX". split; [reflexivity | left; reflexivity].
  - reflexivity.
Defined.

(* ===================================================================== *)
(** ** The zero filter of line 209 *)
(* ===================================================================== *)

(** X9.  [res_binair[res_binair['Waarde'] != 0]] keeps exactly the
    records whose value is not the number 0, in their order: a record
    with a missing value stays, and filtering twice changes nothing. *)
Theorem zonder_nul_eigenschappen (t : list LongRecord) :
  (forall r, In r (zonder_nul t) <-> In r t /\ Waarde r <> Getal 0)
  /\ (forall r, In r t -> Waarde r = NaN -> In r (zonder_nul t))
  /\ zonder_nul t `sublist_of` t
  /\ zonder_nul (zonder_nul t) = zonder_nul t
  /\ (forall t', zonder_nul (t ++ t') = zonder_nul t ++ zonder_nul t').
Proof.
  assert (E : forall l, zonder_nul l
                        = List.filter (fun r => ne_0 (Waarde r)) l)
    by (intros l; apply select_map).
  assert (M : forall r, In r (zonder_nul t) <-> In r t /\ Waarde r <> Getal 0).
  { intros r. rewrite E, filter_In. split; intros [Hin H]; split; auto.
    - intros Hw. rewrite Hw in H. discriminate.
    - destruct (Waarde r) as [| |z|]; try reflexivity.
      cbn. apply negb_true_iff, Z.eqb_neq. congruence. }
  split; [exact M |]. split; [| split; [| split]].
  - intros r Hin Hw. apply M. split; [exact Hin |]. rewrite Hw. discriminate.
  - rewrite E. clear M. induction t as [|r t IH]; cbn; [constructor |].
    destruct (ne_0 (Waarde r));
      [apply sublist_skip | apply sublist_cons]; exact IH.
  - rewrite !E. clear M. induction t as [|r t IH]; cbn; [reflexivity |].
    destruct (ne_0 (Waarde r)) eqn:N; cbn; rewrite ?N, IH; reflexivity.
  - intros t'. rewrite !E. apply List.filter_app.
Qed.

(* ===================================================================== *)
(** ** filter_exclusie: which organisms are excluded *)
(* ===================================================================== *)

Lemma match_here_atomen (t s : string) :
  match_here true (atomen t) s = true <->
  exists mid post, s = mid +:+ post /\ past_ci t mid.
Proof.
  revert s. induction t as [|p t IH]; intros s.
  - cbn. split; [intros _ | reflexivity].
    exists "", s. split; [reflexivity | constructor].
  - change (atomen (String p t)) with (atom_of_char p :: atomen t).
    cbn [match_here]. destruct s as [|c s].
    + split; [discriminate |].
      intros (mid & post & Hs & Hp). inversion Hp; subst; discriminate.
    + rewrite andb_true_iff, IH. unfold atom_of_char. split.
      * intros [Hc (mid & post & -> & Hp)].
        exists (String c mid), post. split; [reflexivity |].
        destruct (Ascii.eqb p ".") eqn:E.
        -- apply Ascii.eqb_eq in E. subst p. constructor; [| exact Hp].
           cbn in Hc. apply negb_true_iff, Ascii.eqb_neq in Hc. exact Hc.
        -- apply Ascii.eqb_neq in E. cbn in Hc.
           apply Ascii.eqb_eq in Hc. constructor; assumption.
      * intros (mid & post & Hs & Hp).
        inversion Hp as [| t' m' c' Hc Hp' | p' t' m' c' Hne Hc Hp'];
          subst; rewrite append_cons in Hs; injection Hs as <- ->.
        -- cbn. split; [apply negb_true_iff, Ascii.eqb_neq; exact Hc |].
           exists m', post. auto.
        -- apply Ascii.eqb_neq in Hne. rewrite Hne. cbn. split.
           ++ apply Ascii.eqb_eq. exact Hc.
           ++ exists m', post. auto.
Qed.

(** Searching for one of several terms, case ignored. *)
Lemma re_search_atomen (termen : list string) (s : string) :
  re_search true (map atomen termen) s = true <->
  exists term, In term termen /\ komt_voor term s.
Proof.
  rewrite re_search_iff. split.
  - intros (pre & rest & alt & -> & Hin & Hm).
    apply in_map_iff in Hin as (t & <- & Hin).
    apply match_here_atomen in Hm as (mid & post & -> & Hp).
    exists t. split; [exact Hin |]. exists pre, mid, post. auto.
  - intros (t & Hin & pre & mid & post & -> & Hp).
    exists pre, (mid +:+ post), (atomen t). split; [reflexivity |].
    split; [apply in_map; exact Hin |].
    apply match_here_atomen. exists mid, post. auto.
Qed.

(** The two joined patterns, compiled: one alternative per term. *)
Lemma compile_verboden_woorden :
  re_compile (join "|" verboden_woorden) = map atomen verboden_woorden.
Proof. reflexivity. Qed.

Lemma compile_verboden_taxonomie :
  re_compile (join "|" verboden_taxonomie) = map atomen verboden_taxonomie.
Proof. reflexivity. Qed.

(** The search for a comma. *)
Lemma re_search_komma (s : string) :
  re_search false (re_compile ",") s = true <-> bevat "," s.
Proof.
  change (re_compile ",") with [[Lit ","%char]].
  rewrite re_search_iff. split.
  - intros (pre & rest & alt & -> & [<- | []] & Hm).
    destruct rest as [|c rest]; [discriminate |].
    cbn [match_here atom_match] in Hm. rewrite andb_true_r in Hm.
    apply Ascii.eqb_eq in Hm. subst c. exists pre, rest. reflexivity.
  - intros (pre & post & ->).
    exists pre, ("," +:+ post), [Lit ","]. split; [reflexivity |].
    split; [left; reflexivity | reflexivity].
Qed.

(** The mask of line 187 on one record. *)
Lemma mask_exclusie_iff (r : LongRecord) :
  mask_exclusie r = true <->
  exists s,
    Organisme r = Tekst s
    /\ (bevat "," s
        \/ exists term, In term verboden_termen /\ komt_voor term s).
Proof.
  unfold mask_exclusie, mask_verboden_woorden, mask_verboden_taxonomie,
    mask_komma, str_contains.
  destruct (Organisme r) as [|s|z|y m d];
    try (split; [discriminate | intros (s & E & _); discriminate]).
  change (negb false) with true. change (negb true) with false.
  rewrite compile_verboden_woorden, compile_verboden_taxonomie.
  rewrite !orb_true_iff, !re_search_atomen, re_search_komma.
  unfold verboden_termen. split.
  - intros [[(t & Hin & H) | (t & Hin & H)] | H]; exists s;
      (split; [reflexivity |]).
    + right. exists t. split; [apply in_or_app; left; exact Hin | exact H].
    + right. exists t. split; [apply in_or_app; right; exact Hin | exact H].
    + left. exact H.
  - intros (s' & E & [H | (t & Hin & H)]); injection E as <-.
    + right. exact H.
    + left. apply in_app_or in Hin as [Hin | Hin];
        [left | right]; exists t; auto.
Qed.

(** X10.  Which rows [filter_exclusie] excludes: the rows whose organism
    is a text that holds a comma, or a piece that one of the nineteen
    terms fits when the case of the letters is ignored and a [.] in the
    term stands for any character.  All other rows are kept. *)
Theorem filter_exclusie_criterium (df : list LongRecord) (r : LongRecord) :
  In r df ->
  (In r (snd (filter_exclusie df)) <->
   exists s,
     Organisme r = Tekst s
     /\ (bevat "," s
         \/ exists term, In term verboden_termen /\ komt_voor term s))
  /\ (In r (fst (filter_exclusie df)) <->
      ~ exists s,
          Organisme r = Tekst s
          /\ (bevat "," s
              \/ exists term, In term verboden_termen /\ komt_voor term s)).
Proof.
  intros Hin. rewrite in_exclusie, in_behouden, <- mask_exclusie_iff.
  split.
  - tauto.
  - rewrite not_true_iff_false. tauto.
Qed.

Lemma filter_exclusie_criterium_witness :
  let r := met_organisme (Tekst "Gram-positieve COCCEN in trosjes") in
  let k := met_organisme (Tekst "Escherichia coli") in
  (In r (snd (filter_exclusie [r; k])) <->
   exists s,
     Organisme r = Tekst s
     /\ (bevat "," s
         \/ exists term, In term verboden_termen /\ komt_voor term s))
  /\ (In r (fst (filter_exclusie [r; k])) <->
      ~ exists s,
          Organisme r = Tekst s
          /\ (bevat "," s
              \/ exists term, In term verboden_termen /\ komt_voor term s)).
Proof.
  apply (filter_exclusie_criterium
           [met_organisme (Tekst "Gram-positieve COCCEN in trosjes");
            met_organisme (Tekst "Escherichia coli")]).
  left. reflexivity.
Defined.

(** A piece with the lower-case text of the term is a piece the term
    fits: a [.] of the term meets a [.] of the text. *)
Lemma past_ci_lower (term mid : string) :
  lower mid = lower term -> past_ci term mid.
Proof.
  revert mid. induction term as [|p t IH]; intros [|c m] H;
    try discriminate; [constructor |].
  unfold lower in H. cbn in H. injection H as Hc H.
  destruct (Ascii.eqb p ".") eqn:E.
  - apply Ascii.eqb_eq in E. subst p. constructor; [| apply IH; exact H].
    intros ->. discriminate Hc.
  - apply Ascii.eqb_neq in E. constructor; [exact E | congruence |].
    apply IH. exact H.
Qed.

(** X11.  An organism that holds one of the nineteen terms, in any mix
    of upper and lower case and anywhere in its text, is excluded; so is
    an organism that holds a comma. *)
Theorem term_of_komma_uitgesloten (df : list LongRecord) (r : LongRecord)
  (s : string) :
  In r df ->
  Organisme r = Tekst s ->
  bevat "," s \/ (exists term, In term verboden_termen /\ bevat_ci term s) ->
  In r (snd (filter_exclusie df)) /\ ~ In r (fst (filter_exclusie df)).
Proof.
  intros Hin Ho H.
  assert (M : mask_exclusie r = true).
  { apply mask_exclusie_iff. exists s. split; [exact Ho |].
    destruct H as [H | (term & Ht & pre & mid & post & -> & Hl)];
      [left; exact H | right].
    exists term. split; [exact Ht |].
    exists pre, mid, post. split; [reflexivity |].
    apply past_ci_lower. exact Hl. }
  rewrite in_exclusie, in_behouden. split; [auto |].
  intros [_ F]. congruence.
Qed.

Lemma term_of_komma_uitgesloten_witness :
  let r := met_organisme (Tekst "Mrsa pcr SNELTEST (neus)") in
  In r (snd (filter_exclusie [r])) /\ ~ In r (fst (filter_exclusie [r])).
Proof.
  apply (term_of_komma_uitgesloten
           [met_organisme (Tekst "Mrsa pcr SNELTEST (neus)")]
           (met_organisme (Tekst "Mrsa pcr SNELTEST (neus)"))
           "Mrsa pcr SNELTEST (neus)").
  - left. reflexivity.
  - reflexivity.
  - right. exists "MRSA PCR". split.
    + unfold verboden_termen. apply in_or_app. right. cbn. tauto.
    + exists "", "Mrsa pcr", " SNELTEST (neus)". split; reflexivity.
Defined.

(** X12.  The [.] of the terms [C.psittaci] and [Fluoresc. preparaat] is
    not escaped, so it stands for any character: an organism with any
    character (but a line feed) in that place is excluded as well. *)
Theorem punt_is_jokerteken (df : list LongRecord) (r : LongRecord)
  (pre post : string) (c : ascii) :
  In r df ->
  c <> newline ->
  Organisme r = Tekst (pre +:+ String "C" (String c "psittaci") +:+ post)
  \/ Organisme r
     = Tekst (pre +:+ "Fluoresc" +:+ String c " preparaat" +:+ post) ->
  In r (snd (filter_exclusie df)).
Proof.
  intros Hin Hc Ho. apply in_exclusie. split; [exact Hin |].
  apply mask_exclusie_iff. destruct Ho as [Ho | Ho].
  - eexists. split; [exact Ho |]. right. exists "C.psittaci". split.
    + unfold verboden_termen. apply in_or_app. right. cbn. tauto.
    + exists pre, (String "C" (String c "psittaci")), post.
      split; [reflexivity |].
      apply past_letter; [discriminate | reflexivity |].
      apply past_punt; [exact Hc |].
      repeat (apply past_letter; [discriminate | reflexivity |]).
      apply past_leeg.
  - eexists. split; [exact Ho |]. right. exists "Fluoresc. preparaat". split.
    + unfold verboden_termen. apply in_or_app. left. cbn. tauto.
    + exists pre, ("Fluoresc" +:+ String c " preparaat"), post.
      split; [reflexivity |].
      repeat (apply past_letter; [discriminate | reflexivity |]).
      apply past_punt; [exact Hc |].
      repeat (apply past_letter; [discriminate | reflexivity |]).
      apply past_leeg.
Qed.

Lemma punt_is_jokerteken_witness :
  let r := met_organisme (Tekst "Cupsittaci-achtig") in
  In r (snd (filter_exclusie [met_organisme (Tekst "E. coli"); r])).
Proof.
  apply (punt_is_jokerteken
           [met_organisme (Tekst "E. coli");
            met_organisme (Tekst "Cupsittaci-achtig")]
           (met_organisme (Tekst "Cupsittaci-achtig"))
           "" "-achtig" "u"%char).
  - right. left. reflexivity.
  - discriminate.
  - left. reflexivity.
Defined.

(* ===================================================================== *)
(** ** filter_exclusie: order, repetition, composition *)
(* ===================================================================== *)

Lemma filter_sublist {A} (f : A -> bool) (l : list A) :
  List.filter f l `sublist_of` l.
Proof.
  induction l as [|x l IH]; cbn; [constructor |].
  destruct (f x); [apply sublist_skip | apply sublist_cons]; exact IH.
Qed.

Lemma filter_filter_zelfde {A} (f : A -> bool) (l : list A) :
  List.filter f (List.filter f l) = List.filter f l.
Proof.
  apply filter_alles. intros x Hx. apply filter_In in Hx as [_ Hx]. exact Hx.
Qed.

Lemma filter_filter_tegen {A} (f g : A -> bool) (l : list A) :
  (forall x, f x = true -> g x = false) ->
  List.filter g (List.filter f l) = [].
Proof.
  intros H. apply filter_geen. intros x Hx.
  apply filter_In in Hx as [_ Hx]. apply H. exact Hx.
Qed.

Lemma filter_filter_comm {A} (f g : A -> bool) (l : list A) :
  List.filter f (List.filter g l) = List.filter g (List.filter f l).
Proof.
  induction l as [|x l IH]; cbn; [reflexivity |].
  destruct (f x) eqn:F, (g x) eqn:G; cbn; rewrite ?F, ?G, IH; reflexivity.
Qed.

(** X13.  Both tables of [filter_exclusie] keep the rows in the order of
    the input, and the split is stable: filtering the kept rows again
    excludes nothing, filtering the excluded rows again keeps nothing. *)
Theorem filter_exclusie_stabiel (df : list LongRecord) :
  fst (filter_exclusie df) `sublist_of` df
  /\ snd (filter_exclusie df) `sublist_of` df
  /\ filter_exclusie (fst (filter_exclusie df))
     = (fst (filter_exclusie df), [])
  /\ filter_exclusie (snd (filter_exclusie df))
     = ([], snd (filter_exclusie df)).
Proof.
  rewrite !filter_exclusie_filter. cbn [fst snd].
  split; [apply filter_sublist |]. split; [apply filter_sublist |].
  rewrite ?filter_exclusie_filter. split; f_equal.
  - apply filter_filter_zelfde.
  - apply filter_filter_tegen. intros r H.
    apply negb_true_iff in H. exact H.
  - apply filter_filter_tegen. intros r H. rewrite H. reflexivity.
  - apply filter_filter_zelfde.
Qed.

(** X14.  [filter_exclusie] works row by row.  The split of tables put
    one after the other is the splits put one after the other, and the
    zero filter of line 209 may run before or after it: the kept and the
    excluded rows of the zero-filtered table are the zero-filtered kept
    and excluded rows. *)
Theorem filter_exclusie_samenstelling (a b : list LongRecord) :
  filter_exclusie (a ++ b)
  = (fst (filter_exclusie a) ++ fst (filter_exclusie b),
     snd (filter_exclusie a) ++ snd (filter_exclusie b))
  /\ filter_exclusie (zonder_nul a)
     = (zonder_nul (fst (filter_exclusie a)),
        zonder_nul (snd (filter_exclusie a))).
Proof.
  assert (E : forall l, zonder_nul l
                        = List.filter (fun r => ne_0 (Waarde r)) l)
    by (intros l; apply select_map).
  rewrite !filter_exclusie_filter. cbn [fst snd]. split.
  - rewrite !List.filter_app. reflexivity.
  - rewrite !E. f_equal; apply filter_filter_comm.
Qed.

(* ===================================================================== *)
(** ** verwerk_sheet: which columns become departments *)
(* ===================================================================== *)

Lemma columns_setitem (df : Frame) (naam : string) (v : list cell) :
  columns (setitem df naam v) =
  if existsb (String.eqb naam) (columns df)
  then columns df else columns df ++ [naam].
Proof.
  unfold setitem. destruct (existsb _ _); unfold columns; cbn [kolommen].
  - rewrite map_map. apply map_ext. intros k.
    destruct (String.eqb (fst k) naam) eqn:E; [| reflexivity].
    apply String.eqb_eq in E. symmetry. exact E.
  - rewrite List.map_app. reflexivity.
Qed.

Lemma In_skipn_app {A} (n : nat) (a b : list A) (x : A) :
  In x (skipn n (a ++ b)) <-> In x (skipn n a) \/ In x (skipn (n - length a) b).
Proof. rewrite skipn_app. apply in_app_iff. Qed.

Lemma In_skipn {A} (n : nat) (l : list A) (x : A) :
  In x (skipn n l) -> In x l.
Proof.
  intros H. rewrite <- (firstn_skipn n l). apply in_app_iff. right. exact H.
Qed.

(** The labels from the third on after [df[naam] = v]: those of before,
    and possibly [naam]. *)
Lemma skipn_columns_setitem (df : Frame) (naam : string) (v : list cell)
  (l : string) :
  l <> naam ->
  In l (skipn 2 (columns (setitem df naam v))) <->
  In l (skipn 2 (columns df)).
Proof.
  intros Hne. rewrite columns_setitem.
  destruct (existsb _ _); [reflexivity |].
  rewrite In_skipn_app. split; [| auto].
  intros [H | H]; [exact H |].
  apply In_skipn in H. destruct H as [H | []]. congruence.
Qed.

(** The department labels of line 92, whichever branch is taken. *)
Lemma afdelingskolommen_labels (cols : list string) (laatste l : string) :
  last cols = Some laatste ->
  l <> "Organisme" ->
  In l (if String.eqb laatste "Organisme"
        then slice 2 (length cols - 1) cols else skipn 2 cols) <->
  In l (skipn 2 cols).
Proof.
  intros Hl Hne. destruct (String.eqb laatste "Organisme") eqn:E;
    [| reflexivity].
  apply String.eqb_eq in E. subst laatste.
  apply last_Some in Hl as (voor & ->).
  rewrite length_app. cbn [length].
  replace (length voor + 1 - 1)%nat with (length voor) by lia.
  unfold slice. rewrite skipn_app, firstn_app, length_skipn.
  replace (length voor - 2 - (length voor - 2))%nat with 0%nat by lia.
  rewrite firstn_O, app_nil_r, firstn_all2 by (rewrite length_skipn; lia).
  rewrite in_app_iff. split; [auto |].
  intros [H | H]; [exact H |].
  apply In_skipn in H. destruct H as [H | []]. congruence.
Qed.

Lemma getitem_kolommen_Ok (cols : list (string * list cell))
  (labels : list string) :
  (forall l, In l labels -> In l (map fst cols)) ->
  exists out, getitem_kolommen cols labels = Ok out.
Proof.
  induction labels as [|l rest IH]; intros H; [exists []; reflexivity |].
  destruct IH as (tl & Htl); [intros l' Hl'; apply H; right; exact Hl' |].
  cbn [getitem_kolommen].
  destruct (List.filter (fun k => String.eqb (fst k) l) cols)
    as [|k hits] eqn:E.
  - exfalso. assert (Hl : In l (map fst cols)) by (apply H; left; reflexivity).
    apply in_map_iff in Hl as (k & Hk & Hin).
    assert (F : In k (List.filter (fun k => String.eqb (fst k) l) cols)).
    { apply filter_In. split; [exact Hin |]. apply String.eqb_eq. exact Hk. }
    rewrite E in F. destruct F.
  - rewrite Htl. eexists. reflexivity.
Qed.

(** [df[labels]] has the labels asked for, no others. *)
Lemma getitem_kolommen_labels (cols : list (string * list cell))
  (labels : list string) (out : list (string * list cell)) (l : string) :
  getitem_kolommen cols labels = Ok out ->
  In l (map fst out) <-> In l labels.
Proof.
  revert out. induction labels as [|l0 rest IH]; intros out H.
  - cbn in H. injection H as <-. reflexivity.
  - cbn [getitem_kolommen] in H.
    destruct (List.filter (fun k => String.eqb (fst k) l0) cols)
      as [|k hits] eqn:E; [discriminate |].
    apply bind_Ok in H as (tl & Htl & H). injection H as <-.
    change (k :: hits ++ tl) with ((k :: hits) ++ tl).
    rewrite List.map_app, in_app_iff, (IH _ Htl). cbn [In].
    assert (F : forall k', In k' (k :: hits) -> fst k' = l0).
    { intros k' Hk'. rewrite <- E in Hk'. apply filter_In in Hk' as [_ Hk'].
      apply String.eqb_eq. exact Hk'. }
    split.
    + intros [Hl | Hl]; [left | right; exact Hl].
      apply in_map_iff in Hl as (k' & <- & Hk'). symmetry. apply F, Hk'.
    + intros [<- | Hl]; [left | right; exact Hl].
      apply in_map_iff. exists k. split; [apply F |]; left; reflexivity.
Qed.

Section Afdelingen.

Variable str_scalar : cell -> string.

(** Lines 80-95 taken apart: the two cleaned columns, the last label of
    line 92, the selection of line 93 and the frame of line 95. *)
Lemma bereid_voor_ontleed (xls : ExcelFile) (sheet : string) (df : Frame) :
  bereid_voor str_scalar xls sheet = Ok df ->
  exists df0 k0 k1 laatste tl,
    let v0 := map (schoon str_scalar) k0 in
    let df1 := setitem (gesnoeid df0) "Organisme" v0 in
    let v1 := map (schoon str_scalar) k1 in
    let df2 := setitem df1 "Resistentie" v1 in
    read_excel_skiprows_2 xls sheet = Ok df0
    /\ iloc_kolom (gesnoeid df0) 0 = Ok k0
    /\ iloc_kolom df1 1 = Ok k1
    /\ last (columns df2) = Some laatste
    /\ getitem_kolommen (kolommen df2)
         (if String.eqb laatste "Organisme"
          then slice 2 (length (columns df2) - 1) (columns df2)
          else skipn 2 (columns df2)) = Ok tl
    /\ df = mk_frame (nrows (gesnoeid df0))
              (("Organisme", v0) :: ("Resistentie", v1)
               :: eerste_per_label ["Resistentie"; "Organisme"] tl).
Proof.
  intros H. unfold bereid_voor in H.
  apply bind_Ok in H as (df0 & Hread & H). cbv zeta in H.
  fold (gesnoeid df0) in H.
  apply bind_Ok in H as (k0 & Hk0 & H).
  apply bind_Ok in H as (k1 & Hk1 & H).
  exists df0, k0, k1.
  set (v0 := map (schoon str_scalar) k0) in *.
  set (v1 := map (schoon str_scalar) k1) in *.
  set (df1 := setitem (gesnoeid df0) "Organisme" v0) in *.
  set (df2 := setitem df1 "Resistentie" v1) in *.
  apply bind_Ok in H as (laatste & Hl & H).
  apply bind_Ok in H as (df3 & H3 & H). injection H as <-.
  unfold getitem in H3.
  apply bind_Ok in H3 as (cols & Hcols & H3). injection H3 as <-.
  change (["Organisme"; "Resistentie"] ++ ?a)
    with ("Organisme" :: "Resistentie" :: a) in Hcols.
  apply getitem_kolommen_cons in Hcols as (tlO & Hcols & ->).
  apply getitem_kolommen_cons in Hcols as (tl & Htl & ->).
  exists laatste, tl. cbv zeta.
  split; [exact Hread |]. split; [exact Hk0 |]. split; [exact Hk1 |].
  split.
  { unfold index_min_1 in Hl. change (last (columns df2) = Some laatste).
    destruct (last (columns df2)); [| discriminate].
    injection Hl as ->. reflexivity. }
  split; [exact Htl |].
  assert (HO : forall k, In k (kolommen df2) -> fst k = "Organisme" ->
                         k = ("Organisme", v0)).
  { intros k Hin Hk. apply setitem_In in Hin as [-> | [_ Hin]].
    - cbn in Hk. discriminate.
    - apply setitem_In in Hin as [-> | [Hne _]]; [reflexivity | tauto]. }
  assert (HR : forall k, In k (kolommen df2) -> fst k = "Resistentie" ->
                         k = ("Resistentie", v1)).
  { intros k Hin Hk. apply setitem_In in Hin as [-> | [Hne _]];
      [reflexivity | tauto]. }
  assert (InO : In ("Organisme", v0) (kolommen df2)).
  { apply setitem_behoudt; [apply setitem_heeft | cbn; discriminate]. }
  assert (InR : In ("Resistentie", v1) (kolommen df2))
    by apply setitem_heeft.
  destruct (filter_label _ _ _ InO HO) as (hsO & -> & FO).
  destruct (filter_label _ _ _ InR HR) as (hsR & -> & FR).
  unfold drop_duplicated. cbn [nrows kolommen]. f_equal.
  - unfold df2, df1. rewrite !nrows_setitem. reflexivity.
  - cbn [app].
    rewrite (eerste_per_label_hits [] _ _ _ _ (fun H => H) FO).
    f_equal.
    rewrite (eerste_per_label_hits ["Organisme"] _ _ _ tl).
    + reflexivity.
    + intros [H | []]. discriminate.
    + exact FR.
Qed.

(** The departments of the frame that is melted are the labels of the
    pruned data region from its third column on, [Organisme] and
    [Resistentie] left out. *)
Lemma afdelingen_bereid_voor (xls : ExcelFile) (sheet : string)
  (df0 df : Frame) (l : string) :
  read_excel_skiprows_2 xls sheet = Ok df0 ->
  bereid_voor str_scalar xls sheet = Ok df ->
  In l (afdelingen df) <->
  In l (skipn 2 (columns (gesnoeid df0)))
  /\ l <> "Organisme" /\ l <> "Resistentie".
Proof.
  intros Hr H.
  apply bereid_voor_ontleed in H
    as (d0 & k0 & k1 & laatste & tl & Hr' & _ & _ & Hl & Htl & ->).
  rewrite Hr in Hr'. injection Hr' as <-.
  change (afdelingen _)
    with (map fst (eerste_per_label ["Resistentie"; "Organisme"] tl)).
  rewrite eerste_per_label_labels, (getitem_kolommen_labels _ _ _ l Htl).
  cbn [In].
  destruct (string_dec l "Organisme") as [-> | HO]; [tauto |].
  destruct (string_dec l "Resistentie") as [-> | HR]; [tauto |].
  rewrite (afdelingskolommen_labels _ _ _ Hl HO).
  rewrite (skipn_columns_setitem _ _ _ _ HR).
  rewrite (skipn_columns_setitem _ _ _ _ HO).
  split; [intros [H _]; auto |].
  intros [H _]. split; [exact H |]. intros [E | [E | []]]; congruence.
Qed.

Lemma iloc_kolom_Ok (df : Frame) (i : nat) :
  (i < length (columns df))%nat -> exists k, iloc_kolom df i = Ok k.
Proof.
  unfold iloc_kolom, columns. rewrite List.length_map. intros H.
  destruct (nth_error (kolommen df) i) as [k|] eqn:E.
  - exists (snd k). reflexivity.
  - apply nth_error_None in E. lia.
Qed.

Lemma length_columns_setitem (df : Frame) (naam : string) (v : list cell) :
  (length (columns df) <= length (columns (setitem df naam v)))%nat.
Proof.
  rewrite columns_setitem. destruct (existsb _ _); [lia |].
  rewrite length_app. lia.
Qed.

Lemma In_firstn {A} (n : nat) (l : list A) (x : A) :
  In x (firstn n l) -> In x l.
Proof.
  intros H. rewrite <- (firstn_skipn n l). apply in_app_iff. left. exact H.
Qed.

(** Lines 92-95 cannot fail: once the two columns of lines 88 and 90
    are there, the frame is prepared. *)
Lemma bereid_voor_slaagt (xls : ExcelFile) (sheet : string) (df0 : Frame)
  (k0 k1 : list cell) :
  read_excel_skiprows_2 xls sheet = Ok df0 ->
  iloc_kolom (gesnoeid df0) 0 = Ok k0 ->
  iloc_kolom (setitem (gesnoeid df0) "Organisme"
                (map (schoon str_scalar) k0)) 1 = Ok k1 ->
  exists df, bereid_voor str_scalar xls sheet = Ok df.
Proof.
  intros Hr Hk0 Hk1. unfold bereid_voor.
  rewrite Hr, bind_Ok_l. cbv zeta. fold (gesnoeid df0).
  rewrite Hk0, bind_Ok_l, Hk1, bind_Ok_l.
  set (v0 := map (schoon str_scalar) k0).
  set (v1 := map (schoon str_scalar) k1).
  set (df1 := setitem (gesnoeid df0) "Organisme" v0).
  set (df2 := setitem df1 "Resistentie" v1).
  assert (InO : In ("Organisme", v0) (kolommen df2)).
  { apply setitem_behoudt; [apply setitem_heeft | cbn; discriminate]. }
  assert (InR : In ("Resistentie", v1) (kolommen df2))
    by apply setitem_heeft.
  unfold index_min_1.
  destruct (last (columns df2)) as [laatste|] eqn:El.
  2:{ exfalso. apply last_None in El. unfold columns in El.
      destruct (kolommen df2); [destruct InR | discriminate]. }
  rewrite bind_Ok_l. unfold getitem.
  destruct (getitem_kolommen_Ok (kolommen df2)
              (["Organisme"; "Resistentie"]
               ++ (if String.eqb laatste "Organisme"
                   then slice 2 (length (columns df2) - 1) (columns df2)
                   else skipn 2 (columns df2)))) as (out & Hout).
  { intros l Hl. apply in_app_iff in Hl as [[<- | [<- | []]] | Hl].
    - apply (in_map fst) in InO. exact InO.
    - apply (in_map fst) in InR. exact InR.
    - destruct (String.eqb laatste "Organisme").
      + apply In_firstn, In_skipn in Hl. exact Hl.
      + apply In_skipn in Hl. exact Hl. }
  rewrite Hout, bind_Ok_l, bind_Ok_l. eexists. reflexivity.
Qed.

End Afdelingen.

(** X16.  The departments of a worksheet's records are the headers of
    the pruned data region from its third column on, except [Organisme]
    and [Resistentie]: the headers of the organism and the resistance
    column are no department (unless a later column repeats them), every
    other header is. *)
Theorem afdelingen_van_tabel (str_scalar : cell -> string)
  (xls : ExcelFile) (sheet bestand : string) (jaar maand : cell)
  (df0 : Frame) (t : list LongRecord) (l : string) :
  read_excel_skiprows_2 xls sheet = Ok df0 ->
  rechthoekig df0 ->
  verwerk_sheet str_scalar xls sheet bestand jaar maand = Ok t ->
  (exists r, In r t /\ Afdeling r = l) <->
  In l (skipn 2 (columns (gesnoeid df0)))
  /\ l <> "Organisme" /\ l <> "Resistentie".
Proof.
  intros Hr H0 H.
  apply verwerk_sheet_Ok in H as (df & rows & Hdf & Hm & _ & ->).
  rewrite <- (afdelingen_bereid_voor str_scalar xls sheet df0 df l Hr Hdf).
  pose proof (nrows_bereid_voor_pos _ _ _ _ _ Hr H0 Hdf) as Hn.
  apply bereid_voor_vorm in Hdf
    as (d0 & k0 & k1 & rest & _ & _ & _ & -> & _ & HO & HR & _).
  assert (HW : ~ In "Waarde" (map fst rest))
    by (intros HW; exact (melt_waarde_fout _ _ _ _ _ HW Hm)).
  rewrite (melt_vorm _ _ _ _ HO HR HW) in Hm. injection Hm as <-.
  change (afdelingen _) with (map fst rest). cbn [nrows] in Hn. split.
  - intros (r & Hin & <-). apply in_map_iff in Hin as (m & <- & Hin).
    apply in_flat_map in Hin as (k & Hk & Hin).
    apply in_map_iff in Hin as (i & <- & _). cbn. apply in_map. exact Hk.
  - intros Hl. apply in_map_iff in Hl as (k & <- & Hk).
    eexists. split.
    + apply in_map. apply in_flat_map. exists k. split; [exact Hk |].
      apply in_map_iff. exists 0%nat. split; [reflexivity |].
      apply in_seq. split; [lia | exact Hn].
    + reflexivity.
Qed.

Lemma afdelingen_van_tabel_witness :
  (exists r, In r Meer.records_maart /\ Afdeling r = "Afd B") <->
  In "Afd B" (skipn 2 (columns (gesnoeid Voorbeeld.tabel)))
  /\ "Afd B" <> "Organisme" /\ "Afd B" <> "Resistentie".
Proof.
  apply (afdelingen_van_tabel Voorbeeld.str_scalar Voorbeeld.xls "maart"
           "maart.XLSX" (Getal 2024) (Getal 3) Voorbeeld.tabel
           Meer.records_maart "Afd B").
  - reflexivity.
  - repeat constructor.
  - reflexivity.
Defined.

(** The cleaned labels are texts or missing. *)
Lemma schoon_tekst_of_NaN (str_scalar : cell -> string) (c : cell) :
  schoon str_scalar c = NaN \/ exists s, schoon str_scalar c = Tekst s.
Proof.
  unfold schoon. destruct (String.eqb _ ""); [left | right; eexists];
    reflexivity.
Qed.

(** X17.  When a worksheet can be processed.  For a table that was
    read, [verwerk_sheet] returns exactly when the pruned data region
    has, from its third column on, a header other than [Organisme] and
    [Resistentie] and no header [Waarde], and the column that line 90
    reads holds a cell that is cleaned to a text; in every other case it
    raises.  (Without such a cell line 90 leaves a [float64] column and
    line 109 raises.) *)
Theorem verwerk_sheet_slaagt_iff (str_scalar : cell -> string)
  (xls : ExcelFile) (sheet bestand : string) (jaar maand : cell)
  (df0 : Frame) :
  read_excel_skiprows_2 xls sheet = Ok df0 ->
  rechthoekig df0 ->
  (exists t, verwerk_sheet str_scalar xls sheet bestand jaar maand = Ok t)
  <->
  (exists l, In l (skipn 2 (columns (gesnoeid df0)))
             /\ l <> "Organisme" /\ l <> "Resistentie")
  /\ ~ In "Waarde" (skipn 2 (columns (gesnoeid df0)))
  /\ exists k0 k1 c s,
       iloc_kolom (gesnoeid df0) 0 = Ok k0
       /\ iloc_kolom (setitem (gesnoeid df0) "Organisme"
                        (map (schoon str_scalar) k0)) 1 = Ok k1
       /\ In c k1
       /\ schoon str_scalar c = Tekst s.
Proof.
  intros Hr H0. split.
  - intros (t & H).
    apply verwerk_sheet_Ok_iff in H
      as (df & rows & Hdf & Hm & Hne & Hacc & _).
    pose proof (afdelingen_bereid_voor str_scalar xls sheet df0 df) as HA.
    pose proof (rechthoekig_bereid_voor _ _ _ _ _ Hr H0 Hdf) as Hrh.
    apply bereid_voor_vorm in Hdf as Hv.
    destruct Hv
      as (d0 & k0 & k1 & rest & Hr' & Hk0 & Hk1 & -> & _ & HO & HR & _).
    rewrite Hr in Hr'. injection Hr' as <-.
    remember (nrows (gesnoeid df0)) as n eqn:En.
    assert (HW : ~ In "Waarde" (map fst rest))
      by (intros HW; exact (melt_waarde_fout _ _ _ _ _ HW Hm)).
    rewrite (melt_vorm _ _ _ _ HO HR HW) in Hm. injection Hm as <-.
    change (afdelingen _) with (map fst rest) in HA. split; [| split].
    + destruct rest as [|k rest]; [exfalso; apply Hne; reflexivity |].
      exists (fst k). apply (HA _ Hr Hdf). left. reflexivity.
    + intros HW'. apply HW. apply (HA _ Hr Hdf).
      split; [exact HW' |]. split; discriminate.
    + assert (L1 : length k1 = n).
      { unfold rechthoekig in Hrh.
        inversion Hrh as [|? ? _ Hrh']. inversion Hrh' as [|? ? L1 _].
        cbn [snd nrows] in L1. rewrite List.length_map in L1. exact L1. }
      set (rows := flat_map _ rest) in *.
      destruct (existsb is_tekst (map m_Resistentie rows)) eqn:E.
      * apply existsb_is_tekst in E as (r & s & Hin & Hs).
        unfold rows in Hin. apply in_flat_map in Hin as (k & _ & Hin).
        apply in_map_iff in Hin as (i & <- & Hi). apply in_seq in Hi.
        cbn [m_Resistentie] in Hs. rewrite cel_map_schoon in Hs.
        exists k0, k1, (cel i k1), s. repeat (split; [assumption |]).
        split; [| exact Hs]. unfold cel. apply nth_In. lia.
      * exfalso.
        rewrite str_accessor_zonder_waarde in Hacc; [discriminate | |].
        -- destruct rows; [congruence | discriminate].
        -- apply forallb_forall. intros c Hc.
           apply in_map_iff in Hc as (r & <- & Hin).
           assert (Hr' : existsb is_tekst (map m_Resistentie rows) = false)
             by exact E.
           unfold rows in Hin. apply in_flat_map in Hin as (k & _ & Hin).
           apply in_map_iff in Hin as (i & <- & _). cbn [m_Resistentie].
           rewrite cel_map_schoon.
           destruct (schoon_tekst_of_NaN str_scalar (cel i k1))
             as [-> | (s & Hs)]; [reflexivity |]. exfalso.
           assert (F : existsb is_tekst (map m_Resistentie rows) = true).
           { apply existsb_exists. exists (Tekst s). split; [| reflexivity].
             rewrite <- Hs, <- cel_map_schoon.
             unfold rows. apply in_map_iff.
             destruct rest as [|k' rest'];
               [exfalso; apply Hne; reflexivity |].
             eexists. split; [| apply in_flat_map; exists k';
               split; [left; reflexivity |]; apply in_map_iff; exists i;
               split; [reflexivity |]].
             - reflexivity.
             - apply in_seq. split; [lia |]. cbn [Nat.add].
               destruct (le_lt_dec n i) as [Hi | Hi];
                 [| exact Hi]. exfalso.
               unfold cel in Hs. rewrite nth_overflow in Hs by lia.
               discriminate Hs. }
           congruence.
  - intros ((l & Hl & HlO & HlR) & HW & (k0 & k1 & c & s & Hk0 & Hk1 & Hc & Hs)).
    destruct (bereid_voor_slaagt str_scalar _ _ _ _ _ Hr Hk0 Hk1)
      as (df & Hdf).
    pose proof (afdelingen_bereid_voor str_scalar xls sheet df0 df) as HA.
    pose proof (nrows_bereid_voor_pos _ _ _ _ _ Hr H0 Hdf) as Hn.
    pose proof (rechthoekig_bereid_voor _ _ _ _ _ Hr H0 Hdf) as Hrh.
    apply bereid_voor_vorm in Hdf as Hv.
    destruct Hv
      as (d0 & k0' & k1' & rest & Hr' & Hk0' & Hk1' & -> & _ & HO & HR & _).
    rewrite Hr in Hr'. injection Hr' as <-.
    rewrite Hk0 in Hk0'. injection Hk0' as <-.
    rewrite Hk1 in Hk1'. injection Hk1' as <-.
    remember (nrows (gesnoeid df0)) as n eqn:En.
    change (afdelingen _) with (map fst rest) in HA. cbn [nrows] in Hn.
    assert (L1 : length k1 = n).
    { unfold rechthoekig in Hrh.
        inversion Hrh as [|? ? _ Hrh']. inversion Hrh' as [|? ? L1 _].
        cbn [snd nrows] in L1. rewrite List.length_map in L1. exact L1. }
    assert (HW' : ~ In "Waarde" (map fst rest)).
    { intros F. apply (HA _ Hr Hdf) in F. tauto. }
    assert (Hin : In l (map fst rest)) by (apply (HA _ Hr Hdf); tauto).
    apply in_map_iff in Hin as (k & _ & Hk).
    apply (In_nth _ _ NaN) in Hc as (i & Hi & Hci).
    eexists. apply verwerk_sheet_Ok_iff. eexists. eexists.
    split; [exact Hdf |]. split; [apply (melt_vorm _ _ _ _ HO HR HW') |].
    assert (Hrow : In (mk_melt (cel i (map (schoon str_scalar) k0))
                         (cel i (map (schoon str_scalar) k1))
                         (fst k) (cel i (snd k)))
                     (flat_map
                        (fun k => map (fun i =>
                           mk_melt (cel i (map (schoon str_scalar) k0))
                                   (cel i (map (schoon str_scalar) k1))
                                   (fst k) (cel i (snd k)))
                           (seq 0 n)) rest)).
    { apply in_flat_map. exists k. split; [exact Hk |].
      apply in_map_iff. exists i. split; [reflexivity |].
      apply in_seq. lia. }
    split; [intros E; rewrite E in Hrow; destruct Hrow |].
    split; [| reflexivity].
    apply str_accessor_met_tekst, existsb_is_tekst.
    eexists. exists s. split; [exact Hrow |].
    cbn [m_Resistentie]. rewrite cel_map_schoon. unfold cel.
    rewrite Hci. exact Hs.
Qed.

Lemma verwerk_sheet_slaagt_iff_witness :
  (exists t, verwerk_sheet Voorbeeld.str_scalar Voorbeeld.xls "maart"
               "maart.XLSX" (Getal 2024) (Getal 3) = Ok t)
  <->
  (exists l, In l (skipn 2 (columns (gesnoeid Voorbeeld.tabel)))
             /\ l <> "Organisme" /\ l <> "Resistentie")
  /\ ~ In "Waarde" (skipn 2 (columns (gesnoeid Voorbeeld.tabel)))
  /\ exists k0 k1 c s,
       iloc_kolom (gesnoeid Voorbeeld.tabel) 0 = Ok k0
       /\ iloc_kolom (setitem (gesnoeid Voorbeeld.tabel) "Organisme"
                        (map (schoon Voorbeeld.str_scalar) k0)) 1 = Ok k1
       /\ In c k1
       /\ schoon Voorbeeld.str_scalar c = Tekst s.
Proof.
  apply (verwerk_sheet_slaagt_iff Voorbeeld.str_scalar Voorbeeld.xls "maart"
           "maart.XLSX" (Getal 2024) (Getal 3) Voorbeeld.tabel).
  - reflexivity.
  - repeat constructor.
Defined.

(* ===================================================================== *)
(** ** verwerk_sheet: the order and the fields of the records *)
(* ===================================================================== *)

(** Blocks of [n] elements, one block per element of [l]: the element
    [i] of block [j]. *)
Lemma nth_error_flat_map_blok {A B} (f : A -> nat -> B) (n : nat)
  (l : list A) (j i : nat) (k : A) :
  nth_error l j = Some k -> (i < n)%nat ->
  nth_error (flat_map (fun k => map (f k) (seq 0 n)) l) (j * n + i)
  = Some (f k i).
Proof.
  revert j. induction l as [|x l IH]; intros [|j] Hj Hi; try discriminate.
  - cbn in Hj. injection Hj as ->. cbn [flat_map Nat.mul Nat.add].
    rewrite nth_error_app1 by (rewrite List.length_map, length_seq; exact Hi).
    rewrite nth_error_map, nth_error_seq.
    apply Nat.ltb_lt in Hi. rewrite Hi. reflexivity.
  - cbn in Hj. cbn [flat_map].
    rewrite nth_error_app2
      by (rewrite List.length_map, length_seq; cbn; lia).
    rewrite List.length_map, length_seq.
    replace (S j * n + i - n)%nat with (j * n + i)%nat by (cbn; lia).
    apply IH; assumption.
Qed.

(** X18.  The records of a worksheet come department by department, in
    the order of the department columns of the frame that is melted,
    and inside a department row by row: with R rows, record j*R + i
    holds cell i of department j together with the organism and the
    resistance label of the same row i. *)
Theorem records_op_volgorde (str_scalar : cell -> string)
  (xls : ExcelFile) (sheet bestand : string) (jaar maand : cell)
  (t : list LongRecord) :
  verwerk_sheet str_scalar xls sheet bestand jaar maand = Ok t ->
  exists df org res,
    bereid_voor str_scalar xls sheet = Ok df
    /\ kolom df "Organisme" = Ok org
    /\ kolom df "Resistentie" = Ok res
    /\ forall j i k,
         nth_error (skipn 2 (kolommen df)) j = Some k ->
         (i < nrows df)%nat ->
         nth_error t (j * nrows df + i)
         = Some (voeg_kolommen_toe jaar maand
                   (mk_melt (cel i org) (cel i res) (fst k)
                            (cel i (snd k)))).
Proof.
  intros H. apply verwerk_sheet_Ok in H as (df & rows & Hdf & Hm & _ & ->).
  apply bereid_voor_vorm in Hdf as Hv.
  destruct Hv as (d0 & k0 & k1 & rest & _ & _ & _ & Edf & _ & HO & HR & _).
  remember (nrows (gesnoeid d0)) as n eqn:En. clear En. subst df.
  assert (HW : ~ In "Waarde" (map fst rest))
    by (intros HW; exact (melt_waarde_fout _ _ _ _ _ HW Hm)).
  rewrite (melt_vorm _ _ _ _ HO HR HW) in Hm. injection Hm as <-.
  eexists. eexists. eexists. split; [exact Hdf |].
  split; [reflexivity |]. split; [reflexivity |].
  cbn [nrows kolommen]. intros j i k Hj Hi.
  change (nth_error rest j = Some k) in Hj.
  rewrite nth_error_map.
  rewrite (nth_error_flat_map_blok
             (fun k i => mk_melt
                           (cel i (map (schoon str_scalar) k0))
                           (cel i (map (schoon str_scalar) k1))
                           (fst k) (cel i (snd k)))
             n _ _ _ _ Hj Hi).
  reflexivity.
Qed.

Lemma records_op_volgorde_witness :
  exists df org res,
    bereid_voor Voorbeeld.str_scalar Voorbeeld.xls "maart" = Ok df
    /\ kolom df "Organisme" = Ok org
    /\ kolom df "Resistentie" = Ok res
    /\ forall j i k,
         nth_error (skipn 2 (kolommen df)) j = Some k ->
         (i < nrows df)%nat ->
         nth_error Meer.records_maart (j * nrows df + i)
         = Some (voeg_kolommen_toe (Getal 2024) (Getal 3)
                   (mk_melt (cel i org) (cel i res) (fst k)
                            (cel i (snd k)))).
Proof.
  apply (records_op_volgorde Voorbeeld.str_scalar Voorbeeld.xls "maart"
           "maart.XLSX" (Getal 2024) (Getal 3) Meer.records_maart).
  reflexivity.
Defined.

Lemma rstrip_rstrip (s : string) : rstrip (rstrip s) = rstrip s.
Proof.
  induction s as [|c s IH]; [reflexivity |].
  cbn [rstrip]. destruct (rstrip s) as [|d r] eqn:E.
  - destruct (isspace c) eqn:Ec; [reflexivity |].
    cbn [rstrip]. rewrite Ec. reflexivity.
  - cbn [rstrip]. cbn [rstrip] in IH. rewrite IH. reflexivity.
Qed.

(** A text that starts without white space keeps its first character
    when it is trimmed on the right. *)
Lemma lstrip_rstrip (s : string) :
  lstrip (rstrip (lstrip s)) = rstrip (lstrip s).
Proof.
  induction s as [|c s IH]; [reflexivity |].
  cbn [lstrip]. destruct (isspace c) eqn:Ec; [exact IH |].
  cbn [rstrip]. destruct (rstrip s) as [|d r];
    rewrite ?Ec; cbn [lstrip]; rewrite Ec; reflexivity.
Qed.

Lemma strip_strip (s : string) : strip (strip s) = strip s.
Proof. unfold strip. rewrite lstrip_rstrip. apply rstrip_rstrip. Qed.

(** X19.  The fields [Organisme] and [Resistentie] of every record a
    worksheet yields are missing or a text that is not empty and has no
    white space at either end; a number or a date in these columns has
    become its text. *)
Theorem velden_geschoond (str_scalar : cell -> string)
  (xls : ExcelFile) (sheet bestand : string) (jaar maand : cell)
  (t : list LongRecord) (r : LongRecord) :
  verwerk_sheet str_scalar xls sheet bestand jaar maand = Ok t ->
  In r t ->
  (Organisme r = NaN
   \/ exists s, Organisme r = Tekst s /\ s <> "" /\ strip s = s)
  /\ (Resistentie r = NaN
      \/ exists s, Resistentie r = Tekst s /\ s <> "" /\ strip s = s).
Proof.
  intros H Hin.
  assert (S : forall c, schoon str_scalar c = NaN
                        \/ exists s, schoon str_scalar c = Tekst s
                                     /\ s <> "" /\ strip s = s).
  { intros c. unfold schoon.
    destruct (String.eqb (strip _) "") eqn:E; [left; reflexivity |].
    right. eexists. split; [reflexivity |].
    split; [apply String.eqb_neq; exact E | apply strip_strip]. }
  apply verwerk_sheet_vorm in H
    as (df0 & k0 & k1 & rest & _ & _ & _ & _ & _ & _ & _ & _ & ->).
  apply in_records_van in Hin as (k & i & _ & _ & ->).
  split; apply S.
Qed.

Lemma velden_geschoond_witness :
  let r := mk_long (Tekst "E. coli") (Tekst "ESBL positief") "Afd A"
             (Getal 3) 1 1 0 0 0 (Getal 2024) (Getal 3) in
  (Organisme r = NaN
   \/ exists s, Organisme r = Tekst s /\ s <> "" /\ strip s = s)
  /\ (Resistentie r = NaN
      \/ exists s, Resistentie r = Tekst s /\ s <> "" /\ strip s = s).
Proof.
  apply (velden_geschoond Voorbeeld.str_scalar Voorbeeld.xls "maart"
           "maart.XLSX" (Getal 2024) (Getal 3) Meer.records_maart).
  - reflexivity.
  - left. reflexivity.
Defined.

(* ===================================================================== *)
(** ** lees_datum_uit_cel: what is returned *)
(* ===================================================================== *)




(* ===================================================================== *)
(** ** main: lines 212-215 when the name of line 212 is bound *)
(* ===================================================================== *)




(* ===================================================================== *)
(** ** verwerk_sheet: headers that occur twice *)
(* ===================================================================== *)

(** Columns with one label at the head of a frame: the first of them is
    kept when the label is new, none when it was met before. *)
Lemma eerste_per_label_app_zelfde (g : list string) (l : string)
  (hits Y : list (string * list cell)) :
  (forall k, In k hits -> fst k = l) ->
  eerste_per_label g (hits ++ Y) =
  match hits with
  | k :: _ =>
      if existsb (String.eqb l) g then eerste_per_label g Y
      else k :: eerste_per_label (l :: g) Y
  | [] => eerste_per_label g Y
  end.
Proof.
  intros H.
  assert (S : forall g', In l g' ->
                eerste_per_label g' (hits ++ Y) = eerste_per_label g' Y).
  { intros g' Hg'. clear - H Hg'.
    induction hits as [|k hits IH]; [reflexivity |].
    cbn [app eerste_per_label]. rewrite (H k) by (left; reflexivity).
    apply existsb_eqb_In in Hg'. rewrite Hg'.
    apply IH. intros k' Hk'. apply H. right. exact Hk'. }
  destruct hits as [|k hits]; [reflexivity |].
  destruct (existsb (String.eqb l) g) eqn:E.
  - apply S. apply existsb_eqb_In. exact E.
  - cbn [app eerste_per_label]. rewrite (H k) by (left; reflexivity).
    rewrite E. f_equal.
    assert (S' : forall hs, (forall k', In k' hs -> fst k' = l) ->
                   eerste_per_label (l :: g) (hs ++ Y)
                   = eerste_per_label (l :: g) Y).
    { clear. induction hs as [|k hs IH]; intros H; [reflexivity |].
      cbn [app eerste_per_label existsb].
      rewrite (H k) by (left; reflexivity).
      rewrite String.eqb_refl. cbn [orb].
      apply IH. intros k' Hk'. apply H. right. exact Hk'. }
    apply S'. intros k' Hk'. apply H. right. exact Hk'.
Qed.

Lemma find_filter_kop {A} (p : A -> bool) (l : list A) (x : A)
  (rest : list A) :
  List.filter p l = x :: rest -> List.find p l = Some x.
Proof.
  induction l as [|y l IH]; [discriminate |].
  cbn. destruct (p y); [| exact IH].
  intros H. injection H as -> _. reflexivity.
Qed.

(** Of the columns [df[labels]] selects, the de-duplication keeps, for
    a label, the first column of the frame that carries it. *)
Lemma eerste_per_label_getitem (cols : list (string * list cell))
  (labels : list string) (g : list string)
  (tl : list (string * list cell)) (k : string * list cell) :
  getitem_kolommen cols labels = Ok tl ->
  In k (eerste_per_label g tl) ->
  List.find (fun k' => String.eqb (fst k') (fst k)) cols = Some k.
Proof.
  revert g tl. induction labels as [|l rest IH]; intros g tl H Hin.
  - cbn in H. injection H as <-. destruct Hin.
  - apply getitem_kolommen_cons in H as (tl' & Htl' & ->).
    rewrite (eerste_per_label_app_zelfde g l) in Hin
      by (intros k' Hk'; apply filter_In in Hk' as [_ Hk'];
          apply String.eqb_eq; exact Hk').
    destruct (List.filter (fun k' => String.eqb (fst k') l) cols)
      as [|k0 hits] eqn:E; [eapply IH; eassumption |].
    destruct (existsb (String.eqb l) g); [eapply IH; eassumption |].
    destruct Hin as [<- | Hin]; [| eapply IH; eassumption].
    assert (Hk0 : fst k0 = l).
    { assert (F : In k0 (List.filter (fun k' => String.eqb (fst k') l) cols))
        by (rewrite E; left; reflexivity).
      apply filter_In in F as [_ F]. apply String.eqb_eq. exact F. }
    rewrite Hk0. eapply find_filter_kop. exact E.
Qed.

(** [df[naam] = v] leaves the first column of every other label. *)
Lemma find_setitem_ander (df : Frame) (naam l : string) (v : list cell) :
  l <> naam ->
  List.find (fun k => String.eqb (fst k) l) (kolommen (setitem df naam v))
  = List.find (fun k => String.eqb (fst k) l) (kolommen df).
Proof.
  intros Hne. unfold setitem. destruct (existsb _ _); cbn [kolommen].
  - induction (kolommen df) as [|k cols IH]; [reflexivity |].
    cbn [map List.find]. destruct (String.eqb (fst k) naam) eqn:E.
    + apply String.eqb_eq in E. cbn [fst].
      replace (String.eqb naam l) with false
        by (symmetry; apply String.eqb_neq; congruence).
      replace (String.eqb (fst k) l) with false
        by (symmetry; apply String.eqb_neq; congruence).
      exact IH.
    + destruct (String.eqb (fst k) l); [reflexivity | exact IH].
  - induction (kolommen df) as [|k cols IH].
    + cbn. replace (String.eqb naam l) with false
        by (symmetry; apply String.eqb_neq; congruence).
      reflexivity.
    + cbn [app List.find]. destruct (String.eqb (fst k) l);
        [reflexivity | exact IH].
Qed.

(** X23.  Every record holds a cell of the pruned data region, taken
    from the first column, counted from the left, whose header is the
    record's department: when a header occurs twice, the values of the
    later column are dropped, also when the first one is the organism or
    the resistance column. *)
Theorem waarde_uit_eerste_kolom (str_scalar : cell -> string)
  (xls : ExcelFile) (sheet bestand : string) (jaar maand : cell)
  (df0 : Frame) (t : list LongRecord) (r : LongRecord) :
  read_excel_skiprows_2 xls sheet = Ok df0 ->
  verwerk_sheet str_scalar xls sheet bestand jaar maand = Ok t ->
  In r t ->
  exists k i,
    List.find (fun k' => String.eqb (fst k') (Afdeling r))
      (kolommen (gesnoeid df0)) = Some k
    /\ (i < nrows (gesnoeid df0))%nat
    /\ Waarde r = cel i (snd k).
Proof.
  intros Hr H Hin.
  apply verwerk_sheet_Ok in H as (df & rows & Hdf & Hm & _ & ->).
  apply bereid_voor_ontleed in Hdf
    as (d0 & k0 & k1 & laatste & tl & Hr' & _ & _ & _ & Htl & Edf).
  rewrite Hr in Hr'. injection Hr' as <-.
  remember (nrows (gesnoeid df0)) as n eqn:En.
  set (rest := eerste_per_label ["Resistentie"; "Organisme"] tl) in *.
  assert (HO : ~ In "Organisme" (map fst rest)).
  { intros F. apply eerste_per_label_labels in F as [_ F]. cbn in F. tauto. }
  assert (HR : ~ In "Resistentie" (map fst rest)).
  { intros F. apply eerste_per_label_labels in F as [_ F]. cbn in F. tauto. }
  subst df.
  assert (HW : ~ In "Waarde" (map fst rest))
    by (intros HW; exact (melt_waarde_fout _ _ _ _ _ HW Hm)).
  rewrite (melt_vorm _ _ _ _ HO HR HW) in Hm. injection Hm as <-.
  apply in_map_iff in Hin as (m & <- & Hin).
  apply in_flat_map in Hin as (k & Hk & Hin).
  apply in_map_iff in Hin as (i & <- & Hi). apply in_seq in Hi.
  exists k, i. cbn [voeg_kolommen_toe Afdeling Waarde m_Afdeling m_Waarde].
  split; [| split; [lia | reflexivity]].
  assert (HkO : fst k <> "Organisme")
    by (intros F; apply HO; rewrite <- F; apply in_map; exact Hk).
  assert (HkR : fst k <> "Resistentie")
    by (intros F; apply HR; rewrite <- F; apply in_map; exact Hk).
  apply (eerste_per_label_getitem _ _ _ _ _ Htl) in Hk.
  rewrite !find_setitem_ander in Hk by assumption. exact Hk.
Qed.

Lemma waarde_uit_eerste_kolom_witness :
  exists k i,
    List.find (fun k' => String.eqb (fst k') "Afd A")
      (kolommen (gesnoeid Meer.tabel_dubbel)) = Some k
    /\ (i < nrows (gesnoeid Meer.tabel_dubbel))%nat
    /\ Getal 3 = cel i (snd k).
Proof.
  apply (waarde_uit_eerste_kolom Voorbeeld.str_scalar Meer.werkboek_dubbel
           "mei" "mei.xlsx" (Getal 2024) (Getal 5) Meer.tabel_dubbel
           Meer.records_mei
           (mk_long (Tekst "E. coli") (Tekst "ESBL") "Afd A" (Getal 3)
              1 1 0 0 0 (Getal 2024) (Getal 5))).
  - reflexivity.
  - reflexivity.
  - left. reflexivity.
Defined.

(* ===================================================================== *)
(** ** verwerk_sheet: the columns of the data region *)
(* ===================================================================== *)

Lemma existsb_select {A} (p : A -> bool) (mask : list bool) (l : list A) :
  Forall2 (fun b x => p x = true -> b = true) mask l ->
  existsb p (select mask l) = existsb p l.
Proof.
  induction 1 as [|b x mask l Hb _ IH]; [reflexivity |].
  cbn [select existsb]. destruct b.
  - cbn [existsb]. rewrite IH. reflexivity.
  - destruct (p x) eqn:E; [specialize (Hb eq_refl); discriminate |].
    exact IH.
Qed.

Lemma Forall2_map_seq {A} (f : nat -> bool) (p : A -> bool) (l : list A)
  (start : nat) :
  (forall i x, nth_error l i = Some x -> p x = true ->
               f (start + i)%nat = true) ->
  Forall2 (fun b x => p x = true -> b = true)
    (map f (seq start (length l))) l.
Proof.
  revert start. induction l as [|x l IH]; intros start H; [constructor |].
  cbn [length seq map]. constructor.
  - intros Hx. rewrite <- (Nat.add_0_r start). apply (H 0%nat x); auto.
  - apply IH. intros i y Hi Hy.
    replace (S start + i)%nat with (start + S i)%nat by lia.
    apply (H (S i) y); assumption.
Qed.

(** Dropping the rows without a value takes no value out of a column. *)
Lemma heeft_waarde_select (df : Frame) (k : string * list cell) :
  In k (kolommen df) ->
  length (snd k) = nrows df ->
  existsb (fun c => negb (isna c))
    (select (map (rij_notna df) (seq 0 (nrows df))) (snd k))
  = heeft_waarde k.
Proof.
  intros Hin Hlen. unfold heeft_waarde. apply existsb_select.
  rewrite <- Hlen. apply Forall2_map_seq. intros i c Hi Hc.
  unfold rij_notna. apply existsb_exists. exists k.
  split; [exact Hin |]. unfold cel. cbn [Nat.add].
  rewrite (nth_error_nth _ _ _ Hi). exact Hc.
Qed.

Lemma filter_map_comm {A B} (f : A -> B) (p : B -> bool) (l : list A) :
  List.filter p (map f l) = map f (List.filter (fun x => p (f x)) l).
Proof.
  induction l as [|x l IH]; [reflexivity |].
  cbn. destruct (p (f x)); cbn; rewrite IH; reflexivity.
Qed.

Lemma rechthoekig_iloc_vanaf_2 (df : Frame) :
  rechthoekig df -> rechthoekig (iloc_vanaf_2 df).
Proof.
  unfold rechthoekig. cbn [kolommen nrows iloc_vanaf_2].
  rewrite !List.Forall_forall. intros H k Hk. apply H.
  apply In_skipn in Hk. exact Hk.
Qed.

(** The two [dropna] of line 82 together: the columns that hold a value
    before the empty rows are dropped are the columns that hold one
    after. *)
Lemma dropna_kolommen_rijen (df : Frame) :
  rechthoekig df ->
  kolommen (dropna_kolommen (dropna_rijen df))
  = map (fun k => (fst k,
                   select (map (rij_notna df) (seq 0 (nrows df))) (snd k)))
      (List.filter heeft_waarde (kolommen df)).
Proof.
  intros H. unfold dropna_kolommen, dropna_rijen. cbn [kolommen].
  rewrite filter_map_comm. cbn [snd]. f_equal.
  apply filter_ext_in. intros k Hk.
  apply (heeft_waarde_select df k Hk).
  unfold rechthoekig in H. rewrite List.Forall_forall in H.
  apply H. exact Hk.
Qed.

Lemma kolommen_gesnoeid_dropna (df0 : Frame) :
  kolommen (gesnoeid df0)
  = map (fun k => (strip (fst k), map normaliseer_nbsp (snd k)))
      (kolommen (dropna_kolommen (dropna_rijen (iloc_vanaf_2 df0)))).
Proof.
  unfold gesnoeid, df_map, strip_columns. cbn [kolommen].
  rewrite map_map. reflexivity.
Qed.

(** X24.  The pruned data region, column by column: of the columns of
    the read table from the third (C) on, those that hold a value in
    some row, in their order, each with its header trimmed, without the
    rows that are empty from C on and with ordinary spaces in its texts.
    Its rows are the rows that hold a value from C on.  The column
    that line 88 reads as the organism column is the first of the kept
    columns, wherever it stands in the sheet. *)
Theorem kolommen_van_regio (df0 : Frame) :
  rechthoekig df0 ->
  kolommen (gesnoeid df0)
  = map (snoei_kolom df0)
      (List.filter heeft_waarde (skipn 2 (kolommen df0)))
  /\ nrows (gesnoeid df0) = count_true (rijmasker df0)
  /\ forall k0,
       iloc_kolom (gesnoeid df0) 0 = Ok k0 <->
       exists c, hd_error (List.filter heeft_waarde (skipn 2 (kolommen df0)))
                 = Some c
                 /\ k0 = snd (snoei_kolom df0 c).
Proof.
  intros H0.
  assert (E : kolommen (gesnoeid df0)
              = map (snoei_kolom df0)
                  (List.filter heeft_waarde (skipn 2 (kolommen df0)))).
  { rewrite kolommen_gesnoeid_dropna,
      (dropna_kolommen_rijen _ (rechthoekig_iloc_vanaf_2 _ H0)), map_map.
    reflexivity. }
  split; [exact E |]. split; [reflexivity |].
  intros k0. unfold iloc_kolom. rewrite E.
  destruct (List.filter heeft_waarde (skipn 2 (kolommen df0))) as [|c l].
  - cbn. split; [discriminate | intros (c & F & _); discriminate].
  - cbn [map nth_error hd_error]. split.
    + intros H. injection H as <-. exists c. auto.
    + intros (c' & Hc & ->). injection Hc as ->. reflexivity.
Qed.

Lemma kolommen_van_regio_witness :
  kolommen (gesnoeid Voorbeeld.tabel)
  = map (snoei_kolom Voorbeeld.tabel)
      (List.filter heeft_waarde (skipn 2 (kolommen Voorbeeld.tabel)))
  /\ nrows (gesnoeid Voorbeeld.tabel)
     = count_true (rijmasker Voorbeeld.tabel)
  /\ forall k0,
       iloc_kolom (gesnoeid Voorbeeld.tabel) 0 = Ok k0 <->
       exists c, hd_error (List.filter heeft_waarde
                             (skipn 2 (kolommen Voorbeeld.tabel)))
                 = Some c
                 /\ k0 = snd (snoei_kolom Voorbeeld.tabel c).
Proof.
  apply (kolommen_van_regio Voorbeeld.tabel). repeat constructor.
Defined.



Lemma cel_map_normaliseer (i : nat) (l : list cell) :
  cel i (map normaliseer_nbsp l) = normaliseer_nbsp (cel i l).
Proof.
  unfold cel. change NaN with (normaliseer_nbsp NaN) at 1. apply map_nth.
Qed.



(* ===================================================================== *)
(** ** verwerk_sheet: non-breaking spaces *)
(* ===================================================================== *)

Lemma geen_nbsp_replace (s : string) : geen_nbsp (replace_nbsp s).
Proof.
  unfold geen_nbsp, replace_nbsp.
  induction s as [|c s IH]; [intros [] |].
  cbn [str_map list_ascii_of_string In]. intros [H | H]; [| exact (IH H)].
  destruct (Ascii.eqb c nbsp) eqn:E; [discriminate |].
  apply Ascii.eqb_neq in E. congruence.
Qed.

Lemma In_lstrip (x : ascii) (s : string) :
  In x (list_ascii_of_string (lstrip s)) -> In x (list_ascii_of_string s).
Proof.
  induction s as [|c s IH]; [intros [] |].
  cbn [lstrip]. destruct (isspace c); [| auto].
  intros H. right. exact (IH H).
Qed.

Lemma In_rstrip (x : ascii) (s : string) :
  In x (list_ascii_of_string (rstrip s)) -> In x (list_ascii_of_string s).
Proof.
  induction s as [|c s IH]; [intros [] |].
  cbn [rstrip]. destruct (rstrip s) as [|d r].
  - destruct (isspace c); [intros [] |].
    intros [H | []]. left. exact H.
  - cbn [list_ascii_of_string In] in *. intros [H | H]; [left; exact H |].
    right. apply IH. exact H.
Qed.

Lemma geen_nbsp_strip (s : string) : geen_nbsp s -> geen_nbsp (strip s).
Proof.
  unfold geen_nbsp, strip. intros H F. apply H.
  apply In_lstrip, In_rstrip. exact F.
Qed.

(** Cleaning keeps texts free of non-breaking spaces. *)
Lemma geen_nbsp_schoon (str_scalar : cell -> string) (c : cell) (s : string) :
  (forall x, geen_nbsp (str_scalar x)) ->
  (forall s0, c = Tekst s0 -> geen_nbsp s0) ->
  schoon str_scalar c = Tekst s -> geen_nbsp s.
Proof.
  intros Hstr Hc. unfold schoon.
  destruct (String.eqb (strip _) ""); [discriminate |].
  intros H. injection H as <-. apply geen_nbsp_strip.
  unfold replace_waarde. destruct (String.eqb _ "nan"); [intros [] |].
  destruct c as [|s0|z|y m d]; cbn [astype_str].
  - unfold geen_nbsp. cbn. intros [H | [H | [H | []]]]; discriminate.
  - apply Hc. reflexivity.
  - apply Hstr.
  - apply Hstr.
Qed.

(** The texts of the pruned data region hold ordinary spaces only. *)
Lemma geen_nbsp_gesnoeid (df0 : Frame) (k : string * list cell) (i : nat)
  (s : string) :
  In k (kolommen (gesnoeid df0)) ->
  cel i (snd k) = Tekst s -> geen_nbsp s.
Proof.
  unfold gesnoeid, df_map. cbn [kolommen]. intros Hk.
  apply in_map_iff in Hk as (k' & <- & _). cbn [snd].
  rewrite cel_map_normaliseer.
  destruct (cel i (snd k')) as [|s0|z|y m d]; try discriminate.
  cbn [normaliseer_nbsp]. intros H. injection H as <-.
  apply geen_nbsp_replace.
Qed.

(** X26.  Non-breaking spaces do not reach the values of the records:
    when the texts that [str] makes of numbers and dates hold none, no
    [Organisme], [Resistentie] or [Waarde] that is a text holds a
    non-breaking space. *)
Theorem geen_nbsp_in_record (str_scalar : cell -> string)
  (xls : ExcelFile) (sheet bestand : string) (jaar maand : cell)
  (t : list LongRecord) (r : LongRecord) :
  (forall x, geen_nbsp (str_scalar x)) ->
  verwerk_sheet str_scalar xls sheet bestand jaar maand = Ok t ->
  In r t ->
  (forall s, Organisme r = Tekst s -> geen_nbsp s)
  /\ (forall s, Resistentie r = Tekst s -> geen_nbsp s)
  /\ (forall s, Waarde r = Tekst s -> geen_nbsp s).
Proof.
  intros Hstr H Hin.
  apply verwerk_sheet_vorm in H
    as (df0 & k0 & k1 & rest & _ & Hk0 & Hk1 & Hrest & _ & _ & _ & _ & ->).
  apply in_records_van in Hin as (k & i & Hk & _ & ->).
  cbn [voeg_kolommen_toe Organisme Resistentie Waarde m_Organisme
         m_Resistentie m_Waarde].
  apply iloc_kolom_In in Hk0 as (l0 & Hk0).
  assert (S0 : forall j s, schoon str_scalar (cel j k0) = Tekst s ->
                           geen_nbsp s).
  { intros j s. apply geen_nbsp_schoon; [exact Hstr |].
    intros s0 E. apply (geen_nbsp_gesnoeid df0 (l0, k0) j s0 Hk0 E). }
  split; [apply S0 |]. split.
  - intros s. apply geen_nbsp_schoon; [exact Hstr |].
    intros s0 E. apply iloc_kolom_In in Hk1 as (l1 & Hk1).
    apply setitem_In in Hk1 as [Hk1 | [_ Hk1]].
    + injection Hk1 as _ ->. rewrite cel_map_schoon in E.
      apply (S0 i s0 E).
    + apply (geen_nbsp_gesnoeid df0 (l1, k1) i s0 Hk1 E).
  - intros s E. apply (geen_nbsp_gesnoeid df0 k i s (Hrest k Hk) E).
Qed.

Lemma geen_nbsp_in_record_witness :
  let r := mk_long (Tekst "E. coli") (Tekst "ESBL positief") "Afd A"
             (Getal 3) 1 1 0 0 0 (Getal 2024) (Getal 3) in
  (forall s, Organisme r = Tekst s -> geen_nbsp s)
  /\ (forall s, Resistentie r = Tekst s -> geen_nbsp s)
  /\ (forall s, Waarde r = Tekst s -> geen_nbsp s).
Proof.
  apply (geen_nbsp_in_record (fun _ => "0") Voorbeeld.xls "maart"
           "maart.XLSX" (Getal 2024) (Getal 3) Meer.records_maart).
  - intros x [H | []]. discriminate.
  - reflexivity.
  - left. reflexivity.
Defined.
